(** * GABAGOOL policy core: parameter loader, policy engine, policy integrator

    A shallow embedding of
      - [src/services/paramLoader.ts]   (class [ParameterLoader]),
      - [src/services/policyEngine.ts]  (class [PolicyEngine]),
      - [src/services/marketTracker.ts] (class [PolicyIntegrator], both
        revisions kept in that file),
      - [src/services/webAppPublisher.ts] (the earlier revision of class
        [PolicyEngine], kept at the end of that file), which the earlier
        integrator calls,
    the properties of them that the specification states, and further
    properties that the code itself shows.

    Conventions.  A JavaScript [number] that carries a price, a share
    count, a threshold or a timestamp is an exact rational ([Q]); the
    engines add, subtract, multiply, divide and compare such numbers, and
    the earlier one rounds sizes to four decimals.
    Counters that the code only ever increments by one are integers
    ([Z]).  [null] and [undefined] are [None].  A JavaScript object used
    as a dictionary and a [Map] are [gmap]s.  A call that raises a
    [TypeError] returns [Throw].

    The rationals are exact where the code's numbers round.  The
    statements compare numbers and follow the code's own operations in the
    code's order; where exact arithmetic would prove more than the
    rounding code does (a distance of more than 0.5 for every price below
    0, an average cost that multiplies back to the money paid), the weaker
    statement is the one given. *)

From Stdlib Require Import ZArith QArith Qabs Qround List String Ascii Bool Lia Lqa.
From Stdlib Require Import DecimalString.
From stdpp Require Import base option list gmap strings.

Import ListNotations.
#[local] Open Scope Q_scope.
#[local] Open Scope string_scope.

(** ** JavaScript primitives *)

Module Js.

(** Comparison of numbers. *)
Definition leb (x y : Q) : bool := Qle_bool x y.
Definition ltb (x y : Q) : bool := negb (Qle_bool y x).
Definition geb (x y : Q) : bool := Qle_bool y x.
Definition gtb (x y : Q) : bool := negb (Qle_bool x y).

(** [Math.abs], [Math.max]. *)
Definition Math_abs (x : Q) : Q := Qabs x.
Definition Math_max (x y : Q) : Q := if ltb x y then y else x.
Definition Math_min (x y : Q) : Q := if ltb y x then y else x.

(** [parseFloat(x.toFixed(digits))] for a number below [1e21] in absolute
    value: [x] rounded to [digits] decimals, the nearest one and, of two
    equally near, the one further from zero ([toFixed] rounds the absolute
    value and picks the larger candidate). *)
Definition toFixed (digits : nat) (x : Q) : Q :=
  let scale := inject_Z (10 ^ Z.of_nat digits) in
  let nearest (y : Q) := inject_Z (Qfloor (y * scale + (1 # 2))) / scale in
  if ltb x 0 then - nearest (- x) else nearest x.

(** [Math.sqrt], to fifteen decimals (the rationals have no square
    roots; the engine takes one root, for the volatility feature, which
    no gate reads). *)
Definition Math_sqrt (x : Q) : Q :=
  Qmake (Z.sqrt ((Qnum x * 10 ^ 30) / Zpos (Qden x))) (10 ^ 15)%positive.

(** The length of an array as a number. *)
Definition length_number {A} (l : list A) : Q := inject_Z (Z.of_nat (length l)).

(** Truthiness of a number and of a string, for [x || d]. *)
Definition number_or (o : option Q) (d : Q) : Q :=
  match o with
  | Some v => if Qeq_bool v 0 then d else v
  | None => d
  end.

Definition string_or (o : option string) (d : string) : string :=
  match o with
  | Some EmptyString | None => d
  | Some s => s
  end.

(** [m.get(k) || null] on a map of numbers: a stored zero is falsy. *)
Definition number_or_null (o : option Q) : option Q :=
  match o with
  | Some v => if Qeq_bool v 0 then None else Some v
  | None => None
  end.

(** [String.prototype.includes]. *)
Fixpoint includes (s sub : string) : bool :=
  String.prefix sub s
  || match s with
     | EmptyString => false
     | String _ rest => includes rest sub
     end.

(** Decimal digits of an integer. *)
Definition integer_to_string (z : Z) : string :=
  NilZero.string_of_int (Z.to_int z).

Definition digit (d : Z) : ascii := ascii_of_nat (48 + Z.to_nat d).

(** The digits after the point of [r / d], [0 <= r < d], at most [fuel]
    of them, none when the fraction is zero. *)
Fixpoint fraction_digits (fuel : nat) (r d : Z) : string :=
  match fuel with
  | O => EmptyString
  | S fuel' =>
      if (r =? 0)%Z then EmptyString
      else String (digit (r * 10 / d)) (fraction_digits fuel' (r * 10 mod d) d)
  end.

(** [Number.prototype.toString] as a template literal applies it, on a
    decimal fraction of moderate size: the integer part, then the
    fractional digits without trailing zeros ([1.0] prints as [1], [0.50]
    as [0.5]).  That is what JavaScript prints for a number read from a
    decimal literal of at most fifteen significant digits, which is how
    [bin_edges] arrive from the parameter file. *)
Definition number_to_string (x : Q) : string :=
  let n := Z.abs (Qnum x) in
  let d := Zpos (Qden x) in
  let frac := fraction_digits 20 (n mod d) d in
  (if (Qnum x <? 0)%Z then "-" else "")
    +:+ integer_to_string (n / d)
    +:+ (match frac with EmptyString => "" | _ => "." +:+ frac end).

(** [[...l].sort((a, b) => key(a) - key(b))]: a stable sort by key. *)
Section Sort.
Context {A : Type} (key : A -> Q).

Fixpoint insert_sorted (x : A) (l : list A) : list A :=
  match l with
  | [] => [x]
  | y :: l' => if leb (key x) (key y) then x :: y :: l' else y :: insert_sorted x l'
  end.

Definition sort_by (l : list A) : list A := fold_right insert_sorted [] l.
End Sort.

(** What a call returns: a value, or the exception it raised. *)
Inductive error : Type :=
| TypeError (message : string).

Inductive result (A : Type) : Type :=
| Ok (a : A)
| Throw (e : error).
#[global] Arguments Ok {A} a.
#[global] Arguments Throw {A} e.

Definition bind {A B} (r : result A) (k : A -> result B) : result B :=
  match r with
  | Ok a => k a
  | Throw e => Throw e
  end.

End Js.

Import Js.

Declare Scope js_scope.
Delimit Scope js_scope with js.
Notation "x <=? y" := (Js.leb x y) : js_scope.
Notation "x <? y" := (Js.ltb x y) : js_scope.
Notation "x >=? y" := (Js.geb x y) : js_scope.
Notation "x >? y" := (Js.gtb x y) : js_scope.
#[local] Open Scope js_scope.

(** ** Data model *)

Inductive Side : Type := UP | DOWN.

#[global] Instance Side_eq_dec : EqDecision Side.
Proof. solve_decision. Defined.

(** [interface TapeState] (policyEngine.ts). *)
Record TapeState : Type := {
  timestamp : Q;
  up_px : Q;
  down_px : Q;
  market : string;
}.

(** [interface PriceHistory]; the integrator's last-price snapshot
    [{ up_px, down_px, timestamp }] has the same shape. *)
Record PriceHistory : Type := {
  h_timestamp : Q;
  h_up_px : Q;
  h_down_px : Q;
}.

(** [interface Features]: every field but [distance_from_50] is optional. *)
Record Features : Type := {
  delta_1s_side_px : option Q;
  delta_5s_side_px : option Q;
  delta_30s_side_px : option Q;
  delta_1s_up_px : option Q;
  delta_5s_up_px : option Q;
  delta_30s_up_px : option Q;
  delta_1s_down_px : option Q;
  delta_5s_down_px : option Q;
  delta_30s_down_px : option Q;
  volatility_5s : option Q;
  volatility_30s : option Q;
  distance_from_50 : Q;
}.

(** [interface InventoryState]. *)
Record InventoryState : Type := {
  inv_up_shares : Q;
  inv_down_shares : Q;
  avg_cost_up : option Q;
  avg_cost_down : option Q;
}.

(** [interface EntrySignal]. *)
Record EntrySignal : Type := {
  should_trade : bool;
  side : option Side;
  reason : string;
}.

(** *** Parameters (paramLoader.ts) *)

Inductive EntryMode : Type := momentum | reversion | none.

Record EntryParams : Type := {
  up_price_min : option Q;
  up_price_max : option Q;
  down_price_min : option Q;
  down_price_max : option Q;
  momentum_window_s : Q;
  momentum_threshold : Q;
  mode : EntryMode;
}.

(** [interface SizeParams].  The fields [size_table_1d],
    [inventory_bucket_thresholds] and [inventory_buckets] are the ones
    [sizeForTrade] reads; every field the code guards with [|| []] or
    [|| {}] is optional. *)
Record SizeParams : Type := {
  bin_edges : option (list Q);
  size_table : option (gmap string Q);
  size_table_1d : option (gmap string Q);
  conditioning_var : option string;
  inventory_bucket_thresholds : option (list Q);
  inventory_buckets : option (list string);
}.

Record InventoryParams : Type := {
  rebalance_ratio_R : Q;
  max_up_shares : Q;
  max_down_shares : Q;
  max_total_shares : Q;
}.

Record CadenceParams : Type := {
  min_inter_trade_ms : Q;
  p50_inter_trade_ms : Q;
  p95_inter_trade_ms : Q;
  max_trades_per_sec : Q;
  max_trades_per_min : Q;
}.

Inductive SideSelectionMode : Type :=
| inventory_driven | edge_driven | momentum_driven | alternating
| fixed_preference | mixed.

(** Modelled from the spec: the declarations of [SideSelectionParams],
    [ExecutionParams], [CooldownParams], [RiskParams],
    [QualityFilterParams] and [ResetParams], which policyEngine.ts imports
    from a revision of paramLoader.ts that is not among the sources.  The
    fields are those of the specification's data model, with the types the
    engine's uses of them fix. *)
Record SideSelectionParams : Type := {
  ss_mode : SideSelectionMode;
  preferred_side : option Side;
  confidence_gap : option Q;
}.

Inductive ExecutionModel : Type :=
| snapshot_price | fixed_slippage | mid_price | worst_case.

Record ExecutionParams : Type := {
  model_type : ExecutionModel;
  slippage_offset : Q;
  fill_bias_median : option Q;
  fill_bias_p75 : option Q;
}.

Record CooldownParams : Type := {
  has_time_cooldown : bool;
  time_cooldown_seconds : Q;
  price_move_threshold : option Q;
  has_inventory_lockout : bool;
  inventory_lockout_threshold : option Q;
}.

Record RiskParams : Type := {
  max_trades_per_session : option Q;
  max_imbalance_ratio : Q;
  max_exposure_up_shares : Q;
  max_exposure_down_shares : Q;
}.

Record QualityFilterParams : Type := {
  max_price_sum_deviation : Q;
  timestamp_jump_threshold_seconds : Q;
  price_gap_threshold : Q;
}.

Record ResetParams : Type := {
  resets_on_market_switch : bool;
  resets_on_inactivity : bool;
  inactivity_threshold_hours : Q;
}.

(** [interface MarketParams]: what the integrator is handed per tick. *)
Record MarketParams : Type := {
  entry_params : option EntryParams;
  size_params : option SizeParams;
  inventory_params : option InventoryParams;
  cadence_params : option CadenceParams;
  side_selection_params : option SideSelectionParams;
  execution_params : option ExecutionParams;
  cooldown_params : option CooldownParams;
  risk_params : option RiskParams;
  quality_filter_params : option QualityFilterParams;
  reset_params : option ResetParams;
}.

(** ** The policy engine (policyEngine.ts) *)

(** [const IGNORE_ENTRY_BANDS = true]. *)
Definition IGNORE_ENTRY_BANDS : bool := true.

Module PolicyEngine.

(** *** [computeFeatures] *)

(** The closure [findClosest] over the sorted history, whose first entry
    is [first]. *)
Definition findClosest (first : PriceHistory) (sortedHistory : list PriceHistory)
    (targetTs : Q) : PriceHistory :=
  fst (fold_left
         (fun (acc : PriceHistory * Q) (h : PriceHistory) =>
            let diff := Math_abs (h_timestamp h - targetTs) in
            if diff <? snd acc then (h, diff) else acc)
         sortedHistory
         (first, Math_abs (h_timestamp first - targetTs))).

(** One round of the loop over [[1, 5, 30]]: the pair
    [(deltaUp, deltaDown)] when the closest point is within twice the
    window. *)
Definition deltas (state : TapeState) (first : PriceHistory)
    (sortedHistory : list PriceHistory) (seconds : Q) : option (Q * Q) :=
  let windowTs := timestamp state - seconds * 1000 in
  let past := findClosest first sortedHistory windowTs in
  if Math_abs (h_timestamp past - windowTs) <? seconds * 2000
  then Some (up_px state - h_up_px past, down_px state - h_down_px past)
  else None.

(** One round of the loop over [[5, 30]]: the population standard
    deviation of the UP prices in the window, when it holds more than one. *)
Definition volatility (state : TapeState) (sortedHistory : list PriceHistory)
    (seconds : Q) : option Q :=
  let now := timestamp state in
  let windowTs := now - seconds * 1000 in
  let windowPrices :=
    map h_up_px
      (List.filter (fun h => (h_timestamp h >=? windowTs) && (h_timestamp h <=? now))
         sortedHistory) in
  if (1 <? length windowPrices)%nat then
    let mean := fold_left Qplus windowPrices 0 / length_number windowPrices in
    let variance :=
      fold_left (fun sum p => sum + (p - mean) * (p - mean)) windowPrices 0
      / length_number windowPrices in
    Some (Math_sqrt variance)
  else None.

Definition computeFeatures (state : TapeState) (history : list PriceHistory) : Features :=
  let distance := Math_abs (up_px state - (1 # 2)) in
  match sort_by h_timestamp history with
  | [] =>
      (* history.length === 0 *)
      {| delta_1s_side_px := None; delta_5s_side_px := None; delta_30s_side_px := None;
         delta_1s_up_px := None; delta_5s_up_px := None; delta_30s_up_px := None;
         delta_1s_down_px := None; delta_5s_down_px := None; delta_30s_down_px := None;
         volatility_5s := None; volatility_30s := None;
         distance_from_50 := distance |}
  | (first :: _) as sortedHistory =>
      let d1 := deltas state first sortedHistory 1 in
      let d5 := deltas state first sortedHistory 5 in
      let d30 := deltas state first sortedHistory 30 in
      {| delta_1s_side_px := fst <$> d1;
         delta_5s_side_px := fst <$> d5;
         delta_30s_side_px := fst <$> d30;
         delta_1s_up_px := fst <$> d1;
         delta_5s_up_px := fst <$> d5;
         delta_30s_up_px := fst <$> d30;
         delta_1s_down_px := snd <$> d1;
         delta_5s_down_px := snd <$> d5;
         delta_30s_down_px := snd <$> d30;
         volatility_5s := volatility state sortedHistory 5;
         volatility_30s := volatility state sortedHistory 30;
         distance_from_50 := distance |}
  end.

(** *** [entrySignal] and [checkSideEntry] *)

(** [min !== null && max !== null && px >= min && px <= max]. *)
Definition in_band (lo hi : option Q) (px : Q) : bool :=
  match lo, hi with
  | Some lo, Some hi => (px >=? lo) && (px <=? hi)
  | _, _ => false
  end.

(** The momentum / reversion check both functions apply to a side's
    five-second delta: the signal and its reason. *)
Definition mode_check (entryParams : EntryParams) (delta : Q) (bandReason : string)
    : bool * string :=
  match mode entryParams with
  | momentum =>
      if delta <? momentum_threshold entryParams
      then (false, "momentum_not_met") else (true, "momentum_met")
  | reversion =>
      if delta >? - momentum_threshold entryParams
      then (false, "reversion_not_met") else (true, "reversion_met")
  | none => (true, bandReason)
  end.

Definition no_signal (why : string) : EntrySignal :=
  {| should_trade := false; side := None; reason := why |}.

Definition entrySignal (state : TapeState) (features : Features)
    (entryParams : option EntryParams) : EntrySignal :=
  match entryParams with
  | None => no_signal "no_entry_params"
  | Some entryParams =>
      let upInBand :=
        IGNORE_ENTRY_BANDS
        || in_band (up_price_min entryParams) (up_price_max entryParams) (up_px state) in
      let downInBand :=
        IGNORE_ENTRY_BANDS
        || in_band (down_price_min entryParams) (down_price_max entryParams) (down_px state) in
      let delta5s := default 0 (delta_5s_side_px features) in
      let '(upSignal, upReason) := mode_check entryParams delta5s "up_price_band" in
      if upInBand && upSignal then
        {| should_trade := true; side := Some UP; reason := upReason |}
      else
        let delta5sDown := default delta5s (delta_5s_down_px features) in
        let '(downSignal, downReason) :=
          mode_check entryParams delta5sDown "down_price_band" in
        if downInBand && downSignal then
          {| should_trade := true; side := Some DOWN; reason := downReason |}
        else no_signal "no_band_match"
  end.

Definition checkSideEntry (state : TapeState) (features : Features)
    (entryParams : option EntryParams) (s : Side) : EntrySignal :=
  match entryParams with
  | None => no_signal "no_entry_params"
  | Some entryParams =>
      match s with
      | UP =>
          if negb (in_band (up_price_min entryParams) (up_price_max entryParams)
                     (up_px state))
          then no_signal "up_price_not_in_band"
          else
            let delta5s := default 0 (delta_5s_side_px features) in
            let '(upSignal, upReason) := mode_check entryParams delta5s "up_price_band" in
            {| should_trade := upSignal;
               side := if upSignal then Some UP else None;
               reason := upReason |}
      | DOWN =>
          if negb (in_band (down_price_min entryParams) (down_price_max entryParams)
                     (down_px state))
          then no_signal "down_price_not_in_band"
          else
            let delta5s := default 0 (delta_5s_side_px features) in
            let delta5sDown := default delta5s (delta_5s_down_px features) in
            let '(downSignal, downReason) :=
              mode_check entryParams delta5sDown "down_price_band" in
            {| should_trade := downSignal;
               side := if downSignal then Some DOWN else None;
               reason := downReason |}
      end
  end.

(** *** [sizeForTrade] *)

(** The loop that looks for the price bucket: the first [i] with
    [leftEdge < sidePx <= binEdges[i + 1]], where [leftEdge] is [-0.001]
    for [i = 0] and [binEdges[i]] otherwise; [edges] is [binEdges] from
    index [i] on. *)
Fixpoint find_price_bucket (i : nat) (edges : list Q) (sidePx : Q) : option nat :=
  match edges with
  | lower :: ((rightEdge :: _) as rest) =>
      let leftEdge := match i with O => - (1 # 1000) | _ => lower end in
      if (sidePx >? leftEdge) && (sidePx <=? rightEdge) then Some i
      else find_price_bucket (S i) rest sidePx
  | _ => None
  end.

(** [binEdges[i]] inside a template literal. *)
Definition edge_text (binEdges : list Q) (i : nat) : string :=
  match binEdges !! i with
  | Some e => number_to_string e
  | None => "undefined"
  end.

Definition priceBucketKey (binEdges : list Q) (priceBucketIndex : nat) : string :=
  match priceBucketIndex with
  | O => "(-0.001, " +:+ edge_text binEdges 1 +:+ "]"
  | _ => "(" +:+ edge_text binEdges priceBucketIndex +:+ ", "
             +:+ edge_text binEdges (priceBucketIndex + 1) +:+ "]"
  end.

(** The median fallback: [Object.values(sizeTable)] sorted ascending, the
    entry at [floor(length / 2)]; [1.0] for an empty table. *)
Definition median_size (sizeTable : gmap string Q) : Q :=
  let allSizes := (map_to_list sizeTable).*2 in
  match allSizes with
  | [] => 1
  | _ => let sorted := sort_by (fun x => x) allSizes in
         nth (length sorted / 2) sorted 1
  end.

(** The loop that looks for the inventory bucket: the first [i] with
    [imbalanceRatio <= thresholds[i + 1]]; [rest] is [thresholds] from
    index [i + 1] on. *)
Fixpoint find_inventory_bucket (i : nat) (rest : list Q) (imbalanceRatio : Q)
    : option nat :=
  match rest with
  | [] => None
  | t :: rest' =>
      if imbalanceRatio <=? t then Some i
      else find_inventory_bucket (S i) rest' imbalanceRatio
  end.

Definition invBucketIndex (thresholds : list Q) (imbalanceRatio : Q) : nat :=
  let found := default O (find_inventory_bucket 0 (tail thresholds) imbalanceRatio) in
  match last thresholds with
  | Some t => if imbalanceRatio >? t then (length thresholds - 2)%nat else found
  | None => found
  end.

(** Fallback 1: the first inventory bucket whose key for this price
    bucket is in the table. *)
Fixpoint first_other_bucket (sizeTable : gmap string Q) (priceKey : string)
    (inventoryBuckets : list string) : option Q :=
  match inventoryBuckets with
  | [] => None
  | invBucket :: rest =>
      match sizeTable !! (priceKey +:+ "|" +:+ invBucket) with
      | Some size => Some size
      | None => first_other_bucket sizeTable priceKey rest
      end
  end.

Definition eps : Q := 1 # 1000000.

Definition sizeForTrade (state : TapeState) (features : Features)
    (sizeParams : option SizeParams) (s : Side) (inventory : option InventoryState)
    : result Q :=
  match sizeParams with
  | None => Ok 1
  | Some sizeParams =>
      let sidePx := match s with UP => up_px state | DOWN => down_px state end in
      let binEdges := default [] (bin_edges sizeParams) in
      if (length binEdges <? 2)%nat then Ok 1
      else
        let priceBucketIndex :=
          match find_price_bucket 0 binEdges sidePx with
          | Some i => i
          | None =>
              (* outside the range: clamp to the nearest bucket *)
              if sidePx <=? nth 0 binEdges 0 then O else (length binEdges - 2)%nat
          end in
        let key := priceBucketKey binEdges priceBucketIndex in
        let sizeTable1d := default ∅ (size_table_1d sizeParams) in
        let sizeTable := default ∅ (size_table sizeParams) in
        match conditioning_var sizeParams with
        | None | Some EmptyString =>
            match sizeTable1d !! key with
            | Some size => Ok size
            | None =>
                match sizeTable !! key with
                | Some size => Ok size
                | None => Ok (median_size sizeTable)
                end
            end
        | Some conditioningVar =>
            if String.eqb conditioningVar "inventory_imbalance_ratio" then
              match inventory with
              | None =>
                  Throw (TypeError
                    "Cannot read properties of undefined (reading 'inv_up_shares')")
              | Some inventory =>
                  let invUp := inv_up_shares inventory in
                  let invDown := inv_down_shares inventory in
                  let imbalanceRatio := invUp / Math_max invDown eps in
                  let thresholds := default [] (inventory_bucket_thresholds sizeParams) in
                  if (length thresholds <? 2)%nat then
                    Ok (number_or (sizeTable1d !! key) 1)
                  else
                    let index := invBucketIndex thresholds imbalanceRatio in
                    let inventoryBucketLabel :=
                      string_or (inventory_buckets sizeParams ≫= (.!! index))
                        ("bucket_" +:+ integer_to_string (Z.of_nat index)) in
                    let key2d := key +:+ "|" +:+ inventoryBucketLabel in
                    match sizeTable !! key2d with
                    | Some size => Ok size
                    | None =>
                        match first_other_bucket sizeTable key
                                (default [] (inventory_buckets sizeParams)) with
                        | Some size => Ok size
                        | None =>
                            match sizeTable1d !! key with
                            | Some size => Ok size
                            | None => Ok (median_size sizeTable)
                            end
                        end
                    end
              end
            else
              (* unknown conditioning_var: fall back to the 1D table *)
              Ok (number_or (sizeTable1d !! key) 1)
        end
  end.

(** *** [inventoryOkAndRebalance] *)

Definition inventoryOkAndRebalance (inventory : InventoryState)
    (inventoryParams : option InventoryParams) (proposedSide : Side) : option Side :=
  match inventoryParams with
  | None => Some proposedSide
  | Some inventoryParams =>
      let total := inv_up_shares inventory + inv_down_shares inventory in
      if total >=? max_total_shares inventoryParams then None
      else
        match proposedSide with
        | UP =>
            if inv_up_shares inventory >=? max_up_shares inventoryParams
            then None else Some UP
        | DOWN =>
            if inv_down_shares inventory >=? max_down_shares inventoryParams
            then None else Some DOWN
        end
  end.

(** *** [cadenceOk] *)

(** [recentTradeTimes.filter(ts => ts >= start && ts <= currentTs).length]. *)
Definition trades_in_window (recentTradeTimes : list Q) (start currentTs : Q) : Q :=
  length_number (List.filter (fun ts => (ts >=? start) && (ts <=? currentTs)) recentTradeTimes).

Definition cadenceOk (lastTradeTs : option Q) (recentTradeTimes : list Q)
    (cadenceParams : option CadenceParams) (currentTs : Q) : bool :=
  match cadenceParams with
  | None => true
  | Some cadenceParams =>
      let tooSoon :=
        match lastTradeTs with
        | Some lastTradeTs =>
            (min_inter_trade_ms cadenceParams >? 0)
            && (currentTs - lastTradeTs <? min_inter_trade_ms cadenceParams)
        | None => false
        end in
      if tooSoon then false
      else if trades_in_window recentTradeTimes (currentTs - 1000) currentTs
              >=? max_trades_per_sec cadenceParams then false
      else if trades_in_window recentTradeTimes (currentTs - 60000) currentTs
              >=? max_trades_per_min cadenceParams then false
      else true
  end.

(** *** [selectSideWhenBothValid] and [inventoryFirstTieBreak] *)

(** [upDistance > downDistance ? 'UP' : 'DOWN']. *)
Definition higher_edge (state : TapeState) : Side :=
  let upDistance := Math_abs (up_px state - (1 # 2)) in
  let downDistance := Math_abs (down_px state - (1 # 2)) in
  if upDistance >? downDistance then UP else DOWN.

Definition inventoryFirstTieBreak (state : TapeState) (inventory : InventoryState) : Side :=
  let total := inv_up_shares inventory + inv_down_shares inventory in
  if total <? eps then higher_edge state
  else
    let imbalanceRatio :=
      inv_up_shares inventory / Math_max (inv_down_shares inventory) eps in
    if imbalanceRatio >? 1 then DOWN
    else if imbalanceRatio <? 1 then UP
    else higher_edge state.

Definition selectSideWhenBothValid (state : TapeState) (features : Features)
    (inventory : InventoryState) (sideSelectionParams : option SideSelectionParams)
    (entrySignalUp entrySignalDown : bool) : option Side :=
  match entrySignalUp, entrySignalDown with
  | false, false => None
  | true, false => Some UP
  | false, true => Some DOWN
  | true, true =>
      match sideSelectionParams with
      | None => Some (inventoryFirstTieBreak state inventory)
      | Some sideSelectionParams =>
          let lowConfidence :=
            match confidence_gap sideSelectionParams with
            | Some gap => gap <? (1 # 10)
            | None => false
            end in
          match ss_mode sideSelectionParams with
          | mixed => Some (inventoryFirstTieBreak state inventory)
          | m =>
              if lowConfidence then Some (inventoryFirstTieBreak state inventory)
              else
                match m with
                | edge_driven => Some (higher_edge state)
                | momentum_driven =>
                    let delta5s := default 0 (delta_5s_side_px features) in
                    if delta5s >? (1 # 1000) then Some UP
                    else if delta5s <? - (1 # 1000) then Some DOWN
                    else Some (inventoryFirstTieBreak state inventory)
                | fixed_preference =>
                    Some (default UP (preferred_side sideSelectionParams))
                | inventory_driven | alternating | mixed =>
                    Some (inventoryFirstTieBreak state inventory)
                end
          end
      end
  end.

(** *** [simulateFillPrice] *)

Definition simulateFillPrice (s : Side) (snapshotSidePx : Q)
    (executionParams : option ExecutionParams) : Q :=
  match executionParams with
  | None => snapshotSidePx
  | Some executionParams =>
      match model_type executionParams with
      | snapshot_price => snapshotSidePx
      | fixed_slippage => snapshotSidePx + slippage_offset executionParams
      | mid_price => snapshotSidePx + number_or (fill_bias_median executionParams) 0
      | worst_case =>
          snapshotSidePx
          + number_or (fill_bias_p75 executionParams)
              (number_or (fill_bias_median executionParams) 0)
      end
  end.

(** *** [checkCooldown] *)

(** The larger side's share of the total, [Math.max(up / total, down / total)]. *)
Definition larger_share (inventory : InventoryState) (total : Q) : Q :=
  Math_max (inv_up_shares inventory / total) (inv_down_shares inventory / total).

Definition checkCooldown (lastTradeTs : option Q) (currentTs : Q) (features : Features)
    (inventory : InventoryState) (cooldownParams : option CooldownParams) : bool :=
  match cooldownParams with
  | None => true
  | Some cooldownParams =>
      let timeBlocked :=
        match lastTradeTs with
        | Some lastTradeTs =>
            has_time_cooldown cooldownParams
            && ((currentTs - lastTradeTs) / 1000 <? time_cooldown_seconds cooldownParams)
        | None => false
        end in
      let moveBlocked :=
        match price_move_threshold cooldownParams, lastTradeTs with
        | Some threshold, Some lastTradeTs =>
            ((currentTs - lastTradeTs) / 1000 <? 5)
            && (Math_abs (number_or (delta_5s_side_px features) 0) <? threshold)
        | _, _ => false
        end in
      let lockedOut :=
        match inventory_lockout_threshold cooldownParams with
        | Some threshold =>
            has_inventory_lockout cooldownParams
            && (let total := inv_up_shares inventory + inv_down_shares inventory in
                (total >? 0) && (larger_share inventory total >? threshold))
        | None => false
        end in
      if timeBlocked then false
      else if moveBlocked then false
      else if lockedOut then false
      else true
  end.

(** *** [checkRiskLimits] *)

Definition checkRiskLimits (tradesThisSession : Q) (inventory : InventoryState)
    (riskParams : option RiskParams) : bool :=
  match riskParams with
  | None => true
  | Some riskParams =>
      let sessionFull :=
        match max_trades_per_session riskParams with
        | Some cap => tradesThisSession >=? cap
        | None => false
        end in
      let total := inv_up_shares inventory + inv_down_shares inventory in
      if sessionFull then false
      else if (total >? 0) && (larger_share inventory total >? max_imbalance_ratio riskParams)
      then false
      else if inv_up_shares inventory >? max_exposure_up_shares riskParams then false
      else if inv_down_shares inventory >? max_exposure_down_shares riskParams then false
      else true
  end.

(** *** [checkDataQuality] *)

Definition checkDataQuality (state : TapeState) (lastPriceState : option PriceHistory)
    (qualityFilterParams : option QualityFilterParams) : bool :=
  match qualityFilterParams with
  | None => true
  | Some qualityFilterParams =>
      let priceSum := up_px state + down_px state in
      let deviation := Math_abs (priceSum - 1) in
      if deviation >? max_price_sum_deviation qualityFilterParams then false
      else
        match lastPriceState with
        | None => true
        | Some lastPriceState =>
            let timeDiff := (timestamp state - h_timestamp lastPriceState) / 1000 in
            if timeDiff >? timestamp_jump_threshold_seconds qualityFilterParams then false
            else
              let upGap := Math_abs (up_px state - h_up_px lastPriceState) in
              let downGap := Math_abs (down_px state - h_down_px lastPriceState) in
              let maxGap := Math_max upGap downGap in
              if maxGap >? price_gap_threshold qualityFilterParams then false
              else true
        end
  end.

(** *** [shouldResetInventory] *)

Definition shouldResetInventory (lastActivityTs : option Q) (currentTs : Q)
    (resetParams : option ResetParams) : bool :=
  match resetParams with
  | None => false
  | Some resetParams =>
      match lastActivityTs with
      | None => resets_on_market_switch resetParams
      | Some lastActivityTs =>
          resets_on_inactivity resetParams
          && (let hoursSinceActivity :=
                (currentTs - lastActivityTs) / (1000 * 60 * 60) in
              hoursSinceActivity >? inactivity_threshold_hours resetParams)
      end
  end.

End PolicyEngine.

(** ** The earlier policy engine (webAppPublisher.ts, lines 333-809)

    The revision of [class PolicyEngine] that the earlier revision of the
    integrator calls: [entrySignal] checks the bands, [sizeForTrade] takes
    four arguments and scales the size by the distance from 50:50,
    [inventoryOkAndRebalance] can switch sides, and [cadenceOk] has no
    test on the sign of [min_inter_trade_ms].  [computeFeatures] and
    [checkSideEntry] are the later engine's, word for word. *)

Module PolicyEngineEarly.

Definition computeFeatures : TapeState -> list PriceHistory -> Features :=
  PolicyEngine.computeFeatures.

Definition checkSideEntry
    : TapeState -> Features -> option EntryParams -> Side -> EntrySignal :=
  PolicyEngine.checkSideEntry.

Definition entrySignal (state : TapeState) (features : Features)
    (entryParams : option EntryParams) : EntrySignal :=
  match entryParams with
  | None => PolicyEngine.no_signal "no_entry_params"
  | Some entryParams =>
      let upInBand :=
        PolicyEngine.in_band (up_price_min entryParams) (up_price_max entryParams)
          (up_px state) in
      let downInBand :=
        PolicyEngine.in_band (down_price_min entryParams) (down_price_max entryParams)
          (down_px state) in
      let delta5s := default 0 (delta_5s_side_px features) in
      let '(upSignal, upReason) :=
        PolicyEngine.mode_check entryParams delta5s "up_price_band" in
      if upInBand && upSignal then
        {| should_trade := true; side := Some UP; reason := upReason |}
      else
        let delta5sDown := default delta5s (delta_5s_down_px features) in
        let '(downSignal, downReason) :=
          PolicyEngine.mode_check entryParams delta5sDown "down_price_band" in
        if downInBand && downSignal then
          {| should_trade := true; side := Some DOWN; reason := downReason |}
        else PolicyEngine.no_signal "no_band_match"
  end.

(** The loop that looks for the bucket: the first [i] with
    [binEdges[i] <= sidePx <= binEdges[i + 1]]; [edges] is [binEdges] from
    index [i] on. *)
Fixpoint find_bucket (i : nat) (edges : list Q) (sidePx : Q) : option nat :=
  match edges with
  | lower :: ((rightEdge :: _) as rest) =>
      if (sidePx >=? lower) && (sidePx <=? rightEdge) then Some i
      else find_bucket (S i) rest sidePx
  | _ => None
  end.

(** [bucketIndex] after the clamp.  With fewer than two edges it can be
    negative: [sidePx < binEdges[0]] is false when there is no edge, and
    [binEdges.length - 2] is below zero. *)
Definition bucketIndex (binEdges : list Q) (sidePx : Q) : Z :=
  match find_bucket 0 binEdges sidePx with
  | Some i => Z.of_nat i
  | None =>
      match binEdges with
      | first :: _ =>
          if sidePx <? first then 0%Z else (Z.of_nat (length binEdges) - 2)%Z
      | [] => (Z.of_nat (length binEdges) - 2)%Z
      end
  end.

(** [binEdges[i]] inside a template literal, for an index that can be
    negative. *)
Definition edge_text (binEdges : list Q) (i : Z) : string :=
  if (i <? 0)%Z then "undefined" else PolicyEngine.edge_text binEdges (Z.to_nat i).

Definition bucketKey (binEdges : list Q) (bucketIndex : Z) : string :=
  "(" +:+ edge_text binEdges bucketIndex +:+ ", "
      +:+ edge_text binEdges (bucketIndex + 1) +:+ "]".

(** The multiplier of the winning side, by its distance from 50:50. *)
Definition multiplier (distanceFrom50 : Q) : Q :=
  if distanceFrom50 <=? (5 # 100) then
    1 + (distanceFrom50 / (5 # 100)) * (1 # 10)
  else if distanceFrom50 <=? (10 # 100) then
    (11 # 10) + ((distanceFrom50 - (5 # 100)) / (5 # 100)) * (2 # 10)
  else if distanceFrom50 <=? (20 # 100) then
    (13 # 10) + ((distanceFrom50 - (10 # 100)) / (10 # 100)) * (3 # 10)
  else
    Math_min 2 ((16 # 10) + ((distanceFrom50 - (20 # 100)) / (10 # 100)) * (4 # 10)).

Definition sizeForTrade (state : TapeState) (features : Features)
    (sizeParams : option SizeParams) (s : Side) : Q :=
  match sizeParams with
  | None => 1
  | Some sizeParams =>
      match size_table sizeParams with
      | None => 1
      | Some sizeTable =>
          match map_to_list sizeTable with
          | [] => 1   (* Object.keys(sizeParams.size_table).length === 0 *)
          | _ :: _ =>
              let sidePx := match s with UP => up_px state | DOWN => down_px state end in
              let binEdges := default [] (bin_edges sizeParams) in
              let key := bucketKey binEdges (bucketIndex binEdges sidePx) in
              let baseSize :=
                match sizeTable !! key with
                | Some size => toFixed 4 size
                | None => PolicyEngine.median_size sizeTable
                end in
              let isWinningSide :=
                match s with
                | UP => up_px state >? (1 # 2)
                | DOWN => down_px state >? (1 # 2)
                end in
              if isWinningSide then
                let distanceFrom50 := Math_abs (sidePx - (1 # 2)) in
                toFixed 4 (baseSize * multiplier distanceFrom50)
              else baseSize
          end
      end
  end.

(** The winning side by profit and loss, known only when the four prices
    are passed and truthy and both sides are held. *)
Definition winning_side (inventory : InventoryState)
    (currentPriceUp currentPriceDown avgCostUp avgCostDown : option Q) : option Side :=
  match number_or_null currentPriceUp, number_or_null currentPriceDown,
        number_or_null avgCostUp, number_or_null avgCostDown with
  | Some currentPriceUp, Some currentPriceDown, Some avgCostUp, Some avgCostDown =>
      if (inv_up_shares inventory >? PolicyEngine.eps)
         && (inv_down_shares inventory >? PolicyEngine.eps)
      then
        let upPnL := (currentPriceUp - avgCostUp) * inv_up_shares inventory in
        let downPnL := (currentPriceDown - avgCostDown) * inv_down_shares inventory in
        if (upPnL >? downPnL) && (upPnL >? 0) then Some UP
        else if (downPnL >? upPnL) && (downPnL >? 0) then Some DOWN
        else None
      else None
  | _, _, _, _ => None
  end.

Definition inventoryOkAndRebalance (inventory : InventoryState)
    (inventoryParams : option InventoryParams) (proposedSide : Side)
    (currentPriceUp currentPriceDown avgCostUp avgCostDown : option Q) : option Side :=
  match inventoryParams with
  | None => Some proposedSide
  | Some inventoryParams =>
      let invUp := inv_up_shares inventory in
      let invDown := inv_down_shares inventory in
      let total := invUp + invDown in
      if total >=? max_total_shares inventoryParams then None
      else if bool_decide (proposedSide = UP) && (invUp >=? max_up_shares inventoryParams)
      then None
      else if bool_decide (proposedSide = DOWN)
              && (invDown >=? max_down_shares inventoryParams)
      then None
      else
        let winningSide :=
          winning_side inventory currentPriceUp currentPriceDown avgCostUp avgCostDown in
        if (invUp >? PolicyEngine.eps) && (invDown >? PolicyEngine.eps) then
          let ratio := invUp / (invUp + invDown) in
          let extremeThreshold := rebalance_ratio_R inventoryParams + (1 # 10) in
          let upFree := invUp <? max_up_shares inventoryParams in
          let downFree := invDown <? max_down_shares inventoryParams in
          if bool_decide (winningSide = Some proposedSide)
             && ((ratio <? extremeThreshold) || (upFree && downFree))
          then Some proposedSide
          else if (ratio >? extremeThreshold) && bool_decide (proposedSide = UP) then
            if bool_decide (winningSide = Some UP) && upFree then Some UP
            else if downFree && (total <? max_total_shares inventoryParams) then Some DOWN
            else if upFree then Some UP
            else None
          else if (ratio <? 1 - extremeThreshold) && bool_decide (proposedSide = DOWN) then
            if bool_decide (winningSide = Some DOWN) && downFree then Some DOWN
            else if upFree && (total <? max_total_shares inventoryParams) then Some UP
            else if downFree then Some DOWN
            else None
          else Some proposedSide
        else Some proposedSide
  end.

Definition cadenceOk (lastTradeTs : option Q) (recentTradeTimes : list Q)
    (cadenceParams : option CadenceParams) (currentTs : Q) : bool :=
  match cadenceParams with
  | None => true
  | Some cadenceParams =>
      let tooSoon :=
        match lastTradeTs with
        | Some lastTradeTs => currentTs - lastTradeTs <? min_inter_trade_ms cadenceParams
        | None => false
        end in
      if tooSoon then false
      else if PolicyEngine.trades_in_window recentTradeTimes (currentTs - 1000) currentTs
              >=? max_trades_per_sec cadenceParams then false
      else if PolicyEngine.trades_in_window recentTradeTimes (currentTs - 60000) currentTs
              >=? max_trades_per_min cadenceParams then false
      else true
  end.

End PolicyEngineEarly.

(** ** The policy integrator (marketTracker.ts, class [PolicyIntegrator]) *)

(** What [shouldTrade] returns. *)
Record TradeDecision : Type := {
  d_shouldTrade : bool;
  d_side : option Side;
  d_shares : Q;
  d_reason : string;
  decisionId : Z;
  fillPrice : option Q;
}.

(** The integrator's fields: those of [interface PolicyState]
    ([this.policyState.priceHistory] and so on), then [tradesPerSession] and
    [lastPriceState], which the later revision of the class adds. *)
Record Integrator : Type := {
  priceHistory : gmap string (list PriceHistory);
  inventory : gmap string InventoryState;
  lastTradeTime : gmap string Q;
  recentTradeTimes : gmap string (list Q);
  decisionIdCounter : Z;
  tradesPerSession : gmap string Z;
  lastPriceState : gmap string PriceHistory;
}.

Definition with_priceHistory (v : gmap string (list PriceHistory)) (self : Integrator) :=
  {| priceHistory := v; inventory := inventory self; lastTradeTime := lastTradeTime self;
     recentTradeTimes := recentTradeTimes self; decisionIdCounter := decisionIdCounter self;
     tradesPerSession := tradesPerSession self; lastPriceState := lastPriceState self |}.

Definition with_inventory (v : gmap string InventoryState) (self : Integrator) :=
  {| priceHistory := priceHistory self; inventory := v; lastTradeTime := lastTradeTime self;
     recentTradeTimes := recentTradeTimes self; decisionIdCounter := decisionIdCounter self;
     tradesPerSession := tradesPerSession self; lastPriceState := lastPriceState self |}.

Definition with_lastTradeTime (v : gmap string Q) (self : Integrator) :=
  {| priceHistory := priceHistory self; inventory := inventory self; lastTradeTime := v;
     recentTradeTimes := recentTradeTimes self; decisionIdCounter := decisionIdCounter self;
     tradesPerSession := tradesPerSession self; lastPriceState := lastPriceState self |}.

Definition with_recentTradeTimes (v : gmap string (list Q)) (self : Integrator) :=
  {| priceHistory := priceHistory self; inventory := inventory self;
     lastTradeTime := lastTradeTime self; recentTradeTimes := v;
     decisionIdCounter := decisionIdCounter self;
     tradesPerSession := tradesPerSession self; lastPriceState := lastPriceState self |}.

Definition with_decisionIdCounter (v : Z) (self : Integrator) :=
  {| priceHistory := priceHistory self; inventory := inventory self;
     lastTradeTime := lastTradeTime self; recentTradeTimes := recentTradeTimes self;
     decisionIdCounter := v;
     tradesPerSession := tradesPerSession self; lastPriceState := lastPriceState self |}.

Definition with_tradesPerSession (v : gmap string Z) (self : Integrator) :=
  {| priceHistory := priceHistory self; inventory := inventory self;
     lastTradeTime := lastTradeTime self; recentTradeTimes := recentTradeTimes self;
     decisionIdCounter := decisionIdCounter self;
     tradesPerSession := v; lastPriceState := lastPriceState self |}.

Definition with_lastPriceState (v : gmap string PriceHistory) (self : Integrator) :=
  {| priceHistory := priceHistory self; inventory := inventory self;
     lastTradeTime := lastTradeTime self; recentTradeTimes := recentTradeTimes self;
     decisionIdCounter := decisionIdCounter self;
     tradesPerSession := tradesPerSession self; lastPriceState := v |}.

(** The constructor. *)
Definition new_integrator : Integrator :=
  {| priceHistory := ∅; inventory := ∅; lastTradeTime := ∅; recentTradeTimes := ∅;
     decisionIdCounter := 0; tradesPerSession := ∅; lastPriceState := ∅ |}.

Definition maxHistoryLength : nat := 1000.
Definition maxRecentTrades : nat := 100.

(** [a.push(x); if (a.length > cap) a.shift()]. *)
Definition push_bounded {A} (cap : nat) (a : list A) (x : A) : list A :=
  let a' := (a ++ [x])%list in
  if (cap <? length a')%nat then tail a' else a'.

Definition no_trade (why : string) (id : Z) : TradeDecision :=
  {| d_shouldTrade := false; d_side := None; d_shares := 0; d_reason := why;
     decisionId := id; fillPrice := None |}.

(** *** The members both revisions of the class share, word for word *)

Definition updatePriceHistory (market : string) (timestamp upPx downPx : Q)
    (self : Integrator) : Integrator :=
  let history := default [] (priceHistory self !! market) in
  let entry := {| h_timestamp := timestamp; h_up_px := upPx; h_down_px := downPx |} in
  with_priceHistory
    (<[market := push_bounded maxHistoryLength history entry]> (priceHistory self)) self.

(** [getInventory]: the market's inventory, created empty on first use. *)
Definition getInventory (market : string) (self : Integrator)
    : InventoryState * Integrator :=
  match inventory self !! market with
  | Some inv => (inv, self)
  | None =>
      let inv := {| inv_up_shares := 0; inv_down_shares := 0;
                    avg_cost_up := None; avg_cost_down := None |} in
      (inv, with_inventory (<[market := inv]> (inventory self)) self)
  end.

(** [updateInventory].  (Should the new share count be zero, JavaScript
    stores [NaN] as the average cost where the quotient here is 0.) *)
Definition updateInventory (market : string) (s : Side) (shares cost : Q)
    (self : Integrator) : Integrator :=
  let '(inv, self) := getInventory market self in
  let inv' :=
    match s with
    | UP =>
        let oldCost := number_or (avg_cost_up inv) 0 * inv_up_shares inv in
        let newShares := inv_up_shares inv + shares in
        {| inv_up_shares := newShares; inv_down_shares := inv_down_shares inv;
           avg_cost_up := Some ((oldCost + cost) / newShares);
           avg_cost_down := avg_cost_down inv |}
    | DOWN =>
        let oldCost := number_or (avg_cost_down inv) 0 * inv_down_shares inv in
        let newShares := inv_down_shares inv + shares in
        {| inv_up_shares := inv_up_shares inv; inv_down_shares := newShares;
           avg_cost_up := avg_cost_up inv;
           avg_cost_down := Some ((oldCost + cost) / newShares) |}
    end in
  with_inventory (<[market := inv']> (inventory self)) self.

Definition recordTradeTime (market : string) (timestamp : Q) (self : Integrator)
    : Integrator :=
  let recent := default [] (recentTradeTimes self !! market) in
  with_lastTradeTime (<[market := timestamp]> (lastTradeTime self))
    (with_recentTradeTimes
       (<[market := push_bounded maxRecentTrades recent timestamp]> (recentTradeTimes self))
       self).


(** *** The later revision (marketTracker.ts, lines 605-933) *)

Module PolicyIntegrator.
Import PolicyEngine.

(** The gates of [shouldTrade] from the entry signal on: everything after
    the cadence check.  [inventory] is the object [getInventory] returned
    earlier in the tick. *)
Definition decide_entry (state : TapeState) (features : Features)
    (inventory : InventoryState) (tradesThisSession : Q) (marketParams : MarketParams)
    (decisionId : Z) : result TradeDecision :=
  let actualUpSignal :=
    match entry_params marketParams with
    | Some ep => in_band (up_price_min ep) (up_price_max ep) (up_px state)
    | None => false
    end in
  let actualDownSignal :=
    match entry_params marketParams with
    | Some ep => in_band (down_price_min ep) (down_price_max ep) (down_px state)
    | None => false
    end in
  let entrySignal := entrySignal state features (entry_params marketParams) in
  let selectedSide :=
    if actualUpSignal && actualDownSignal
       && bool_decide (is_Some (side_selection_params marketParams))
    then selectSideWhenBothValid state features inventory
           (side_selection_params marketParams) actualUpSignal actualDownSignal
    else if actualUpSignal then Some UP
    else if actualDownSignal then Some DOWN
    else side entrySignal (* fallback to the entry signal *) in
  match should_trade entrySignal, selectedSide with
  | true, Some selectedSide =>
      if bool_decide (is_Some (risk_params marketParams))
         && negb (checkRiskLimits tradesThisSession inventory (risk_params marketParams))
      then Ok (no_trade "risk_limit_exceeded" decisionId)
      else
        (* policyEngine.sizeForTrade(state, features, marketParams.size_params,
           selectedSide): the fifth argument, the inventory, is not passed *)
        Js.bind (sizeForTrade state features (size_params marketParams) selectedSide None)
          (fun shares =>
             match inventoryOkAndRebalance inventory (inventory_params marketParams)
                     selectedSide with
             | None => Ok (no_trade "inventory_limit_exceeded" decisionId)
             | Some finalSide =>
                 let snapshotSidePx :=
                   match finalSide with UP => up_px state | DOWN => down_px state end in
                 let fill :=
                   simulateFillPrice finalSide snapshotSidePx
                     (execution_params marketParams) in
                 Ok {| d_shouldTrade := true; d_side := Some finalSide; d_shares := shares;
                       d_reason := reason entrySignal; decisionId := decisionId;
                       fillPrice := Some fill |}
             end)
  | _, _ =>
      Ok (no_trade (string_or (Some (reason entrySignal)) "no_entry_signal") decisionId)
  end.

(** [shouldTrade]: the decision, or the exception raised, and the
    integrator as the call leaves it. *)
Definition shouldTrade (market : string) (timestamp upPx downPx : Q)
    (marketParams : MarketParams) (self : Integrator) : result TradeDecision * Integrator :=
  let decisionId := (decisionIdCounter self + 1)%Z in
  let self := with_decisionIdCounter decisionId self in
  (* reset on market switch or inactivity *)
  let lastActivityTs := number_or_null (lastTradeTime self !! market) in
  let self :=
    if bool_decide (is_Some (reset_params marketParams))
       && shouldResetInventory lastActivityTs timestamp (reset_params marketParams)
    then with_tradesPerSession (delete market (tradesPerSession self))
           (with_inventory (delete market (inventory self)) self)
    else self in
  let self := updatePriceHistory market timestamp upPx downPx self in
  let state :=
    {| timestamp := timestamp; up_px := upPx; down_px := downPx; market := market |} in
  (* data quality, against the last price state *)
  let lastPrice := lastPriceState self !! market in
  if bool_decide (is_Some (quality_filter_params marketParams))
     && negb (checkDataQuality state lastPrice (quality_filter_params marketParams))
  then (Ok (no_trade "data_quality_filter_failed" decisionId), self)
  else
    let self :=
      with_lastPriceState
        (<[market := {| h_timestamp := timestamp; h_up_px := upPx; h_down_px := downPx |}]>
           (lastPriceState self)) self in
    let history := default [] (priceHistory self !! market) in
    let features := computeFeatures state history in
    let lastTradeTs := number_or_null (lastTradeTime self !! market) in
    let '(inventory, self) := getInventory market self in
    if bool_decide (is_Some (cooldown_params marketParams))
       && negb (checkCooldown lastTradeTs timestamp features inventory
                  (cooldown_params marketParams))
    then (Ok (no_trade "cooldown_blocked" decisionId), self)
    else
      let recentTrades := default [] (recentTradeTimes self !! market) in
      if negb (cadenceOk lastTradeTs recentTrades (cadence_params marketParams) timestamp)
      then (Ok (no_trade "cadence_blocked" decisionId), self)
      else
        let tradesThisSession := inject_Z (default 0%Z (tradesPerSession self !! market)) in
        (decide_entry state features inventory tradesThisSession marketParams decisionId,
         self).

Definition recordTradeExecution (market : string) (timestamp : Q) (s : Side)
    (shares cost : Q) (self : Integrator) : Integrator :=
  let self := recordTradeTime market timestamp (updateInventory market s shares cost self) in
  let currentCount := default 0%Z (tradesPerSession self !! market) in
  with_tradesPerSession (<[market := (currentCount + 1)%Z]> (tradesPerSession self)) self.

End PolicyIntegrator.

(** *** The earlier revision (marketTracker.ts, lines 360-583)

    It calls the earlier engine.  It has no [tradesPerSession] and no
    [lastPriceState]; those two fields of [Integrator] are left as they
    are, and its decisions carry no fill price. *)

Module PolicyIntegratorEarly.
Import PolicyEngineEarly.

Definition shouldTrade (market : string) (timestamp upPx downPx : Q)
    (marketParams : MarketParams) (self : Integrator) : TradeDecision * Integrator :=
  let decisionId := (decisionIdCounter self + 1)%Z in
  let self := with_decisionIdCounter decisionId self in
  let self := updatePriceHistory market timestamp upPx downPx self in
  let state :=
    {| timestamp := timestamp; up_px := upPx; down_px := downPx; market := market |} in
  let history := default [] (priceHistory self !! market) in
  let features := computeFeatures state history in
  let lastTradeTs := number_or_null (lastTradeTime self !! market) in
  let recentTrades := default [] (recentTradeTimes self !! market) in
  if negb (cadenceOk lastTradeTs recentTrades (cadence_params marketParams) timestamp)
  then (no_trade "cadence_blocked" decisionId, self)
  else
    let entrySignal := entrySignal state features (entry_params marketParams) in
    match should_trade entrySignal, side entrySignal with
    | true, Some entrySide =>
        let shares := sizeForTrade state features (size_params marketParams) entrySide in
        let '(inventory, self) := getInventory market self in
        (* the four price arguments are not passed *)
        match inventoryOkAndRebalance inventory (inventory_params marketParams)
                entrySide None None None None with
        | None => (no_trade "inventory_limit_exceeded" decisionId, self)
        | Some finalSide =>
            ({| d_shouldTrade := true; d_side := Some finalSide; d_shares := shares;
                d_reason := reason entrySignal; decisionId := decisionId;
                fillPrice := None |}, self)
        end
    | _, _ => (no_trade (reason entrySignal) decisionId, self)
    end.

Definition recordTradeExecution (market : string) (timestamp : Q) (s : Side)
    (shares cost : Q) (self : Integrator) : Integrator :=
  recordTradeTime market timestamp (updateInventory market s shares cost self).

End PolicyIntegratorEarly.

(** ** The parameter loader (paramLoader.ts, class [ParameterLoader]) *)

Module ParameterLoader.

(** One market's entry in the market-first layout:
    [{ entry_params?, size_params?, inventory_params?, cadence_params? }]. *)
Record MarketEntry : Type := {
  me_entry_params : option EntryParams;
  me_size_params : option SizeParams;
  me_inventory_params : option InventoryParams;
  me_cadence_params : option CadenceParams;
}.

(** [interface ParameterFile]: the four param-type-first sections, each an
    optional [{ per_market }] dictionary, and, under the index signature,
    the remaining top-level keys with their market-first entries. *)
Record ParameterFile : Type := {
  pf_entry_params : option (gmap string EntryParams);
  pf_size_params : option (gmap string SizeParams);
  pf_inventory_params : option (gmap string InventoryParams);
  pf_cadence_params : option (gmap string CadenceParams);
  pf_markets : gmap string MarketEntry;
}.

(** What the loader finds at [paramsPath]: no file, or a file with its
    modification time whose text [JSON.parse] either rejects or reads as a
    document.  (A text that parses to something other than an object makes
    [isNewFormat] raise inside the same [try]; it counts as [Malformed].) *)
Inductive FileContent : Type :=
| Malformed
| Document (parsed : ParameterFile).

Inductive File : Type :=
| Absent
| Present (content : FileContent) (mtimeMs : Q).

(** The loader's private fields; [polling] says whether [pollInterval]
    holds a timer.  (The [listeners] are callbacks of the host program:
    the poll calls each with the new parameters after the swap and catches
    what it throws; they are not part of the state modelled here.) *)
Record Loader : Type := {
  params : option ParameterFile;
  lastModified : Q;
  polling : bool;
}.

Definition new_loader : Loader :=
  {| params := None; lastModified := 0; polling := false |}.

Definition marketKeys : list string := ["BTC_15m"; "ETH_15m"; "BTC_1h"; "ETH_1h"].

Definition isNewFormat (p : ParameterFile) : bool :=
  let hasMarketKey := existsb (fun key => bool_decide (is_Some (pf_markets p !! key))) marketKeys in
  let hasOldFormatKey :=
    bool_decide (is_Some (pf_entry_params p)) || bool_decide (is_Some (pf_size_params p)) in
  hasMarketKey && negb hasOldFormatKey.

(** One section of [convertNewToOldFormat]: the market keys whose entry
    has the field. *)
Definition collect {A} (field : MarketEntry -> option A) (newFormat : ParameterFile)
    : gmap string A :=
  fold_left
    (fun (per_market : gmap string A) (marketKey : string) =>
       match pf_markets newFormat !! marketKey ≫= field with
       | Some v => <[marketKey := v]> per_market
       | None => per_market
       end)
    marketKeys ∅.

Definition convertNewToOldFormat (newFormat : ParameterFile) : ParameterFile :=
  {| pf_entry_params := Some (collect me_entry_params newFormat);
     pf_size_params := Some (collect me_size_params newFormat);
     pf_inventory_params := Some (collect me_inventory_params newFormat);
     pf_cadence_params := Some (collect me_cadence_params newFormat);
     pf_markets := ∅ |}.

Definition getDefaultParams : ParameterFile :=
  {| pf_entry_params := Some ∅; pf_size_params := Some ∅;
     pf_inventory_params := Some ∅; pf_cadence_params := Some ∅;
     pf_markets := ∅ |}.

(** [validateParams]: a missing section becomes an empty one. *)
Definition validateParams (p : ParameterFile) : ParameterFile :=
  {| pf_entry_params := Some (default ∅ (pf_entry_params p));
     pf_size_params := Some (default ∅ (pf_size_params p));
     pf_inventory_params := Some (default ∅ (pf_inventory_params p));
     pf_cadence_params := Some (default ∅ (pf_cadence_params p));
     pf_markets := pf_markets p |}.

(** [loadParams]: what it returns and the loader as it leaves it.  The
    whole body is inside [try]; the [catch] returns the defaults. *)
Definition loadParams (file : File) (self : Loader) : ParameterFile * Loader :=
  match file with
  | Absent => (getDefaultParams, self)
  | Present Malformed _ => (getDefaultParams, self)   (* catch (error) *)
  | Present (Document parsed) mtimeMs =>
      let normalized :=
        validateParams (if isNewFormat parsed then convertNewToOldFormat parsed else parsed) in
      (normalized,
       {| params := Some normalized; lastModified := mtimeMs; polling := polling self |})
  end.

Definition getParams (file : File) (self : Loader) : ParameterFile * Loader :=
  match params self with
  | Some p => (p, self)
  | None =>
      let '(p, self) := loadParams file self in
      (p, {| params := Some p; lastModified := lastModified self; polling := polling self |})
  end.

Definition normalizeMarketKey (marketKey : string) : string :=
  if includes marketKey "BTC" && includes marketKey "15" then "BTC_15m"
  else if includes marketKey "ETH" && includes marketKey "15" then "ETH_15m"
  else if includes marketKey "BTC"
          && (includes marketKey "1h" || includes marketKey "1 hour") then "BTC_1h"
  else if includes marketKey "ETH"
          && (includes marketKey "1h" || includes marketKey "1 hour") then "ETH_1h"
  else marketKey.

(** [getMarketParams]: this revision of the loader serves the four
    sections it knows; the other fields of [MarketParams] are undefined.
    A [per_market] dictionary is a plain object, of which the [gmap] holds
    the own properties: for a key that names a property every object
    inherits ([constructor], [toString], ...) the code returns that
    inherited value where the lookup here returns [None].  No market key
    is such a name. *)
Definition getMarketParams (file : File) (marketKey : string) (self : Loader)
    : MarketParams * Loader :=
  let '(p, self) := getParams file self in
  let normalizedKey := normalizeMarketKey marketKey in
  ({| entry_params := pf_entry_params p ≫= (.!! normalizedKey);
      size_params := pf_size_params p ≫= (.!! normalizedKey);
      inventory_params := pf_inventory_params p ≫= (.!! normalizedKey);
      cadence_params := pf_cadence_params p ≫= (.!! normalizedKey);
      side_selection_params := None; execution_params := None; cooldown_params := None;
      risk_params := None; quality_filter_params := None; reset_params := None |},
   self).

(** [startHotReload]: the initial load, then the timer. *)
Definition startHotReload (file : File) (self : Loader) : Loader :=
  if polling self then self
  else
    let '(p, self) := loadParams file self in
    {| params := Some p; lastModified := lastModified self; polling := true |}.

(** One firing of the timer [startHotReload] sets: the body of the
    [setInterval] callback, on the file as it is at that moment. *)
Definition poll (file : File) (self : Loader) : Loader :=
  match file with
  | Absent => self
  | Present _ mtimeMs =>
      if mtimeMs >? lastModified self then
        (* file changed: reload *)
        let '(newParams, self) := loadParams file self in
        {| params := Some newParams; lastModified := lastModified self;
           polling := polling self |}
      else self
  end.

Definition stopHotReload (self : Loader) : Loader :=
  {| params := params self; lastModified := lastModified self; polling := false |}.

End ParameterLoader.

(** ** Specification-side notions *)

(** A trade timestamp lies in the closed window [[start, now]]. *)
Definition in_window (start now ts : Q) : Prop := start <= ts /\ ts <= now.

#[global] Instance in_window_dec (start now ts : Q) : Decision (in_window start now ts).
Proof.
  unfold in_window.
  destruct (Qlt_le_dec ts start) as [H1 | H1].
  - right. intros [H _]. exact (Qlt_not_le _ _ H1 H).
  - destruct (Qlt_le_dec now ts) as [H2 | H2].
    + right. intros [_ H]. exact (Qlt_not_le _ _ H2 H).
    + left. split; assumption.
Defined.

(** How many of the recent trades lie in the window. *)
Definition trades_within (recentTradeTimes : list Q) (start now : Q) : nat :=
  length (filter (in_window start now) recentTradeTimes).

(** The price and the band of a side. *)
Definition side_price (s : Side) (state : TapeState) : Q :=
  match s with UP => up_px state | DOWN => down_px state end.

Definition band_min (s : Side) (ep : EntryParams) : option Q :=
  match s with UP => up_price_min ep | DOWN => down_price_min ep end.

Definition band_max (s : Side) (ep : EntryParams) : option Q :=
  match s with UP => up_price_max ep | DOWN => down_price_max ep end.

(** The share count and the cap of a side. *)
Definition side_shares (s : Side) (inv : InventoryState) : Q :=
  match s with UP => inv_up_shares inv | DOWN => inv_down_shares inv end.

Definition side_cap (s : Side) (ip : InventoryParams) : Q :=
  match s with UP => max_up_shares ip | DOWN => max_down_shares ip end.

(** The side's price lies inclusively within its configured band, both
    bounds of which are set. *)
Definition within_band (s : Side) (ep : EntryParams) (state : TapeState) : Prop :=
  exists lo hi, band_min s ep = Some lo /\ band_max s ep = Some hi
                /\ lo <= side_price s state <= hi.

(** *** Inputs of the scenarios *)

(** Entry parameters with the band [[0.4, 0.6]] on both sides and no
    momentum check. *)
Definition sample_entry_params : EntryParams :=
  {| up_price_min := Some (4 # 10); up_price_max := Some (6 # 10);
     down_price_min := Some (4 # 10); down_price_max := Some (6 # 10);
     momentum_window_s := 5; momentum_threshold := 1 # 100; mode := none |}.

(** A loaded snapshot that has them for [BTC_15m], and a loader that holds
    it, last modified at 100. *)
Definition sample_snapshot : ParameterLoader.ParameterFile :=
  {| ParameterLoader.pf_entry_params := Some {[ "BTC_15m" := sample_entry_params ]};
     ParameterLoader.pf_size_params := Some ∅;
     ParameterLoader.pf_inventory_params := Some ∅;
     ParameterLoader.pf_cadence_params := Some ∅;
     ParameterLoader.pf_markets := ∅ |}.

Definition sample_loader : ParameterLoader.Loader :=
  {| ParameterLoader.params := Some sample_snapshot;
     ParameterLoader.lastModified := 100;
     ParameterLoader.polling := true |}.

(** The bins, the tape state and the size parameters of the sizing
    scenarios. *)
Definition scenario_bins : list Q := [0; 2 # 10; 4 # 10; 6 # 10; 8 # 10; 1].

Definition scenario_state : TapeState :=
  {| timestamp := 1000; up_px := 3 # 10; down_px := 7 # 10; market := "BTC_15m" |}.

Definition scenario_features : Features :=
  PolicyEngine.computeFeatures scenario_state [].

(** The size table of the scenario, keyed [(0, 0.5]] and [(0.5, 1]]. *)
Definition scenario_table : gmap string Q :=
  {[ "(0, 0.5]|bucket_0" := 5; "(0, 0.5]|bucket_1" := 15;
     "(0.5, 1]|bucket_0" := 10; "(0.5, 1]|bucket_1" := 20 ]}.

(** A size table keyed by the label of the bucket that holds 0.3 under
    [scenario_bins]. *)
Definition relabelled_table : gmap string Q :=
  {[ "(0.2, 0.4]|bucket_0" := 5; "(0.2, 0.4]|bucket_1" := 15 ]}.

Definition scenario_size_params (table : gmap string Q) : SizeParams :=
  {| bin_edges := Some scenario_bins;
     size_table := Some table;
     size_table_1d := None;
     conditioning_var := Some "inventory_imbalance_ratio";
     inventory_bucket_thresholds := Some [0; 1; 2];
     inventory_buckets := Some ["bucket_0"; "bucket_1"] |}.

Definition holding (up down : Q) : InventoryState :=
  {| inv_up_shares := up; inv_down_shares := down;
     avg_cost_up := None; avg_cost_down := None |}.

(** The snapshot a tick would store. *)
Definition tick_snapshot (timestamp upPx downPx : Q) : PriceHistory :=
  {| h_timestamp := timestamp; h_up_px := upPx; h_down_px := downPx |}.

(** The quality gate of a tick, as [shouldTrade] tests it against the
    snapshot [lastPrice]. *)
Definition quality_gate (state : TapeState) (marketParams : MarketParams)
    (lastPrice : option PriceHistory) : bool :=
  bool_decide (is_Some (quality_filter_params marketParams))
  && negb (PolicyEngine.checkDataQuality state lastPrice
             (quality_filter_params marketParams)).

(** The quality filter is configured and rejects the tick, given the
    snapshot the integrator holds for the market. *)
Definition quality_rejects (market : string) (timestamp upPx downPx : Q)
    (marketParams : MarketParams) (self : Integrator) : bool :=
  quality_gate
    {| timestamp := timestamp; up_px := upPx; down_px := downPx; market := market |}
    marketParams (lastPriceState self !! market).

(** A run of ticks for one market under fixed parameters: the reasons of
    the decisions, in order, and the integrator at the end. *)
Fixpoint run_ticks (market : string) (marketParams : MarketParams)
    (ticks : list (Q * Q * Q)) (self : Integrator) : list (result string) * Integrator :=
  match ticks with
  | [] => ([], self)
  | (timestamp, upPx, downPx) :: rest =>
      let '(r, self) :=
        PolicyIntegrator.shouldTrade market timestamp upPx downPx marketParams self in
      let '(rs, self) := run_ticks market marketParams rest self in
      (Js.bind r (fun d => Ok (d_reason d)) :: rs, self)
  end.

(** Parameters with a quality filter: prices may sum to within 0.05 of 1,
    ticks may be up to 60 s apart and move by up to 0.2. *)
Definition quality_params : MarketParams :=
  {| entry_params := Some sample_entry_params; size_params := None;
     inventory_params := None; cadence_params := None; side_selection_params := None;
     execution_params := None; cooldown_params := None; risk_params := None;
     quality_filter_params :=
       Some {| max_price_sum_deviation := 5 # 100;
               timestamp_jump_threshold_seconds := 60;
               price_gap_threshold := 2 # 10 |};
     reset_params := None |}.

(** What reading [inventory.inv_up_shares] raises when [inventory] is
    undefined. *)
Definition sizing_error : Js.error :=
  TypeError "Cannot read properties of undefined (reading 'inv_up_shares')".

(** The reasons of the gates that stand before the sizing step. *)
Definition early_reasons : list string :=
  ["data_quality_filter_failed"; "cooldown_blocked"; "cadence_blocked";
   "no_entry_params"; "no_band_match"; "risk_limit_exceeded"].

(** *** What a tick reads

    [shouldTrade] reads the integrator through a handful of lookups.  The
    definitions below name them, and [tick_outcome] is the decision as a
    function of the values read. *)

(** The tick resets the market's inventory and session counter. *)
Definition resets (market : string) (timestamp : Q) (marketParams : MarketParams)
    (self : Integrator) : bool :=
  bool_decide (is_Some (reset_params marketParams))
  && PolicyEngine.shouldResetInventory (number_or_null (lastTradeTime self !! market))
       timestamp (reset_params marketParams).

Definition empty_inventory : InventoryState :=
  {| inv_up_shares := 0; inv_down_shares := 0; avg_cost_up := None; avg_cost_down := None |}.

(** The inventory the gates of the tick see. *)
Definition inventory_seen (market : string) (timestamp : Q) (marketParams : MarketParams)
    (self : Integrator) : InventoryState :=
  default empty_inventory
    (if resets market timestamp marketParams self then None else inventory self !! market).

(** The session's trade count the risk gate sees. *)
Definition trades_seen (market : string) (timestamp : Q) (marketParams : MarketParams)
    (self : Integrator) : Q :=
  inject_Z (default 0%Z
              (if resets market timestamp marketParams self then None
               else tradesPerSession self !! market)).

(** The price history the features are computed from: the tick itself is
    already in it. *)
Definition history_seen (market : string) (timestamp upPx downPx : Q) (self : Integrator)
    : list PriceHistory :=
  push_bounded maxHistoryLength (default [] (priceHistory self !! market))
    (tick_snapshot timestamp upPx downPx).

(** The gates in the order [shouldTrade] runs them. *)
Definition tick_outcome (id : Z) (state : TapeState) (marketParams : MarketParams)
    (lastPrice : option PriceHistory) (features : Features) (lastTradeTs : option Q)
    (inventory : InventoryState) (recentTrades : list Q) (tradesThisSession : Q)
    : result TradeDecision :=
  if quality_gate state marketParams lastPrice
  then Ok (no_trade "data_quality_filter_failed" id)
  else if bool_decide (is_Some (cooldown_params marketParams))
          && negb (PolicyEngine.checkCooldown lastTradeTs (timestamp state) features
                     inventory (cooldown_params marketParams))
  then Ok (no_trade "cooldown_blocked" id)
  else if negb (PolicyEngine.cadenceOk lastTradeTs recentTrades
                  (cadence_params marketParams) (timestamp state))
  then Ok (no_trade "cadence_blocked" id)
  else PolicyIntegrator.decide_entry state features inventory tradesThisSession
         marketParams id.

(** [l2] is [l1] with one more copy of [e], next to a copy of [e]. *)
Inductive doubled {A} (e : A) : list A -> list A -> Prop :=
| doubled_here (rest : list A) : doubled e (e :: rest) (e :: e :: rest)
| doubled_later (x : A) (l1 l2 : list A) :
    doubled e l1 l2 -> doubled e (x :: l1) (x :: l2).

(** Two feature records agree on what the gates read: the five-second
    deltas. *)
Definition same_deltas (f1 f2 : Features) : Prop :=
  delta_5s_side_px f1 = delta_5s_side_px f2
  /\ delta_5s_down_px f1 = delta_5s_down_px f2.

(** A decision with its identifier advanced by one; an exception as it is. *)
Definition renumbered (r : result TradeDecision) : result TradeDecision :=
  Js.bind r (fun d =>
    Ok {| d_shouldTrade := d_shouldTrade d; d_side := d_side d; d_shares := d_shares d;
          d_reason := d_reason d; decisionId := (decisionId d + 1)%Z;
          fillPrice := fillPrice d |}).

(** Parameters whose quality filter has a negative timestamp-jump
    threshold. *)
Definition strict_params : MarketParams :=
  {| entry_params := Some sample_entry_params; size_params := None;
     inventory_params := None; cadence_params := None; side_selection_params := None;
     execution_params := None; cooldown_params := None; risk_params := None;
     quality_filter_params :=
       Some {| max_price_sum_deviation := 5 # 100;
               timestamp_jump_threshold_seconds := -1;
               price_gap_threshold := 2 # 10 |};
     reset_params := None |}.

(** Parameters that ask for momentum: a rise of 0.05 over five seconds. *)
Definition momentum_params : MarketParams :=
  {| entry_params :=
       Some {| up_price_min := Some (4 # 10); up_price_max := Some (6 # 10);
               down_price_min := Some (4 # 10); down_price_max := Some (6 # 10);
               momentum_window_s := 5; momentum_threshold := 5 # 100; mode := momentum |};
     size_params := None;
     inventory_params := None; cadence_params := None; side_selection_params := None;
     execution_params := None; cooldown_params := None; risk_params := None;
     quality_filter_params := None; reset_params := None |}.

(** An integrator whose history for [BTC_15m] holds 999 entries: one at
    95000 ms with UP at 0.4, then 998 at 99990 ms with UP at 0.5. *)
Definition nearly_full : Integrator :=
  with_priceHistory
    {[ "BTC_15m" := tick_snapshot 95000 (4 # 10) (6 # 10)
                    :: replicate 998 (tick_snapshot 99990 (5 # 10) (5 # 10)) ]}
    new_integrator.

(** ** More of the integrator (both revisions, word for word) *)

(** [getInventoryState], [getCadenceInfo], [getPriceHistory]: the public
    accessors. *)
Definition getInventoryState (market : string) (self : Integrator)
    : InventoryState * Integrator :=
  getInventory market self.

Definition getCadenceInfo (market : string) (self : Integrator) : option Q * list Q :=
  (number_or_null (lastTradeTime self !! market),
   default [] (recentTradeTimes self !! market)).

Definition getPriceHistory (market : string) (self : Integrator) : list PriceHistory :=
  default [] (priceHistory self !! market).

(** [resetInventory(market?)]: with a market, forget its inventory, last
    trade time and recent trades; without one (or with the empty string,
    which is falsy) forget them for every market. *)
Definition resetInventory (market : option string) (self : Integrator) : Integrator :=
  match market with
  | None | Some EmptyString =>
      with_recentTradeTimes ∅ (with_lastTradeTime ∅ (with_inventory ∅ self))
  | Some market =>
      with_recentTradeTimes (delete market (recentTradeTimes self))
        (with_lastTradeTime (delete market (lastTradeTime self))
           (with_inventory (delete market (inventory self)) self))
  end.

(** ** Further specification-side notions *)

(** The price bucket [sizeForTrade] settles on (policyEngine.ts, lines
    331-347): the bucket the loop finds, else the clamp. *)
Definition priceBucketIndex (binEdges : list Q) (sidePx : Q) : nat :=
  match PolicyEngine.find_price_bucket 0 binEdges sidePx with
  | Some i => i
  | None => if sidePx <=? nth 0 binEdges 0 then O else (length binEdges - 2)%nat
  end.

(** Each entry is below the next. *)
Fixpoint strictly_increasing (l : list Q) : bool :=
  match l with
  | a :: ((b :: _) as rest) => (a <? b) && strictly_increasing rest
  | _ => true
  end.

(** Bucket [k], with edges [lo] and [hi], holds the price: the interval is
    open on the left and closed on the right, and the first bucket starts
    at [-0.001]. *)
Definition bucket_holds (k : nat) (lo hi px : Q) : Prop :=
  (match k with O => - (1 # 1000) | _ => lo end) < px /\ px <= hi.

(** A size is stored in one of the two tables. *)
Definition stored_size (sizeParams : SizeParams) (size : Q) : Prop :=
  exists key, default ∅ (size_table sizeParams) !! key = Some size
              \/ default ∅ (size_table_1d sizeParams) !! key = Some size.

(** [h] is an entry of the history closest in time to [target]. *)
Definition closest_to (history : list PriceHistory) (target : Q) (h : PriceHistory) : Prop :=
  In h history
  /\ forall h', In h' history ->
                Qabs (h_timestamp h - target) <= Qabs (h_timestamp h' - target).

(** No history holds more than [maxHistoryLength] entries and no list of
    recent trades more than [maxRecentTrades]. *)
Definition within_capacity (self : Integrator) : Prop :=
  (forall market history, priceHistory self !! market = Some history ->
                          (length history <= maxHistoryLength)%nat)
  /\ (forall market recent, recentTradeTimes self !! market = Some recent ->
                            (length recent <= maxRecentTrades)%nat).

(** What the integrator holds for one market. *)
Definition market_state (market : string) (self : Integrator) :=
  (priceHistory self !! market, inventory self !! market, lastTradeTime self !! market,
   recentTradeTimes self !! market, tradesPerSession self !! market,
   lastPriceState self !! market).

(** The reasons a trade carries, and the reasons of a no-trade decision of
    the later revision. *)
Definition trade_reasons : list string :=
  ["up_price_band"; "down_price_band"; "momentum_met"; "reversion_met"].

Definition no_trade_reasons : list string :=
  ["data_quality_filter_failed"; "cooldown_blocked"; "cadence_blocked";
   "no_entry_params"; "no_band_match"; "risk_limit_exceeded";
   "inventory_limit_exceeded"].

(** The three windows of [computeFeatures], and the three deltas it stores
    for a window: side, up, down. *)
Inductive Window : Type := one_second | five_seconds | thirty_seconds.

Definition window_seconds (w : Window) : Q :=
  match w with one_second => 1 | five_seconds => 5 | thirty_seconds => 30 end.

Definition window_deltas (f : Features) (w : Window) : option Q * option Q * option Q :=
  match w with
  | one_second => (delta_1s_side_px f, delta_1s_up_px f, delta_1s_down_px f)
  | five_seconds => (delta_5s_side_px f, delta_5s_up_px f, delta_5s_down_px f)
  | thirty_seconds => (delta_30s_side_px f, delta_30s_up_px f, delta_30s_down_px f)
  end.

(** A market with the size parameters of the sizing scenario:
    conditioned on the inventory imbalance ratio, three thresholds, six bin
    edges. *)
Definition conditioned_params : MarketParams :=
  {| entry_params := Some sample_entry_params;
     size_params := Some (scenario_size_params scenario_table);
     inventory_params := None; cadence_params := None;
     side_selection_params := None; execution_params := None;
     cooldown_params := None; risk_params := None;
     quality_filter_params := None; reset_params := None |}.

(** The parameters without the conditioning of the size: no conditioning
    variable, no inventory thresholds, no inventory buckets. *)
Definition unconditioned (marketParams : MarketParams) : MarketParams :=
  {| entry_params := entry_params marketParams;
     size_params :=
       (fun sizeParams =>
          {| bin_edges := bin_edges sizeParams; size_table := size_table sizeParams;
             size_table_1d := size_table_1d sizeParams; conditioning_var := None;
             inventory_bucket_thresholds := None; inventory_buckets := None |})
       <$> size_params marketParams;
     inventory_params := inventory_params marketParams;
     cadence_params := cadence_params marketParams;
     side_selection_params := side_selection_params marketParams;
     execution_params := execution_params marketParams;
     cooldown_params := cooldown_params marketParams;
     risk_params := risk_params marketParams;
     quality_filter_params := quality_filter_params marketParams;
     reset_params := reset_params marketParams |}.

(** An integrator that has ticked once on [ETH_15m] and holds a trade of
    two DOWN shares there. *)
Definition two_markets : Integrator :=
  PolicyIntegrator.recordTradeExecution "ETH_15m" 500 DOWN 2 1
    (snd (PolicyIntegrator.shouldTrade "ETH_15m" 400 (1 # 2) (1 # 2) quality_params
            new_integrator)).

Definition holding_at_cost (up down : Q) (costUp costDown : option Q) : InventoryState :=
  {| inv_up_shares := up; inv_down_shares := down;
     avg_cost_up := costUp; avg_cost_down := costDown |}.

(** The tape state and the features of a tick. *)
Definition tick_state (market : string) (ts upPx downPx : Q) : TapeState :=
  {| timestamp := ts; up_px := upPx; down_px := downPx; market := market |}.

Definition tick_features (market : string) (ts upPx downPx : Q) (self : Integrator)
    : Features :=
  PolicyEngine.computeFeatures (tick_state market ts upPx downPx)
    (history_seen market ts upPx downPx self).

(** The decision [d] of a tick went through every gate: the data-quality
    filter, the cooldown, the cadence, the entry signal, the risk limits,
    the sizing step and the inventory caps, each on what the integrator
    held when the tick began. *)
Definition passed_every_gate (market : string) (ts upPx downPx : Q)
    (marketParams : MarketParams) (self : Integrator) (d : TradeDecision) : Prop :=
  let state := tick_state market ts upPx downPx in
  let features := tick_features market ts upPx downPx self in
  let lastTradeTs := number_or_null (lastTradeTime self !! market) in
  let inv := inventory_seen market ts marketParams self in
  PolicyEngine.checkDataQuality state (lastPriceState self !! market)
    (quality_filter_params marketParams) = true
  /\ PolicyEngine.checkCooldown lastTradeTs ts features inv (cooldown_params marketParams)
     = true
  /\ PolicyEngine.cadenceOk lastTradeTs (default [] (recentTradeTimes self !! market))
       (cadence_params marketParams) ts = true
  /\ should_trade (PolicyEngine.entrySignal state features (entry_params marketParams))
     = true
  /\ PolicyEngine.checkRiskLimits (trades_seen market ts marketParams self) inv
       (risk_params marketParams) = true
  /\ exists s,
       d_side d = Some s
       /\ PolicyEngine.sizeForTrade state features (size_params marketParams) s None
          = Ok (d_shares d)
       /\ forall ip, inventory_params marketParams = Some ip ->
                     inv_up_shares inv + inv_down_shares inv < max_total_shares ip
                     /\ side_shares s inv < side_cap s ip.

(** The trade the first tick of the quality scenario returns. *)
Definition sample_trade : TradeDecision :=
  {| d_shouldTrade := true; d_side := Some UP; d_shares := 1; d_reason := "up_price_band";
     decisionId := 1; fillPrice := Some (1 # 2) |}.

(** One call of a method of the later revision that changes the
    integrator, and a run of such calls on a new integrator. *)
Inductive Call : Type :=
| Tick (market : string) (ts upPx downPx : Q) (marketParams : MarketParams)
| Executed (market : string) (ts : Q) (s : Side) (shares cost : Q)
| Reset (market : option string)
| Pushed (market : string) (ts upPx downPx : Q)
| Adjusted (market : string) (s : Side) (shares cost : Q)
| Asked (market : string).

Definition call (self : Integrator) (c : Call) : Integrator :=
  match c with
  | Tick market ts upPx downPx marketParams =>
      snd (PolicyIntegrator.shouldTrade market ts upPx downPx marketParams self)
  | Executed market ts s shares cost =>
      PolicyIntegrator.recordTradeExecution market ts s shares cost self
  | Reset market => resetInventory market self
  | Pushed market ts upPx downPx => updatePriceHistory market ts upPx downPx self
  | Adjusted market s shares cost => updateInventory market s shares cost self
  | Asked market => snd (getInventoryState market self)
  end.

Definition run_calls (calls : list Call) : Integrator :=
  fold_left call calls new_integrator.

(** The other side. *)
Definition opposite (s : Side) : Side := match s with UP => DOWN | DOWN => UP end.

(** The average cost recorded for a side. *)
Definition side_avg_cost (s : Side) (inv : InventoryState) : option Q :=
  match s with UP => avg_cost_up inv | DOWN => avg_cost_down inv end.

(** A run of executed trades [(timestamp, side, shares, cost)] recorded
    for one market. *)
Definition record_trades (market : string) (trades : list (Q * Side * Q * Q))
    (self : Integrator) : Integrator :=
  fold_left
    (fun self '(ts, s, shares, cost) =>
       PolicyIntegrator.recordTradeExecution market ts s shares cost self)
    trades self.

(** One side's book, its share count and its average cost, after a trade:
    a trade on the other side leaves it alone. *)
Definition book_trade (s : Side) (book : Q * option Q) (trade : Q * Side * Q * Q)
    : Q * option Q :=
  let '(_, s', shares, cost) := trade in
  if decide (s' = s)
  then (book.1 + shares, Some ((number_or book.2 0 * book.1 + cost) / (book.1 + shares)))
  else book.

(** The inventory the integrator holds for a market; none counts as
    empty. *)
Definition held (market : string) (self : Integrator) : InventoryState :=
  default empty_inventory (inventory self !! market).

(** Two trades on the UP side: 10 shares for 5, then 30 shares for 21. *)
Definition sample_trades : list (Q * Side * Q * Q) :=
  [(1000, UP, 10, 5); (2000, UP, 30, 21)].

(** Parameters with a cadence: at least a second between trades. *)
Definition paced_params : MarketParams :=
  {| entry_params := Some sample_entry_params; size_params := None;
     inventory_params := None;
     cadence_params :=
       Some {| min_inter_trade_ms := 1000; p50_inter_trade_ms := 2000;
               p95_inter_trade_ms := 5000; max_trades_per_sec := 5;
               max_trades_per_min := 60 |};
     side_selection_params := None; execution_params := None; cooldown_params := None;
     risk_params := None; quality_filter_params := None; reset_params := None |}.

(** Parameters with risk limits: neither side may exceed 80% of the
    holding. *)
Definition balanced_params : MarketParams :=
  {| entry_params := Some sample_entry_params; size_params := None;
     inventory_params := None; cadence_params := None;
     side_selection_params := None; execution_params := None; cooldown_params := None;
     risk_params :=
       Some {| max_trades_per_session := None; max_imbalance_ratio := 8 # 10;
               max_exposure_up_shares := 1000; max_exposure_down_shares := 1000 |};
     quality_filter_params := None; reset_params := None |}.

(** What a market-first document says about one market. *)
Definition market_entry_params (parsed : ParameterLoader.ParameterFile) (key : string)
    : MarketParams :=
  let entry := ParameterLoader.pf_markets parsed !! key in
  {| entry_params := entry ≫= ParameterLoader.me_entry_params;
     size_params := entry ≫= ParameterLoader.me_size_params;
     inventory_params := entry ≫= ParameterLoader.me_inventory_params;
     cadence_params := entry ≫= ParameterLoader.me_cadence_params;
     side_selection_params := None; execution_params := None; cooldown_params := None;
     risk_params := None; quality_filter_params := None; reset_params := None |}.

(** A market-first document with one market. *)
Definition market_first_sample : ParameterLoader.ParameterFile :=
  {| ParameterLoader.pf_entry_params := None;
     ParameterLoader.pf_size_params := None;
     ParameterLoader.pf_inventory_params := None;
     ParameterLoader.pf_cadence_params := None;
     ParameterLoader.pf_markets :=
       {[ "BTC_15m" :=
            {| ParameterLoader.me_entry_params := Some sample_entry_params;
               ParameterLoader.me_size_params := None;
               ParameterLoader.me_inventory_params := None;
               ParameterLoader.me_cadence_params := None |} ]} |}.

(** Parameters whose cadence allows no trade per second. *)
Definition capped_params : MarketParams :=
  {| entry_params := Some sample_entry_params; size_params := None;
     inventory_params := None;
     cadence_params :=
       Some {| min_inter_trade_ms := 0; p50_inter_trade_ms := 2000;
               p95_inter_trade_ms := 5000; max_trades_per_sec := 0;
               max_trades_per_min := 60 |};
     side_selection_params := None; execution_params := None; cooldown_params := None;
     risk_params := None; quality_filter_params := None; reset_params := None |}.

(** Parameters with inventory caps and a rebalance ratio of 0.6. *)
Definition rebalancing_params : MarketParams :=
  {| entry_params := Some sample_entry_params; size_params := None;
     inventory_params :=
       Some {| rebalance_ratio_R := 6 # 10; max_up_shares := 1000;
               max_down_shares := 1000; max_total_shares := 2000 |};
     cadence_params := None;
     side_selection_params := None; execution_params := None; cooldown_params := None;
     risk_params := None; quality_filter_params := None; reset_params := None |}.

(** Parameters that reset a market after an hour without a trade. *)
Definition resetting_params : MarketParams :=
  {| entry_params := Some sample_entry_params; size_params := None;
     inventory_params := None; cadence_params := None;
     side_selection_params := None; execution_params := None; cooldown_params := None;
     risk_params := None; quality_filter_params := None;
     reset_params :=
       Some {| resets_on_market_switch := false; resets_on_inactivity := true;
               inactivity_threshold_hours := 1 |} |}.

(** ** Comparisons as propositions *)

Lemma leb_le (x y : Q) : (x <=? y) = true <-> x <= y.
Proof. apply Qle_bool_iff. Qed.

Lemma geb_ge (x y : Q) : (x >=? y) = true <-> y <= x.
Proof. apply Qle_bool_iff. Qed.

Lemma ltb_lt (x y : Q) : (x <? y) = true <-> x < y.
Proof.
  unfold Js.ltb. rewrite negb_true_iff, <- not_true_iff_false, Qle_bool_iff.
  split; [apply Qnot_le_lt | apply Qlt_not_le].
Qed.

Lemma gtb_gt (x y : Q) : (x >? y) = true <-> y < x.
Proof. apply (ltb_lt y x). Qed.

Lemma leb_gt (x y : Q) : (x <=? y) = false <-> y < x.
Proof.
  rewrite <- ltb_lt. unfold Js.ltb, Js.leb.
  destruct (Qle_bool x y); intuition discriminate.
Qed.

Lemma geb_lt (x y : Q) : (x >=? y) = false <-> x < y.
Proof. apply (leb_gt y x). Qed.

Lemma ltb_ge (x y : Q) : (x <? y) = false <-> y <= x.
Proof.
  rewrite <- geb_ge. unfold Js.ltb, Js.geb.
  destruct (Qle_bool y x); intuition discriminate.
Qed.

Lemma gtb_le (x y : Q) : (x >? y) = false <-> x <= y.
Proof. apply (ltb_ge y x). Qed.

(** Turn the boolean comparisons of the hypotheses and the goal into
    order relations on [Q]. *)
Ltac js_order :=
  repeat match goal with
    | H : (_ && _) = true |- _ => apply andb_true_iff in H; destruct H
    | H : (_ <=? _) = true |- _ => apply leb_le in H
    | H : (_ <=? _) = false |- _ => apply leb_gt in H
    | H : (_ >=? _) = true |- _ => apply geb_ge in H
    | H : (_ >=? _) = false |- _ => apply geb_lt in H
    | H : (_ <? _) = true |- _ => apply ltb_lt in H
    | H : (_ <? _) = false |- _ => apply ltb_ge in H
    | H : (_ >? _) = true |- _ => apply gtb_gt in H
    | H : (_ >? _) = false |- _ => apply gtb_le in H
    end.

(** ** The feature computer *)

Lemma distance_from_50_value (state : TapeState) (history : list PriceHistory) :
  distance_from_50 (PolicyEngine.computeFeatures state history)
  = Qabs (up_px state - (1 # 2)).
Proof.
  unfold PolicyEngine.computeFeatures.
  destruct (sort_by h_timestamp history); reflexivity.
Qed.

(** C7, as stated, fails: an UP price of 2 is accepted and gives a
    distance of 1.5, above 0.5. *)
Lemma distance_from_50_above_half :
  (1 # 2) <
  distance_from_50
    (PolicyEngine.computeFeatures
       {| timestamp := 1000; up_px := 2; down_px := 0; market := "BTC_15m" |} []).
Proof. vm_compute. reflexivity. Qed.

(** C7, amended: for every tape state and history, [distance_from_50] is
    [|up_px - 0.5|] and is never negative.  It lies in [[0, 0.5]] when the
    UP price lies in [[0, 1]]; it is above 0.5 when the UP price is above
    1, and at least 0.5 when the UP price is below 0 (in the code's
    floating point a price just below 0 gives exactly 0.5): prices outside
    [[0, 1]] are not clamped. *)
Theorem distance_from_50_range (state : TapeState) (history : list PriceHistory) :
  let d := distance_from_50 (PolicyEngine.computeFeatures state history) in
  d = Qabs (up_px state - (1 # 2))
  /\ 0 <= d
  /\ (0 <= up_px state <= 1 -> d <= 1 # 2)
  /\ (1 < up_px state -> 1 # 2 < d)
  /\ (up_px state < 0 -> 1 # 2 <= d).
Proof.
  cbv zeta. rewrite distance_from_50_value.
  split; [reflexivity | split; [apply Qabs_nonneg |]].
  split; [| split].
  - intros [H1 H2]. apply Qabs_Qle_condition. split; lra.
  - intros Habove. rewrite Qabs_pos by lra. lra.
  - intros Hbelow. rewrite Qabs_neg by lra. lra.
Qed.

(** ** The inventory gate *)

(** C9: for every inventory state, inventory parameters and proposed side,
    [inventoryOkAndRebalance] returns null when the total share count has
    reached [max_total_shares], returns null when the proposed side's share
    count has reached that side's cap, and otherwise returns the proposed
    side; it never returns the other side.  With [max_total_shares = 50],
    [inv_up = 30] and [inv_down = 25] it returns null for either side. *)
Theorem inventoryOkAndRebalance_caps (inventory : InventoryState)
    (inventoryParams : InventoryParams) (proposedSide : Side) :
  let decision :=
    PolicyEngine.inventoryOkAndRebalance inventory (Some inventoryParams) proposedSide in
  let total := inv_up_shares inventory + inv_down_shares inventory in
  (max_total_shares inventoryParams <= total -> decision = None)
  /\ (side_cap proposedSide inventoryParams <= side_shares proposedSide inventory ->
      decision = None)
  /\ (total < max_total_shares inventoryParams ->
      side_shares proposedSide inventory < side_cap proposedSide inventoryParams ->
      decision = Some proposedSide)
  /\ (decision = None \/ decision = Some proposedSide)
  /\ (max_total_shares inventoryParams == 50 ->
      inv_up_shares inventory == 30 -> inv_down_shares inventory == 25 ->
      decision = None).
Proof.
  cbv zeta. unfold PolicyEngine.inventoryOkAndRebalance.
  destruct (inv_up_shares inventory + inv_down_shares inventory
            >=? max_total_shares inventoryParams) eqn:Htotal;
    destruct proposedSide; cbn [side_cap side_shares];
    [ | | destruct (inv_up_shares inventory >=? max_up_shares inventoryParams) eqn:Hside
        | destruct (inv_down_shares inventory >=? max_down_shares inventoryParams) eqn:Hside ];
    js_order;
    (repeat split; intros; try reflexivity; try (left; reflexivity);
     try (right; reflexivity); exfalso; lra).
Qed.

(** The scenario of the specification, evaluated. *)
Example inventory_cap_scenario :
  let inventory := {| inv_up_shares := 30; inv_down_shares := 25;
                      avg_cost_up := None; avg_cost_down := None |} in
  let inventoryParams := {| rebalance_ratio_R := 3 # 4; max_up_shares := 100;
                            max_down_shares := 100; max_total_shares := 50 |} in
  PolicyEngine.inventoryOkAndRebalance inventory (Some inventoryParams) UP = None
  /\ PolicyEngine.inventoryOkAndRebalance inventory (Some inventoryParams) DOWN = None.
Proof. split; reflexivity. Qed.

(** ** The cadence gate *)

Lemma trades_in_window_count (recentTradeTimes : list Q) (start now : Q) :
  PolicyEngine.trades_in_window recentTradeTimes start now
  = inject_Z (Z.of_nat (trades_within recentTradeTimes start now)).
Proof.
  unfold PolicyEngine.trades_in_window, trades_within, length_number.
  do 2 f_equal.
  induction recentTradeTimes as [| ts rest IH]; [reflexivity |].
  cbn [List.filter]. rewrite filter_cons.
  destruct (decide (in_window start now ts)) as [[H1 H2] | Hout].
  - apply geb_ge in H1. apply leb_le in H2. rewrite H1, H2. cbn. now rewrite IH.
  - destruct (ts >=? start) eqn:H1; [destruct (ts <=? now) eqn:H2 |]; cbn; try exact IH.
    exfalso. apply Hout. js_order. split; assumption.
Qed.

(** C10: for every last-trade timestamp, recent-trades list, cadence
    parameters and current time, [cadenceOk] returns false exactly when a
    last trade exists, [min_inter_trade_ms > 0] and
    [now - last_trade_ts < min_inter_trade_ms], or the number of recent
    trades in [[now - 1000, now]] is at least [max_trades_per_sec], or the
    number in [[now - 60000, now]] is at least [max_trades_per_min]; with
    [min_inter_trade_ms = 0] only the two window counts can block. *)
Theorem cadenceOk_blocks_exactly (lastTradeTs : option Q) (recentTradeTimes : list Q)
    (cadenceParams : CadenceParams) (now : Q) :
  let blocked :=
    PolicyEngine.cadenceOk lastTradeTs recentTradeTimes (Some cadenceParams) now = false in
  let too_soon :=
    exists last, lastTradeTs = Some last
                 /\ 0 < min_inter_trade_ms cadenceParams
                 /\ now - last < min_inter_trade_ms cadenceParams in
  let second_full :=
    max_trades_per_sec cadenceParams
    <= inject_Z (Z.of_nat (trades_within recentTradeTimes (now - 1000) now)) in
  let minute_full :=
    max_trades_per_min cadenceParams
    <= inject_Z (Z.of_nat (trades_within recentTradeTimes (now - 60000) now)) in
  (blocked <-> too_soon \/ second_full \/ minute_full)
  /\ (min_inter_trade_ms cadenceParams == 0 -> (blocked <-> second_full \/ minute_full)).
Proof.
  cbv zeta.
  assert (Hmain :
    PolicyEngine.cadenceOk lastTradeTs recentTradeTimes (Some cadenceParams) now = false <->
    (exists last, lastTradeTs = Some last
                  /\ 0 < min_inter_trade_ms cadenceParams
                  /\ now - last < min_inter_trade_ms cadenceParams)
    \/ max_trades_per_sec cadenceParams
       <= inject_Z (Z.of_nat (trades_within recentTradeTimes (now - 1000) now))
    \/ max_trades_per_min cadenceParams
       <= inject_Z (Z.of_nat (trades_within recentTradeTimes (now - 60000) now))).
  { unfold PolicyEngine.cadenceOk. rewrite !trades_in_window_count.
    destruct lastTradeTs as [last |].
    - destruct ((min_inter_trade_ms cadenceParams >? 0)
                && (now - last <? min_inter_trade_ms cadenceParams)) eqn:Hsoon.
      + js_order. split; [| reflexivity]. intros _. left. exists last. auto.
      + assert (Hnot : ~ (0 < min_inter_trade_ms cadenceParams
                          /\ now - last < min_inter_trade_ms cadenceParams)).
        { intros [Ha Hb]. apply gtb_gt in Ha. apply ltb_lt in Hb.
          rewrite Ha, Hb in Hsoon. discriminate. }
        destruct (_ >=? max_trades_per_sec cadenceParams) eqn:Hsec;
          [| destruct (_ >=? max_trades_per_min cadenceParams) eqn:Hmin]; js_order.
        * split; [auto | reflexivity].
        * split; [auto | reflexivity].
        * split; [discriminate |].
          intros [(last' & Heq & Ha & Hb) | [H | H]].
          -- injection Heq as <-. exfalso. apply Hnot. auto.
          -- exfalso. lra.
          -- exfalso. lra.
    - destruct (_ >=? max_trades_per_sec cadenceParams) eqn:Hsec;
        [| destruct (_ >=? max_trades_per_min cadenceParams) eqn:Hmin]; js_order.
      + split; [auto | reflexivity].
      + split; [auto | reflexivity].
      + split; [discriminate |].
        intros [(last' & Heq & _) | [H | H]]; [discriminate | exfalso; lra | exfalso; lra]. }
  split; [exact Hmain |].
  intros Hzero. rewrite Hmain. split; [| auto].
  intros [(last & _ & Hpos & _) | H]; [| exact H].
  exfalso. rewrite Hzero in Hpos. lra.
Qed.

(** The two cadence scenarios of the specification, evaluated. *)
Example cadence_scenarios :
  PolicyEngine.cadenceOk (Some 500) []
    (Some {| min_inter_trade_ms := 2000; p50_inter_trade_ms := 0; p95_inter_trade_ms := 0;
             max_trades_per_sec := 10; max_trades_per_min := 100 |}) 1000 = false
  /\ PolicyEngine.cadenceOk None [995; 998]
       (Some {| min_inter_trade_ms := 0; p50_inter_trade_ms := 0; p95_inter_trade_ms := 0;
                max_trades_per_sec := 3; max_trades_per_min := 100 |}) 1000 = true.
Proof. split; reflexivity. Qed.

(** ** The entry signal *)

Lemma in_band_within (s : Side) (ep : EntryParams) (state : TapeState) :
  PolicyEngine.in_band (band_min s ep) (band_max s ep) (side_price s state) = true
  <-> within_band s ep state.
Proof.
  unfold PolicyEngine.in_band, within_band.
  destruct (band_min s ep) as [lo |], (band_max s ep) as [hi |]; split;
    try discriminate; try (intros (? & ? & ? & ? & _); discriminate).
  - intros H. js_order. exists lo, hi. auto.
  - intros (lo' & hi' & [= <-] & [= <-] & H1 & H2).
    apply andb_true_iff. split; [apply geb_ge | apply leb_le]; assumption.
Qed.

(** C1, as stated, fails: with the UP band [[0.4, 0.6]] configured and
    the UP price at 0.9, [entrySignal] emits an UP signal. *)
Lemma entrySignal_fires_outside_band :
  PolicyEngine.entrySignal
    {| timestamp := 1000; up_px := 9 # 10; down_px := 1 # 10; market := "BTC_15m" |}
    (PolicyEngine.computeFeatures
       {| timestamp := 1000; up_px := 9 # 10; down_px := 1 # 10; market := "BTC_15m" |} [])
    (Some {| up_price_min := Some (4 # 10); up_price_max := Some (6 # 10);
             down_price_min := Some (4 # 10); down_price_max := Some (6 # 10);
             momentum_window_s := 5; momentum_threshold := 1 # 100; mode := none |})
  = {| should_trade := true; side := Some UP; reason := "up_price_band" |}
  /\ (6 # 10) < (9 # 10).
Proof. split; reflexivity. Qed.

(** C1, amended: [entrySignal] is built with [IGNORE_ENTRY_BANDS = true]
    and does not consult the price bands: its result depends on the entry
    parameters only through the mode and the momentum threshold, and with
    mode [none] it emits UP with reason [up_price_band] at every price.
    The bands are enforced by [checkSideEntry]: for each side it emits a
    signal only if both bounds of the side's band are set and the side's
    price lies inclusively within them, the signal is then for that side,
    and a price outside the band gives no signal and the side's
    [..._not_in_band] reason. *)
Theorem entry_bands_checked_per_side (state : TapeState) (features : Features)
    (entryParams : EntryParams) :
  (forall other : EntryParams,
      mode other = mode entryParams ->
      momentum_threshold other = momentum_threshold entryParams ->
      PolicyEngine.entrySignal state features (Some other)
      = PolicyEngine.entrySignal state features (Some entryParams))
  /\ (mode entryParams = none ->
      PolicyEngine.entrySignal state features (Some entryParams)
      = {| should_trade := true; side := Some UP; reason := "up_price_band" |})
  /\ (forall s : Side,
        let signal := PolicyEngine.checkSideEntry state features (Some entryParams) s in
        (should_trade signal = true ->
         within_band s entryParams state /\ side signal = Some s)
        /\ (forall emitted, side signal = Some emitted ->
            emitted = s /\ within_band s entryParams state)
        /\ (~ within_band s entryParams state ->
            signal = PolicyEngine.no_signal
                       (match s with
                        | UP => "up_price_not_in_band"
                        | DOWN => "down_price_not_in_band"
                        end))).
Proof.
  split; [| split].
  - intros other Hmode Hthreshold.
    unfold PolicyEngine.entrySignal, PolicyEngine.mode_check, IGNORE_ENTRY_BANDS.
    rewrite Hmode, Hthreshold. reflexivity.
  - intros Hnone.
    unfold PolicyEngine.entrySignal, PolicyEngine.mode_check, IGNORE_ENTRY_BANDS.
    rewrite Hnone. reflexivity.
  - intros s. cbv zeta.
    pose proof (in_band_within s entryParams state) as Hband.
    unfold PolicyEngine.checkSideEntry.
    destruct s; cbn [band_min band_max side_price] in Hband;
      match goal with
      | |- context [PolicyEngine.in_band ?a ?b ?c] =>
          destruct (PolicyEngine.in_band a b c) eqn:Hin
      end; cbn [negb];
      try (destruct (PolicyEngine.mode_check _ _ _) as [[|] why]);
      cbn [should_trade side PolicyEngine.no_signal];
      (split; [| split]);
      try (intros; discriminate);
      try (intros _; split; [apply Hband |]; reflexivity);
      try (intros emitted [= <-]; split; [| apply Hband]; reflexivity);
      try (intros Hout; exfalso; apply Hout, Hband; reflexivity);
      try (intros Hout; reflexivity).
Qed.

(** ** The market-key normalizer *)

(** C8, as stated, fails: a lower-case [btc] and the word [bitcoin] are
    not recognised; such keys are returned as they came. *)
Lemma normalizeMarketKey_is_case_sensitive :
  ParameterLoader.normalizeMarketKey "btc-updown-15" = "btc-updown-15"
  /\ ParameterLoader.normalizeMarketKey "Bitcoin Up or Down 15 min" = "Bitcoin Up or Down 15 min"
  /\ ParameterLoader.normalizeMarketKey "eth 1 hour" = "eth 1 hour".
Proof. repeat split; reflexivity. Qed.

(** C8, amended: the normalizer matches substrings case-sensitively and
    knows the upper-case symbols [BTC] and [ETH] only ([bitcoin] is not
    among them).  The rules are tried in order: [BTC] with [15] gives
    [BTC_15m]; else [ETH] with [15] gives [ETH_15m]; else [BTC] with [1h]
    or [1 hour] gives [BTC_1h]; else [ETH] with [1h] or [1 hour] gives
    [ETH_1h]; an input none of them matches is returned verbatim, and the
    four canonical keys are returned unchanged. *)
Theorem normalizeMarketKey_rules (marketKey : string) :
  let btc := includes marketKey "BTC" in
  let eth := includes marketKey "ETH" in
  let quarter := includes marketKey "15" in
  let hour := includes marketKey "1h" || includes marketKey "1 hour" in
  let normalized := ParameterLoader.normalizeMarketKey marketKey in
  (btc = true -> quarter = true -> normalized = "BTC_15m")
  /\ (btc = false -> eth = true -> quarter = true -> normalized = "ETH_15m")
  /\ (btc = true -> quarter = false -> hour = true -> normalized = "BTC_1h")
  /\ (btc = false -> eth = true -> quarter = false -> hour = true -> normalized = "ETH_1h")
  /\ ((btc = false /\ eth = false) \/ (quarter = false /\ hour = false) ->
      normalized = marketKey)
  /\ (In marketKey ParameterLoader.marketKeys -> normalized = marketKey).
Proof.
  cbv zeta. unfold ParameterLoader.normalizeMarketKey.
  repeat split.
  - intros -> ->. reflexivity.
  - intros -> -> ->. reflexivity.
  - intros -> -> ->. cbn. now destruct (includes marketKey "ETH").
  - intros -> -> -> ->. reflexivity.
  - intros [[-> ->] | [-> H]]; [reflexivity |].
    apply orb_false_iff in H as [-> ->]. cbn. rewrite !andb_false_r. reflexivity.
  - intros [<- | [<- | [<- | [<- | []]]]]; reflexivity.
Qed.

(** ** The parameter loader: a reload that fails *)

(** C2, the code against the claim.  The loader serves [sample_snapshot];
    the file is then rewritten with text that does not parse.  After the
    next poll [getParams] returns the empty defaults, not the snapshot it
    returned before, and the entry parameters of [BTC_15m] are gone.  The
    sibling paths do keep the snapshot: a direct [loadParams] on the same
    file leaves the loader as it was, and so does a poll that finds no
    file. *)
Theorem failed_reload_drops_snapshot :
  let file := ParameterLoader.Present ParameterLoader.Malformed 200 in
  let after := ParameterLoader.poll file sample_loader in
  fst (ParameterLoader.getParams file sample_loader) = sample_snapshot
  /\ fst (ParameterLoader.getParams file after) = ParameterLoader.getDefaultParams
  /\ entry_params (fst (ParameterLoader.getMarketParams file "BTC-UpDown-15" sample_loader))
     = Some sample_entry_params
  /\ entry_params (fst (ParameterLoader.getMarketParams file "BTC-UpDown-15" after)) = None
  /\ snd (ParameterLoader.loadParams file sample_loader) = sample_loader
  /\ ParameterLoader.poll ParameterLoader.Absent sample_loader = sample_loader.
Proof. repeat split; vm_compute; reflexivity. Qed.

(** In general: a file that does not parse never makes the loader raise.
    A direct [loadParams] returns the empty defaults and leaves the loader
    as it was.  A hot-reload poll that finds such a file newer than the
    last load installs the empty defaults as the active snapshot, so
    [getParams] then returns the defaults whatever it returned before;
    [lastModified] is not advanced, so every later poll tries again.  A
    poll that finds the file no newer changes nothing. *)
Lemma failed_reload_serves_defaults (self : ParameterLoader.Loader) (mtimeMs : Q) :
  let file := ParameterLoader.Present ParameterLoader.Malformed mtimeMs in
  let after := ParameterLoader.poll file self in
  ParameterLoader.loadParams file self = (ParameterLoader.getDefaultParams, self)
  /\ (ParameterLoader.lastModified self < mtimeMs ->
      ParameterLoader.params after = Some ParameterLoader.getDefaultParams
      /\ ParameterLoader.lastModified after = ParameterLoader.lastModified self
      /\ (forall file',
            ParameterLoader.getParams file' after = (ParameterLoader.getDefaultParams, after)))
  /\ (mtimeMs <= ParameterLoader.lastModified self -> after = self).
Proof.
  cbv zeta. unfold ParameterLoader.poll, ParameterLoader.loadParams.
  split; [reflexivity | split].
  - intros Hnewer. apply gtb_gt in Hnewer. rewrite Hnewer. cbn.
    repeat split; reflexivity.
  - intros Hold. apply gtb_le in Hold. rewrite Hold. reflexivity.
Qed.

(** A reload that succeeds does swap the snapshot and advance
    [lastModified]. *)
Lemma successful_reload_swaps (self : ParameterLoader.Loader)
    (parsed : ParameterLoader.ParameterFile) (mtimeMs : Q) :
  ParameterLoader.lastModified self < mtimeMs ->
  let after :=
    ParameterLoader.poll (ParameterLoader.Present (ParameterLoader.Document parsed) mtimeMs)
      self in
  ParameterLoader.lastModified after = mtimeMs
  /\ exists normalized,
       ParameterLoader.params after = Some normalized
       /\ ParameterLoader.validateParams normalized = normalized.
Proof.
  intros Hnewer. cbv zeta. unfold ParameterLoader.poll, ParameterLoader.loadParams.
  apply gtb_gt in Hnewer. rewrite Hnewer. cbn.
  split; [reflexivity |]. eexists. split; reflexivity.
Qed.

(** ** Sizing *)

(** C5, as stated, fails: with [inv_up = 50], [inv_down = 100] the size
    returned is 15, not 5. *)
Lemma scenario_size_is_median :
  PolicyEngine.sizeForTrade scenario_state scenario_features
    (Some (scenario_size_params scenario_table)) UP (Some (holding 50 100))
  = Ok 15.
Proof. vm_compute. reflexivity. Qed.

(** Scenario 1 of the specification, for comparison: without a
    conditioning variable the same bins and a table keyed by their labels
    give 10 for the UP price 0.35. *)
Example bucket_lookup_scenario :
  PolicyEngine.sizeForTrade
    {| timestamp := 1000; up_px := 35 # 100; down_px := 65 # 100; market := "BTC_15m" |}
    scenario_features
    (Some {| bin_edges := Some scenario_bins;
             size_table :=
               Some {[ "(0, 0.2]" := 5; "(0.2, 0.4]" := 10; "(0.4, 0.6]" := 15;
                       "(0.6, 0.8]" := 20; "(0.8, 1]" := 25 ]};
             size_table_1d := None;
             conditioning_var := None;
             inventory_bucket_thresholds := None;
             inventory_buckets := None |})
    UP (Some (holding 0 0))
  = Ok 10.
Proof. vm_compute. reflexivity. Qed.

(** The table's labels are those of the bins [[0, 0.5, 1]], which the
    repository's unit test of this scenario uses.  Under those bins 0.3
    lies in the first bucket, which the code labels [(-0.001, 0.5]]: the
    lookups miss as well and the median answers for both inventories. *)
Example unit_test_bins_miss_too :
  PolicyEngine.priceBucketKey [0; 1 # 2; 1] 0 = "(-0.001, 0.5]"
  /\ PolicyEngine.sizeForTrade scenario_state scenario_features
       (Some {| bin_edges := Some [0; 1 # 2; 1];
                size_table := Some scenario_table;
                size_table_1d := None;
                conditioning_var := Some "inventory_imbalance_ratio";
                inventory_bucket_thresholds := Some [0; 1; 2];
                inventory_buckets := Some ["bucket_0"; "bucket_1"] |})
       UP (Some (holding 50 100)) = Ok 15.
Proof. split; vm_compute; reflexivity. Qed.

(** C5, amended: under the bins [[0, 0.2, 0.4, 0.6, 0.8, 1.0]] the price
    0.3 lies in the bucket labelled [(0.2, 0.4]]; the inventory ratio 0.5
    selects [bucket_0] and the ratio 2.0 selects [bucket_1]; the table of
    the scenario has no key with that price label, so [sizeForTrade]
    returns the median of all its sizes, 15, for both inventories; with a
    table keyed by the label [(0.2, 0.4]] it returns 5 for
    [inv_up = 50, inv_down = 100] and 15 for [inv_up = 100, inv_down = 50]. *)
Theorem scenario_sizes :
  PolicyEngine.find_price_bucket 0 scenario_bins (up_px scenario_state) = Some 1%nat
  /\ PolicyEngine.priceBucketKey scenario_bins 1 = "(0.2, 0.4]"
  /\ PolicyEngine.invBucketIndex [0; 1; 2] (50 / Math_max 100 PolicyEngine.eps) = 0%nat
  /\ PolicyEngine.invBucketIndex [0; 1; 2] (100 / Math_max 50 PolicyEngine.eps) = 1%nat
  /\ PolicyEngine.sizeForTrade scenario_state scenario_features
       (Some (scenario_size_params scenario_table)) UP (Some (holding 50 100)) = Ok 15
  /\ PolicyEngine.sizeForTrade scenario_state scenario_features
       (Some (scenario_size_params scenario_table)) UP (Some (holding 100 50)) = Ok 15
  /\ PolicyEngine.sizeForTrade scenario_state scenario_features
       (Some (scenario_size_params relabelled_table)) UP (Some (holding 50 100)) = Ok 5
  /\ PolicyEngine.sizeForTrade scenario_state scenario_features
       (Some (scenario_size_params relabelled_table)) UP (Some (holding 100 50)) = Ok 15.
Proof. repeat split; vm_compute; reflexivity. Qed.

(** ** The integrator: decision identifiers *)

Lemma getInventory_frame (market : string) (self : Integrator) :
  let '(_, self') := getInventory market self in
  decisionIdCounter self' = decisionIdCounter self
  /\ lastPriceState self' = lastPriceState self
  /\ priceHistory self' = priceHistory self
  /\ lastTradeTime self' = lastTradeTime self
  /\ recentTradeTimes self' = recentTradeTimes self
  /\ tradesPerSession self' = tradesPerSession self.
Proof.
  unfold getInventory. destruct (inventory self !! market); repeat split; reflexivity.
Qed.

Lemma decide_entry_id (state : TapeState) (features : Features)
    (inventory : InventoryState) (tradesThisSession : Q) (marketParams : MarketParams)
    (id : Z) (d : TradeDecision) :
  PolicyIntegrator.decide_entry state features inventory tradesThisSession marketParams id
  = Ok d ->
  decisionId d = id.
Proof.
  unfold PolicyIntegrator.decide_entry, Js.bind.
  repeat case_match; intros [= <-]; reflexivity.
Qed.

(** Every call advances the counter by one, whatever it returns. *)
Lemma shouldTrade_advances_counter (market : string) (timestamp upPx downPx : Q)
    (marketParams : MarketParams) (self : Integrator) :
  decisionIdCounter
    (snd (PolicyIntegrator.shouldTrade market timestamp upPx downPx marketParams self))
  = (decisionIdCounter self + 1)%Z.
Proof.
  unfold PolicyIntegrator.shouldTrade.
  repeat match goal with
    | |- context [getInventory ?m ?s] =>
        let H := fresh "Hinv" in
        pose proof (getInventory_frame m s) as H;
        destruct (getInventory m s) as [? ?]; destruct H as [H _]
    | |- context [if ?b then _ else _] => destruct b
    end; cbn; try rewrite Hinv; repeat case_match; reflexivity.
Qed.

(** The decision returned carries the advanced counter as its
    identifier. *)
Lemma shouldTrade_decisionId (market : string) (timestamp upPx downPx : Q)
    (marketParams : MarketParams) (self : Integrator) (d : TradeDecision) :
  fst (PolicyIntegrator.shouldTrade market timestamp upPx downPx marketParams self) = Ok d ->
  decisionId d = (decisionIdCounter self + 1)%Z.
Proof.
  unfold PolicyIntegrator.shouldTrade.
  repeat match goal with
    | |- context [getInventory ?m ?s] => destruct (getInventory m s) as [? ?]
    | |- context [if ?b then _ else _] => destruct b
    end; cbn [fst];
    try (intros [= <-]; reflexivity);
    intros H; apply decide_entry_id in H; exact H.
Qed.

(** C6, as stated, fails: two runs in a row on a fresh integrator, same
    arguments, return decisions numbered 1 and 2. *)
Lemma repeated_run_renumbers :
  let params := {| entry_params := None; size_params := None; inventory_params := None;
                   cadence_params := None; side_selection_params := None;
                   execution_params := None; cooldown_params := None; risk_params := None;
                   quality_filter_params := None; reset_params := None |} in
  let first :=
    PolicyIntegrator.shouldTrade "BTC_15m" 1000 (1 # 2) (1 # 2) params new_integrator in
  let second :=
    PolicyIntegrator.shouldTrade "BTC_15m" 1000 (1 # 2) (1 # 2) params (snd first) in
  fst first = Ok (no_trade "no_entry_params" 1)
  /\ fst second = Ok (no_trade "no_entry_params" 2).
Proof. split; vm_compute; reflexivity. Qed.

(** *** A tick as a function of what it reads *)

Lemma shouldTrade_outcome (market : string) (ts upPx downPx : Q)
    (marketParams : MarketParams) (self : Integrator) :
  fst (PolicyIntegrator.shouldTrade market ts upPx downPx marketParams self)
  = tick_outcome (decisionIdCounter self + 1)
      {| timestamp := ts; up_px := upPx; down_px := downPx; market := market |}
      marketParams (lastPriceState self !! market)
      (PolicyEngine.computeFeatures
         {| timestamp := ts; up_px := upPx; down_px := downPx; market := market |}
         (history_seen market ts upPx downPx self))
      (number_or_null (lastTradeTime self !! market))
      (inventory_seen market ts marketParams self)
      (default [] (recentTradeTimes self !! market))
      (trades_seen market ts marketParams self).
Proof.
  unfold PolicyIntegrator.shouldTrade, tick_outcome, quality_gate, inventory_seen, trades_seen,
    history_seen, resets, getInventory, updatePriceHistory.
  cbn [lastTradeTime with_decisionIdCounter timestamp].
  destruct (bool_decide (is_Some (reset_params marketParams)) && _);
    cbn [lastPriceState priceHistory inventory lastTradeTime recentTradeTimes
         tradesPerSession decisionIdCounter with_priceHistory with_tradesPerSession
         with_inventory with_decisionIdCounter with_lastPriceState].
  all: rewrite ?lookup_delete_eq, ?lookup_insert_eq.
  all: destruct (bool_decide (is_Some (quality_filter_params marketParams)) && _);
    [reflexivity |].
  all: cbn [lastPriceState priceHistory inventory lastTradeTime recentTradeTimes
         tradesPerSession decisionIdCounter with_priceHistory with_tradesPerSession
         with_inventory with_decisionIdCounter with_lastPriceState].
  all: rewrite ?lookup_delete_eq, ?lookup_insert_eq.
  all: unfold tick_snapshot, empty_inventory; cbn [from_option id].
  - destruct (_ && negb (PolicyEngine.checkCooldown _ _ _ _ _)); [reflexivity |].
    destruct (negb (PolicyEngine.cadenceOk _ _ _ _)); reflexivity.
  - destruct (inventory self !! market); cbn [from_option id];
      (destruct (_ && negb (PolicyEngine.checkCooldown _ _ _ _ _)); [reflexivity |]);
      destruct (negb (PolicyEngine.cadenceOk _ _ _ _)); reflexivity.
Qed.

Lemma shouldTrade_views (market : string) (ts upPx downPx : Q)
    (marketParams : MarketParams) (self : Integrator) :
  let after := snd (PolicyIntegrator.shouldTrade market ts upPx downPx marketParams self) in
  lastTradeTime after = lastTradeTime self
  /\ recentTradeTimes after = recentTradeTimes self
  /\ priceHistory after !! market = Some (history_seen market ts upPx downPx self)
  /\ inventory_seen market ts marketParams after = inventory_seen market ts marketParams self
  /\ trades_seen market ts marketParams after = trades_seen market ts marketParams self
  /\ lastPriceState after !! market
     = if quality_rejects market ts upPx downPx marketParams self
       then lastPriceState self !! market
       else Some (tick_snapshot ts upPx downPx).
Proof.
  cbv zeta.
  assert (Hlast :
    lastTradeTime (snd (PolicyIntegrator.shouldTrade market ts upPx downPx marketParams self))
    = lastTradeTime self).
  { unfold PolicyIntegrator.shouldTrade, getInventory, updatePriceHistory.
    repeat case_match; simplify_eq; reflexivity. }
  unfold inventory_seen, trades_seen, resets. rewrite Hlast.
  split; [reflexivity |].
  unfold PolicyIntegrator.shouldTrade, quality_rejects, quality_gate, history_seen,
    getInventory,
    updatePriceHistory, tick_snapshot.
  cbn [lastTradeTime with_decisionIdCounter].
  destruct (bool_decide (is_Some (reset_params marketParams)) && _);
    cbn [lastPriceState priceHistory inventory lastTradeTime recentTradeTimes
         tradesPerSession decisionIdCounter with_priceHistory with_tradesPerSession
         with_inventory with_decisionIdCounter with_lastPriceState];
    rewrite ?lookup_delete_eq, ?lookup_insert_eq;
    (destruct (bool_decide (is_Some (quality_filter_params marketParams)) && _);
     [cbn; rewrite ?lookup_insert_eq; repeat split; reflexivity |]);
    cbn [lastPriceState priceHistory inventory lastTradeTime recentTradeTimes
         tradesPerSession decisionIdCounter with_priceHistory with_tradesPerSession
         with_inventory with_decisionIdCounter with_lastPriceState];
    rewrite ?lookup_delete_eq, ?lookup_insert_eq.
  - repeat case_match; cbn; rewrite ?lookup_insert_eq; repeat split; reflexivity.
  - destruct (inventory self !! market) eqn:Hinv; repeat case_match; cbn;
      rewrite ?lookup_insert_eq, ?Hinv; repeat split; reflexivity.
Qed.

Lemma insert_sorted_doubled {A} (key : A -> Q) (e x : A) (l1 l2 : list A) :
  doubled e l1 l2 ->
  doubled e (insert_sorted key x l1) (insert_sorted key x l2).
Proof.
  induction 1 as [rest | y l1 l2 Hd IH]; cbn [insert_sorted];
    destruct (key x <=? key _) eqn:Hle; try rewrite Hle;
    repeat constructor; assumption.
Qed.

Lemma sort_by_doubled {A} (key : A -> Q) (e : A) (l : list A) :
  doubled e (sort_by key (l ++ [e])) (sort_by key (l ++ [e; e])).
Proof.
  unfold sort_by. rewrite !fold_right_app. cbn [fold_right insert_sorted].
  assert (Hrefl : (key e <=? key e) = true) by (apply leb_le, Qle_refl).
  rewrite Hrefl.
  induction l as [| x l IH]; cbn [fold_right].
  - constructor.
  - apply insert_sorted_doubled, IH.
Qed.

Lemma findClosest_doubled (e : PriceHistory) (l1 l2 : list PriceHistory)
    (first1 first2 : PriceHistory) (targetTs : Q) :
  doubled e l1 l2 -> first1 = first2 ->
  PolicyEngine.findClosest first1 l1 targetTs = PolicyEngine.findClosest first2 l2 targetTs.
Proof.
  intros Hd <-. unfold PolicyEngine.findClosest. f_equal.
  generalize (first1, Math_abs (h_timestamp first1 - targetTs)).
  induction Hd as [rest | y l1 l2 _ IH]; intros acc; cbn [fold_left].
  - f_equal.
    destruct (Math_abs (h_timestamp e - targetTs) <? acc.2) eqn:Hlt;
      cbn [snd]; [| rewrite Hlt; reflexivity].
    assert (Hirr : (Math_abs (h_timestamp e - targetTs)
                    <? Math_abs (h_timestamp e - targetTs)) = false)
      by (apply ltb_ge, Qle_refl).
    rewrite Hirr. reflexivity.
  - apply IH.
Qed.

Lemma computeFeatures_doubled (state : TapeState) (h : list PriceHistory)
    (e : PriceHistory) :
  same_deltas (PolicyEngine.computeFeatures state (h ++ [e]))
    (PolicyEngine.computeFeatures state (h ++ [e; e])).
Proof.
  pose proof (sort_by_doubled h_timestamp e h) as Hd.
  unfold same_deltas, PolicyEngine.computeFeatures.
  destruct Hd as [rest | x l1 l2 Hd];
    cbn [delta_5s_side_px delta_5s_down_px]; unfold PolicyEngine.deltas.
  - rewrite (findClosest_doubled e (e :: rest) (e :: e :: rest) e e);
      [split; reflexivity | constructor | reflexivity].
  - rewrite (findClosest_doubled e (x :: l1) (x :: l2) x x);
      [split; reflexivity | constructor; exact Hd | reflexivity].
Qed.

Lemma entrySignal_same_deltas (state : TapeState) (f1 f2 : Features)
    (entryParams : option EntryParams) :
  same_deltas f1 f2 ->
  PolicyEngine.entrySignal state f1 entryParams = PolicyEngine.entrySignal state f2 entryParams.
Proof. intros [H1 H2]. unfold PolicyEngine.entrySignal. rewrite H1, H2. reflexivity. Qed.

Lemma checkCooldown_same_deltas (lastTradeTs : option Q) (now : Q) (f1 f2 : Features)
    (inventory : InventoryState) (cooldownParams : option CooldownParams) :
  same_deltas f1 f2 ->
  PolicyEngine.checkCooldown lastTradeTs now f1 inventory cooldownParams
  = PolicyEngine.checkCooldown lastTradeTs now f2 inventory cooldownParams.
Proof. intros [H1 _]. unfold PolicyEngine.checkCooldown. rewrite H1. reflexivity. Qed.

Lemma selectSideWhenBothValid_same_deltas (state : TapeState) (f1 f2 : Features)
    (inventory : InventoryState) (params : option SideSelectionParams) (up down : bool) :
  same_deltas f1 f2 ->
  PolicyEngine.selectSideWhenBothValid state f1 inventory params up down
  = PolicyEngine.selectSideWhenBothValid state f2 inventory params up down.
Proof. intros [H1 _]. unfold PolicyEngine.selectSideWhenBothValid. rewrite H1. reflexivity. Qed.

Lemma decide_entry_same_deltas (state : TapeState) (f1 f2 : Features)
    (inventory : InventoryState) (tradesThisSession : Q) (marketParams : MarketParams)
    (id : Z) :
  same_deltas f1 f2 ->
  PolicyIntegrator.decide_entry state f1 inventory tradesThisSession marketParams id
  = PolicyIntegrator.decide_entry state f2 inventory tradesThisSession marketParams id.
Proof.
  intros Hsame. unfold PolicyIntegrator.decide_entry.
  rewrite (entrySignal_same_deltas state f1 f2 _ Hsame).
  rewrite (selectSideWhenBothValid_same_deltas state f1 f2 _ _ _ _ Hsame).
  reflexivity.
Qed.

Lemma decide_entry_renumbered (state : TapeState) (features : Features)
    (inventory : InventoryState) (tradesThisSession : Q) (marketParams : MarketParams)
    (id : Z) :
  PolicyIntegrator.decide_entry state features inventory tradesThisSession marketParams
    (id + 1)
  = renumbered
      (PolicyIntegrator.decide_entry state features inventory tradesThisSession
         marketParams id).
Proof.
  unfold PolicyIntegrator.decide_entry, renumbered, Js.bind.
  repeat case_match; simplify_eq; reflexivity.
Qed.

Lemma tick_outcome_renumbered (id : Z) (state : TapeState) (marketParams : MarketParams)
    (lastPrice1 lastPrice2 : option PriceHistory) (f1 f2 : Features)
    (lastTradeTs : option Q) (inventory : InventoryState) (recentTrades : list Q)
    (tradesThisSession : Q) :
  same_deltas f1 f2 ->
  quality_gate state marketParams lastPrice2 = quality_gate state marketParams lastPrice1 ->
  tick_outcome (id + 1) state marketParams lastPrice2 f2 lastTradeTs inventory recentTrades
    tradesThisSession
  = renumbered
      (tick_outcome id state marketParams lastPrice1 f1 lastTradeTs inventory recentTrades
         tradesThisSession).
Proof.
  intros Hsame Hgate. unfold tick_outcome. rewrite Hgate.
  rewrite (checkCooldown_same_deltas _ _ f1 f2 _ _ Hsame).
  rewrite (decide_entry_same_deltas _ f1 f2 _ _ _ _ Hsame).
  rewrite decide_entry_renumbered.
  repeat case_match; reflexivity.
Qed.

(** A tick compared with itself passes the timestamp-jump and price-gap
    checks when the thresholds are not negative. *)
Lemma checkDataQuality_against_itself (state : TapeState) (lastPrice : option PriceHistory)
    (qf : QualityFilterParams) :
  0 <= timestamp_jump_threshold_seconds qf ->
  0 <= price_gap_threshold qf ->
  PolicyEngine.checkDataQuality state lastPrice (Some qf) = true ->
  PolicyEngine.checkDataQuality state
    (Some (tick_snapshot (timestamp state) (up_px state) (down_px state))) (Some qf)
  = true.
Proof.
  intros Hjump Hgap. unfold PolicyEngine.checkDataQuality.
  destruct (_ >? max_price_sum_deviation qf); [discriminate |]. intros _.
  cbn [tick_snapshot h_timestamp h_up_px h_down_px].
  assert (H1 : ((timestamp state - timestamp state) / 1000
                >? timestamp_jump_threshold_seconds qf) = false).
  { apply gtb_le.
    assert (Hzero : (timestamp state - timestamp state) / 1000 == 0) by field.
    rewrite Hzero. exact Hjump. }
  rewrite H1.
  assert (H2 : (Math_max (Math_abs (up_px state - up_px state))
                  (Math_abs (down_px state - down_px state))
                >? price_gap_threshold qf) = false).
  { apply gtb_le. unfold Math_max, Math_abs.
    destruct (_ <? _); apply Qabs_Qle_condition; split; lra. }
  rewrite H2. reflexivity.
Qed.

Lemma push_bounded_below {A} (cap : nat) (a : list A) (x : A) :
  (length a + 1 <= cap)%nat -> push_bounded cap a x = (a ++ [x])%list.
Proof.
  intros Hlen. unfold push_bounded.
  destruct (cap <? length (a ++ [x]))%nat eqn:Hfull; [| reflexivity].
  apply Nat.ltb_lt in Hfull. rewrite length_app in Hfull. cbn in Hfull. lia.
Qed.

Lemma repeated_run_renumbered (market : string) (ts upPx downPx : Q)
    (marketParams : MarketParams) (self : Integrator) :
  (forall qf, quality_filter_params marketParams = Some qf ->
              0 <= timestamp_jump_threshold_seconds qf /\ 0 <= price_gap_threshold qf) ->
  (length (default [] (priceHistory self !! market)) + 2 <= maxHistoryLength)%nat ->
  let first := PolicyIntegrator.shouldTrade market ts upPx downPx marketParams self in
  let second :=
    PolicyIntegrator.shouldTrade market ts upPx downPx marketParams (snd first) in
  fst second = renumbered (fst first).
Proof.
  intros Hthresholds Hroom. cbv zeta.
  pose proof (shouldTrade_views market ts upPx downPx marketParams self) as Hviews.
  cbv zeta in Hviews.
  destruct Hviews as (Hlast & Hrecent & Hhistory & Hinventory & Htrades & Hsnapshot).
  rewrite (shouldTrade_outcome market ts upPx downPx marketParams
             (snd (PolicyIntegrator.shouldTrade market ts upPx downPx marketParams self))).
  rewrite (shouldTrade_outcome market ts upPx downPx marketParams self).
  rewrite shouldTrade_advances_counter, Hlast, Hrecent, Hinventory, Htrades, Hsnapshot.
  apply tick_outcome_renumbered.
  - unfold history_seen. rewrite Hhistory. cbn [from_option id].
    unfold history_seen.
    rewrite (push_bounded_below maxHistoryLength
               (default [] (priceHistory self !! market))) by lia.
    rewrite push_bounded_below by (rewrite length_app; cbn; lia).
    rewrite <- app_assoc. apply computeFeatures_doubled.
  - unfold quality_rejects.
    destruct (quality_gate _ marketParams (lastPriceState self !! market)) eqn:Hgate;
      [exact Hgate |].
    unfold quality_gate in *.
    destruct (quality_filter_params marketParams) as [qf |] eqn:Hqf; [| reflexivity].
    destruct (Hthresholds qf eq_refl) as [Hjump Hgap].
    pose proof (checkDataQuality_against_itself
                  {| timestamp := ts; up_px := upPx; down_px := downPx; market := market |}
                  (lastPriceState self !! market) qf Hjump Hgap) as Hitself.
    cbn [timestamp up_px down_px] in Hitself. rewrite Hitself; [reflexivity |].
    destruct (PolicyEngine.checkDataQuality _ _ _); [reflexivity | discriminate].
Qed.

(** C6, amended: when [shouldTrade] is run twice in a row with the same
    arguments, nothing else touching the integrator in between, the second
    decision's [decisionId] is the first's plus one, since every call
    advances the decision counter; so the two decisions are never equal in
    every field.  The other fields, [shouldTrade], [side], [shares],
    [reason] and [fillPrice], are equal across the two runs provided the
    timestamp-jump and price-gap thresholds of the quality filter are not
    negative and the market's price history has room for two more
    entries. *)
Theorem repeated_run_decisionId (market : string) (timestamp upPx downPx : Q)
    (marketParams : MarketParams) (self : Integrator) (d1 d2 : TradeDecision) :
  let first :=
    PolicyIntegrator.shouldTrade market timestamp upPx downPx marketParams self in
  let second :=
    PolicyIntegrator.shouldTrade market timestamp upPx downPx marketParams (snd first) in
  fst first = Ok d1 ->
  fst second = Ok d2 ->
  decisionId d1 = (decisionIdCounter self + 1)%Z
  /\ decisionId d2 = (decisionId d1 + 1)%Z
  /\ d1 <> d2
  /\ ((forall qf, quality_filter_params marketParams = Some qf ->
                  0 <= timestamp_jump_threshold_seconds qf
                  /\ 0 <= price_gap_threshold qf) ->
      (length (default [] (priceHistory self !! market)) + 2 <= maxHistoryLength)%nat ->
      d_shouldTrade d2 = d_shouldTrade d1
      /\ d_side d2 = d_side d1
      /\ d_shares d2 = d_shares d1
      /\ d_reason d2 = d_reason d1
      /\ fillPrice d2 = fillPrice d1).
Proof.
  cbv zeta. intros H1 H2.
  pose proof (shouldTrade_decisionId _ _ _ _ _ _ _ H1) as Hid1.
  pose proof (shouldTrade_decisionId _ _ _ _ _ _ _ H2) as Hid2.
  rewrite shouldTrade_advances_counter in Hid2.
  split; [exact Hid1 | split; [lia | split; [intros ->; lia |]]].
  intros Hthresholds Hroom.
  pose proof (repeated_run_renumbered market timestamp upPx downPx marketParams self
                Hthresholds Hroom) as Hsame.
  cbv zeta in Hsame. rewrite H1, H2 in Hsame. cbn in Hsame.
  injection Hsame as ->. repeat split; reflexivity.
Qed.

Lemma repeated_run_decisionId_witness :
  let d1 := {| d_shouldTrade := true; d_side := Some UP; d_shares := 1;
               d_reason := "up_price_band"; decisionId := 1;
               fillPrice := Some (1 # 2) |} in
  let d2 := {| d_shouldTrade := true; d_side := Some UP; d_shares := 1;
               d_reason := "up_price_band"; decisionId := 2;
               fillPrice := Some (1 # 2) |} in
  fst (PolicyIntegrator.shouldTrade "BTC_15m" 1000 (1 # 2) (1 # 2) quality_params
         new_integrator) = Ok d1
  /\ decisionId d2 = (decisionId d1 + 1)%Z
  /\ d1 <> d2
  /\ d_side d2 = d_side d1
  /\ d_shares d2 = d_shares d1
  /\ d_reason d2 = d_reason d1.
Proof.
  cbv zeta.
  destruct (repeated_run_decisionId "BTC_15m" 1000 (1 # 2) (1 # 2) quality_params
              new_integrator
              {| d_shouldTrade := true; d_side := Some UP; d_shares := 1;
                 d_reason := "up_price_band"; decisionId := 1;
                 fillPrice := Some (1 # 2) |}
              {| d_shouldTrade := true; d_side := Some UP; d_shares := 1;
                 d_reason := "up_price_band"; decisionId := 2;
                 fillPrice := Some (1 # 2) |}
              ltac:(vm_compute; reflexivity) ltac:(vm_compute; reflexivity))
    as (_ & Hnext & Hdiffer & Hsame).
  destruct Hsame as (_ & Hside & Hshares & Hreason & _).
  - intros qf [= <-]. split; discriminate.
  - vm_compute. lia.
  - split; [vm_compute; reflexivity |]. repeat split; assumption.
Defined.

(** Both side conditions are needed.  With a negative timestamp-jump
    threshold the first run trades and the second is rejected by the
    quality filter, against the snapshot the first run stored.  With the
    history one entry short of its capacity the second run evicts the
    oldest entry, the five-second delta changes, and momentum is no longer
    met. *)
Example repeated_run_side_conditions :
  (let first :=
     PolicyIntegrator.shouldTrade "BTC_15m" 1000 (1 # 2) (1 # 2) strict_params
       new_integrator in
   let second :=
     PolicyIntegrator.shouldTrade "BTC_15m" 1000 (1 # 2) (1 # 2) strict_params
       (snd first) in
   Js.bind (fst first) (fun d => Ok (d_reason d)) = Ok "up_price_band"
   /\ Js.bind (fst second) (fun d => Ok (d_reason d)) = Ok "data_quality_filter_failed")
  /\ (let first :=
        PolicyIntegrator.shouldTrade "BTC_15m" 100000 (1 # 2) (1 # 2) momentum_params
          nearly_full in
      let second :=
        PolicyIntegrator.shouldTrade "BTC_15m" 100000 (1 # 2) (1 # 2) momentum_params
          (snd first) in
      Js.bind (fst first) (fun d => Ok (d_reason d)) = Ok "momentum_met"
      /\ Js.bind (fst second) (fun d => Ok (d_reason d)) = Ok "no_band_match").
Proof. repeat split; vm_compute; reflexivity. Qed.

(** ** The integrator: the last-price snapshot *)

(** A rejected tick returns before the snapshot is written: the snapshot
    stays what it was. *)
Lemma rejected_tick_keeps_snapshot (market : string) (timestamp upPx downPx : Q)
    (marketParams : MarketParams) (self : Integrator) :
  quality_rejects market timestamp upPx downPx marketParams self = true ->
  let after := PolicyIntegrator.shouldTrade market timestamp upPx downPx marketParams self in
  fst after = Ok (no_trade "data_quality_filter_failed" (decisionIdCounter self + 1))
  /\ lastPriceState (snd after) = lastPriceState self.
Proof.
  unfold quality_rejects, quality_gate, PolicyIntegrator.shouldTrade. intros Hreject. cbv zeta.
  destruct (bool_decide (is_Some (reset_params marketParams)) && _);
    cbn [lastPriceState updatePriceHistory with_priceHistory with_tradesPerSession
         with_inventory with_decisionIdCounter decisionIdCounter];
    rewrite Hreject; split; reflexivity.
Qed.

(** A tick the filter lets through does write the snapshot. *)
Lemma accepted_tick_writes_snapshot (market : string) (timestamp upPx downPx : Q)
    (marketParams : MarketParams) (self : Integrator) :
  quality_rejects market timestamp upPx downPx marketParams self = false ->
  lastPriceState
    (snd (PolicyIntegrator.shouldTrade market timestamp upPx downPx marketParams self))
  = <[market := tick_snapshot timestamp upPx downPx]> (lastPriceState self).
Proof.
  unfold quality_rejects, quality_gate, PolicyIntegrator.shouldTrade. intros Haccept.
  destruct (bool_decide (is_Some (reset_params marketParams)) && _);
    cbn [lastPriceState updatePriceHistory with_priceHistory with_tradesPerSession
         with_inventory with_decisionIdCounter decisionIdCounter];
    rewrite Haccept;
    match goal with
    | |- context [getInventory ?m ?s] =>
        pose proof (getInventory_frame m s) as Hframe;
        destruct (getInventory m s) as [? ?]; destruct Hframe as (_ & Hframe & _)
    end;
    repeat case_match; cbn [snd]; rewrite Hframe; reflexivity.
Qed.

(** Once the snapshot is older than the timestamp-jump threshold allows,
    the filter rejects the tick whatever its prices, and the snapshot does
    not move. *)
Lemma stale_snapshot_rejects (market : string) (now upPx downPx : Q)
    (marketParams : MarketParams) (qf : QualityFilterParams) (self : Integrator)
    (held : PriceHistory) :
  quality_filter_params marketParams = Some qf ->
  lastPriceState self !! market = Some held ->
  timestamp_jump_threshold_seconds qf < (now - h_timestamp held) / 1000 ->
  quality_rejects market now upPx downPx marketParams self = true.
Proof.
  intros Hqf Hheld Hjump. unfold quality_rejects, quality_gate, PolicyEngine.checkDataQuality.
  rewrite Hqf, Hheld. cbn [timestamp]. apply gtb_gt in Hjump. rewrite Hjump.
  destruct (_ >? max_price_sum_deviation qf); reflexivity.
Qed.

(** After one gap longer than the threshold every later tick is rejected:
    the market never trades again. *)
Lemma stale_snapshot_locks_market (market : string) (marketParams : MarketParams)
    (qf : QualityFilterParams) (held : PriceHistory) (since : Q)
    (ticks : list (Q * Q * Q)) :
  quality_filter_params marketParams = Some qf ->
  timestamp_jump_threshold_seconds qf < (since - h_timestamp held) / 1000 ->
  Forall (fun tick => since <= tick.1.1) ticks ->
  forall self : Integrator,
    lastPriceState self !! market = Some held ->
    let '(reasons, after) := run_ticks market marketParams ticks self in
    Forall (fun r => r = Ok "data_quality_filter_failed") reasons
    /\ lastPriceState after !! market = Some held.
Proof.
  intros Hqf Hjump Hlater.
  induction Hlater as [| [[timestamp upPx] downPx] rest Hsince _ IH]; intros self Hheld.
  - cbn. split; [constructor | exact Hheld].
  - cbn [run_ticks]. cbn [fst] in Hsince.
    assert (Hreject :
      quality_rejects market timestamp upPx downPx marketParams self = true).
    { apply (stale_snapshot_rejects _ _ _ _ _ qf _ held); try assumption.
      eapply Qlt_le_trans; [exact Hjump |].
      apply Qmult_le_compat_r; [| discriminate].
      unfold Qminus. apply Qplus_le_compat; [exact Hsince | apply Qle_refl]. }
    apply rejected_tick_keeps_snapshot in Hreject. cbv zeta in Hreject.
    destruct (PolicyIntegrator.shouldTrade _ _ _ _ _ _) as [r self'].
    cbn [fst snd] in Hreject. destruct Hreject as [-> Hsame].
    specialize (IH self'). rewrite Hsame in IH. specialize (IH Hheld).
    destruct (run_ticks market marketParams rest self') as [reasons after].
    destruct IH as [IH1 IH2]. split; [constructor; [reflexivity | exact IH1] | exact IH2].
Qed.

(** C4: the code against the claim.  A first tick (0.5, 0.5) at 1000 ms
    is accepted and becomes the snapshot.  A second tick (0.9, 0.9) at
    2000 ms is rejected with [data_quality_filter_failed], and the snapshot
    is still the first tick, not (0.9, 0.9, 2000).  Nor does it ever move
    again once a tick arrives more than a minute late: the ticks at
    120000 ms and 121000 ms, one second apart and with sound prices, are
    both rejected against the snapshot of 1000 ms. *)
Theorem rejected_tick_snapshot_not_updated :
  let first :=
    PolicyIntegrator.shouldTrade "BTC_15m" 1000 (1 # 2) (1 # 2) quality_params
      new_integrator in
  let second :=
    PolicyIntegrator.shouldTrade "BTC_15m" 2000 (9 # 10) (9 # 10) quality_params
      (snd first) in
  lastPriceState (snd first) !! "BTC_15m" = Some (tick_snapshot 1000 (1 # 2) (1 # 2))
  /\ fst second = Ok (no_trade "data_quality_filter_failed" 2)
  /\ lastPriceState (snd second) !! "BTC_15m" = Some (tick_snapshot 1000 (1 # 2) (1 # 2))
  /\ fst (run_ticks "BTC_15m" quality_params
            [(120000, 1 # 2, 1 # 2); (121000, 1 # 2, 1 # 2)] (snd first))
     = [Ok "data_quality_filter_failed"; Ok "data_quality_filter_failed"].
Proof. repeat split; vm_compute; reflexivity. Qed.

(** ** The integrator: sizing without the inventory *)

Lemma sizeForTrade_without_inventory (state : TapeState) (features : Features)
    (sizeParams : SizeParams) (s : Side) :
  conditioning_var sizeParams = Some "inventory_imbalance_ratio" ->
  (2 <= length (default [] (bin_edges sizeParams)))%nat ->
  PolicyEngine.sizeForTrade state features (Some sizeParams) s None = Throw sizing_error.
Proof.
  intros Hvar Hedges. unfold PolicyEngine.sizeForTrade. rewrite Hvar.
  destruct (length (default [] (bin_edges sizeParams)) <? 2)%nat eqn:Hshort.
  - apply Nat.ltb_lt in Hshort. lia.
  - reflexivity.
Qed.

Lemma entrySignal_reasons (state : TapeState) (features : Features)
    (entryParams : option EntryParams) :
  let signal := PolicyEngine.entrySignal state features entryParams in
  (should_trade signal = true /\ is_Some (side signal))
  \/ (should_trade signal = false /\ side signal = None
      /\ (reason signal = "no_entry_params" \/ reason signal = "no_band_match")).
Proof.
  unfold PolicyEngine.entrySignal, PolicyEngine.mode_check, IGNORE_ENTRY_BANDS.
  destruct entryParams as [ep |]; [| right; cbn; auto].
  destruct (mode ep); repeat case_match; cbn; simplify_eq; eauto 6.
Qed.

Lemma decide_entry_without_inventory (state : TapeState) (features : Features)
    (inventory : InventoryState) (tradesThisSession : Q) (marketParams : MarketParams)
    (sizeParams : SizeParams) (id : Z) :
  size_params marketParams = Some sizeParams ->
  conditioning_var sizeParams = Some "inventory_imbalance_ratio" ->
  (2 <= length (default [] (bin_edges sizeParams)))%nat ->
  let r :=
    PolicyIntegrator.decide_entry state features inventory tradesThisSession
      marketParams id in
  r = Throw sizing_error
  \/ exists why, r = Ok (no_trade why id) /\ In why early_reasons.
Proof.
  intros Hsize Hvar Hedges. cbv zeta. unfold PolicyIntegrator.decide_entry.
  rewrite Hsize.
  pose proof (entrySignal_reasons state features (entry_params marketParams)) as Hsignal.
  cbv zeta in Hsignal.
  destruct (PolicyEngine.entrySignal state features (entry_params marketParams))
    as [fires emitted why].
  cbn [should_trade side reason] in *.
  destruct Hsignal as [[-> Hside] | (-> & -> & Hwhy)].
  - match goal with
    | |- context [match ?sel with Some _ => _ | None => _ end] =>
        destruct sel as [selected |] eqn:Hsel
    end.
    + destruct (bool_decide _ && negb _).
      * right. eexists. split; [reflexivity |]. cbn. auto 10.
      * left. rewrite (sizeForTrade_without_inventory _ _ _ _ Hvar Hedges). reflexivity.
    + exfalso. destruct Hside as [emitted' ->].
      repeat case_match; try discriminate.
      unfold PolicyEngine.selectSideWhenBothValid in Hsel.
      repeat case_match; discriminate.
  - right. exists why. split.
    + repeat case_match; destruct Hwhy as [-> | ->]; reflexivity.
    + destruct Hwhy as [-> | ->]; cbn; auto 10.
Qed.

(** C3, as stated, fails: the market below has
    [conditioning_var = 'inventory_imbalance_ratio'] and three inventory
    thresholds, but a single bin edge; the sizing step returns the default
    size before it would read the inventory, and the tick completes with a
    trade. *)
Lemma single_bin_edge_tick_completes :
  fst (PolicyIntegrator.shouldTrade "BTC_15m" 1000 (1 # 2) (1 # 2)
    {| entry_params := Some sample_entry_params;
       size_params :=
         Some {| bin_edges := Some [1 # 2];
                 size_table := Some scenario_table;
                 size_table_1d := None;
                 conditioning_var := Some "inventory_imbalance_ratio";
                 inventory_bucket_thresholds := Some [0; 1; 2];
                 inventory_buckets := Some ["bucket_0"; "bucket_1"] |};
       inventory_params := None; cadence_params := None; side_selection_params := None;
       execution_params := None; cooldown_params := None; risk_params := None;
       quality_filter_params := None; reset_params := None |}
    new_integrator)
  = Ok {| d_shouldTrade := true; d_side := Some UP; d_shares := 1;
          d_reason := "up_price_band"; decisionId := 1; fillPrice := Some (1 # 2) |}.
Proof. vm_compute. reflexivity. Qed.

(** C3, amended: the later revision of [shouldTrade] calls the later
    engine's [sizeForTrade] without the inventory argument.  For every
    market whose [size_params] has
    [conditioning_var = 'inventory_imbalance_ratio'], at least two
    [inventory_bucket_thresholds] and at least two [bin_edges], that sizing
    step raises a [TypeError] on [inventory.inv_up_shares] whatever the
    state, the features and the side; a decision tick of the later
    revision therefore either stops at a gate that stands before the
    sizing step, with that gate's no-trade reason, or ends in that error:
    it never reaches the inventory gate and never returns a trade.  The
    earlier revision calls the earlier engine, whose [sizeForTrade] has
    four parameters and reads neither an inventory nor the conditioning
    variable: its tick is what it is for the same parameters without the
    conditioning. *)
Theorem sizing_without_inventory_raises (market : string) (timestamp upPx downPx : Q)
    (marketParams : MarketParams) (sizeParams : SizeParams) (self : Integrator) :
  size_params marketParams = Some sizeParams ->
  conditioning_var sizeParams = Some "inventory_imbalance_ratio" ->
  (2 <= length (default [] (inventory_bucket_thresholds sizeParams)))%nat ->
  (2 <= length (default [] (bin_edges sizeParams)))%nat ->
  (forall state features s,
      PolicyEngine.sizeForTrade state features (size_params marketParams) s None
      = Throw sizing_error)
  /\ (let r :=
        fst (PolicyIntegrator.shouldTrade market timestamp upPx downPx marketParams self) in
      r = Throw sizing_error
      \/ exists why,
           r = Ok (no_trade why (decisionIdCounter self + 1)) /\ In why early_reasons)
  /\ PolicyIntegratorEarly.shouldTrade market timestamp upPx downPx marketParams self
     = PolicyIntegratorEarly.shouldTrade market timestamp upPx downPx
         (unconditioned marketParams) self.
Proof.
  intros Hsize Hvar _ Hedges. split; [| split].
  - intros state features s. rewrite Hsize.
    apply sizeForTrade_without_inventory; assumption.
  - cbv zeta. unfold PolicyIntegrator.shouldTrade.
    repeat match goal with
      | |- context [getInventory ?m ?s] => destruct (getInventory m s) as [? ?]
      | |- context [if ?b then _ else _] => destruct b
      end; cbn [fst];
      try (right; eexists; split; [reflexivity | cbn; auto 10]);
      apply (decide_entry_without_inventory _ _ _ _ _ sizeParams); assumption.
  - unfold PolicyIntegratorEarly.shouldTrade, unconditioned, PolicyEngineEarly.sizeForTrade.
    cbn [cadence_params entry_params size_params inventory_params].
    rewrite Hsize. reflexivity.
Qed.

Lemma sizing_without_inventory_raises_witness :
  (forall state features s,
      PolicyEngine.sizeForTrade state features (size_params conditioned_params) s None
      = Throw sizing_error)
  /\ (let r :=
        fst (PolicyIntegrator.shouldTrade "BTC_15m" 1000 (1 # 2) (1 # 2)
               conditioned_params new_integrator) in
      r = Throw sizing_error
      \/ exists why,
           r = Ok (no_trade why (decisionIdCounter new_integrator + 1))
           /\ In why early_reasons)
  /\ PolicyIntegratorEarly.shouldTrade "BTC_15m" 1000 (1 # 2) (1 # 2) conditioned_params
       new_integrator
     = PolicyIntegratorEarly.shouldTrade "BTC_15m" 1000 (1 # 2) (1 # 2)
         (unconditioned conditioned_params) new_integrator.
Proof.
  apply (sizing_without_inventory_raises "BTC_15m" 1000 (1 # 2) (1 # 2)
           conditioned_params (scenario_size_params scenario_table) new_integrator).
  - reflexivity.
  - reflexivity.
  - cbn. lia.
  - cbn. lia.
Defined.

(** On that market the tick of the later revision does reach the sizing
    step and ends in the error; the tick of the earlier revision returns a
    trade, of the median size 15 (its key [(0.4, 0.6]] is not in the
    table). *)
Example sizing_error_reached :
  fst (PolicyIntegrator.shouldTrade "BTC_15m" 1000 (1 # 2) (1 # 2) conditioned_params
         new_integrator)
  = Throw sizing_error
  /\ fst (PolicyIntegratorEarly.shouldTrade "BTC_15m" 1000 (1 # 2) (1 # 2)
            conditioned_params new_integrator)
     = {| d_shouldTrade := true; d_side := Some UP; d_shares := 15;
          d_reason := "up_price_band"; decisionId := 1; fillPrice := None |}.
Proof. split; vm_compute; reflexivity. Qed.

(** ** Sizing: the price bucket *)

Lemma strictly_increasing_lookup (l : list Q) :
  strictly_increasing l = true ->
  forall i j x y, (i < j)%nat -> l !! i = Some x -> l !! j = Some y -> x < y.
Proof.
  induction l as [| a l IH]; [intros _ i j x y _ H; discriminate |].
  intros Hinc.
  assert (Htail : strictly_increasing l = true).
  { destruct l as [| b l]; [reflexivity |]. cbn in Hinc.
    apply andb_true_iff in Hinc as [_ H]. exact H. }
  assert (Hhead : forall j y, l !! j = Some y -> a < y).
  { intros j. induction j as [| j IHj]; intros y Hy.
    - destruct l as [| b l]; [discriminate |]. cbn in Hinc, Hy. injection Hy as <-.
      apply andb_true_iff in Hinc as [H _]. apply ltb_lt in H. exact H.
    - destruct (l !! j) as [z |] eqn:Hz.
      + eapply Qlt_trans; [apply (IHj z eq_refl) |].
        apply (IH Htail j (S j) z y); [lia | exact Hz | exact Hy].
      + apply lookup_ge_None in Hz. apply lookup_lt_Some in Hy. lia. }
  intros i j x y Hij Hx Hy.
  destruct j as [| j]; [lia |]. cbn in Hy.
  destruct i as [| i].
  - cbn in Hx. injection Hx as <-. apply (Hhead j y Hy).
  - cbn in Hx. apply (IH Htail i j x y); [lia | exact Hx | exact Hy].
Qed.

Lemma find_price_bucket_step (lower rightEdge : Q) (rest : list Q) (px : Q) (i : nat) :
  PolicyEngine.find_price_bucket i (lower :: rightEdge :: rest) px
  = if (px >? match i with O => - (1 # 1000) | _ => lower end) && (px <=? rightEdge)
    then Some i
    else PolicyEngine.find_price_bucket (S i) (rightEdge :: rest) px.
Proof. reflexivity. Qed.

(** What the loop finds: the first bucket from [i] on that holds the
    price, if there is one. *)
Lemma find_price_bucket_first (edges : list Q) (px : Q) (i : nat) :
  match PolicyEngine.find_price_bucket i edges px with
  | Some k =>
      exists n lo hi,
        k = (i + n)%nat /\ edges !! n = Some lo /\ edges !! S n = Some hi
        /\ bucket_holds k lo hi px
        /\ forall m lo' hi', (m < n)%nat -> edges !! m = Some lo' ->
                             edges !! S m = Some hi' ->
                             ~ bucket_holds (i + m) lo' hi' px
  | None =>
      forall m lo' hi', edges !! m = Some lo' -> edges !! S m = Some hi' ->
                        ~ bucket_holds (i + m) lo' hi' px
  end.
Proof.
  revert i. induction edges as [| lower rest IH]; intros i; [cbn; intros; discriminate |].
  destruct rest as [| rightEdge rest'].
  { cbn. intros m lo' hi' _ H. destruct m; discriminate. }
  rewrite find_price_bucket_step.
  destruct ((px >? match i with O => - (1 # 1000) | _ => lower end) && (px <=? rightEdge))
    eqn:Hhere.
  - exists O, lower, rightEdge. rewrite Nat.add_0_r.
    repeat split; try reflexivity.
    + apply andb_true_iff in Hhere as [H _]. apply gtb_gt in H. exact H.
    + apply andb_true_iff in Hhere as [_ H]. apply leb_le in H. exact H.
    + intros m lo' hi' Hm. lia.
  - assert (Hnot : ~ bucket_holds (i + 0) lower rightEdge px).
    { rewrite Nat.add_0_r. intros [H1 H2]. apply gtb_gt in H1. apply leb_le in H2.
      rewrite H1, H2 in Hhere. discriminate. }
    specialize (IH (S i)). revert IH.
    destruct (PolicyEngine.find_price_bucket (S i) (rightEdge :: rest') px) as [k |];
      intros IH.
    + destruct IH as (n & lo & hi & -> & Hlo & Hhi & Hholds & Hfirst).
      exists (S n), lo, hi. repeat split.
      * lia.
      * exact Hlo.
      * exact Hhi.
      * replace (i + S n)%nat with (S i + n)%nat by lia. apply Hholds.
      * replace (i + S n)%nat with (S i + n)%nat by lia. apply Hholds.
      * intros m lo' hi' Hm Hlo' Hhi'. destruct m as [| m].
        -- cbn in Hlo', Hhi'. injection Hlo' as <-. injection Hhi' as <-. exact Hnot.
        -- replace (i + S m)%nat with (S i + m)%nat by lia.
           apply (Hfirst m lo' hi'); [lia | exact Hlo' | exact Hhi'].
    + intros m lo' hi' Hlo' Hhi'. destruct m as [| m].
      * cbn in Hlo', Hhi'. injection Hlo' as <-. injection Hhi' as <-. exact Hnot.
      * replace (i + S m)%nat with (S i + m)%nat by lia.
        apply (IH m lo' hi'); [exact Hlo' | exact Hhi'].
Qed.

Lemma priceBucketIndex_in_range (binEdges : list Q) (px : Q) :
  (2 <= length binEdges)%nat ->
  (priceBucketIndex binEdges px + 1 < length binEdges)%nat.
Proof.
  intros Hlen. unfold priceBucketIndex.
  pose proof (find_price_bucket_first binEdges px 0) as Hfirst.
  destruct (PolicyEngine.find_price_bucket 0 binEdges px) as [k |].
  - destruct Hfirst as (n & lo & hi & -> & _ & Hhi & _).
    apply lookup_lt_Some in Hhi. cbn. lia.
  - destruct (px <=? nth 0 binEdges 0); lia.
Qed.

(** X1.  The price bucket [sizeForTrade] settles on.  For at least two
    strictly increasing bin edges the index is always that of a bucket;
    when a bucket [(lo, hi]] holds the price (the first one reaching down to
    [-0.001]) the index is that bucket's, so a price exactly on an edge
    belongs to the bucket below it; a price above the last edge gets the
    last bucket and a price at or below both [-0.001] and the first edge
    gets the first one.  Without a conditioning variable the size
    returned is the 1D table's entry under that bucket's label, whether or
    not an inventory is passed. *)
Theorem priceBucketIndex_sound (binEdges : list Q) (px : Q) :
  (2 <= length binEdges)%nat ->
  strictly_increasing binEdges = true ->
  let i := priceBucketIndex binEdges px in
  (i + 1 < length binEdges)%nat
  /\ (forall k lo hi,
        binEdges !! k = Some lo -> binEdges !! S k = Some hi ->
        bucket_holds k lo hi px -> i = k)
  /\ (forall top, last binEdges = Some top -> top < px -> i = (length binEdges - 2)%nat)
  /\ (forall bottom,
        binEdges !! 0%nat = Some bottom -> px <= - (1 # 1000) -> px <= bottom -> i = 0%nat)
  /\ (forall state features sizeParams s inventory size,
        bin_edges sizeParams = Some binEdges ->
        conditioning_var sizeParams = None ->
        side_price s state = px ->
        default ∅ (size_table_1d sizeParams) !! PolicyEngine.priceBucketKey binEdges i
        = Some size ->
        PolicyEngine.sizeForTrade state features (Some sizeParams) s inventory = Ok size).
Proof.
  intros Hlen Hinc. cbv zeta.
  pose proof (strictly_increasing_lookup binEdges Hinc) as Hlt.
  assert (Hle : forall a b x y, (a <= b)%nat -> binEdges !! a = Some x ->
                                binEdges !! b = Some y -> x <= y).
  { intros a b x y Hab Hx Hy. destruct (decide (a = b)) as [-> | Hne].
    - rewrite Hx in Hy. injection Hy as <-. apply Qle_refl.
    - apply Qlt_le_weak, (Hlt a b); [lia | exact Hx | exact Hy]. }
  split; [apply priceBucketIndex_in_range, Hlen |].
  unfold priceBucketIndex.
  pose proof (find_price_bucket_first binEdges px 0) as Hfirst.
  destruct (PolicyEngine.find_price_bucket 0 binEdges px) as [found |].
  - destruct Hfirst as (n & lo & hi & -> & Hlo & Hhi & [Hleft Hright] & Hmin).
    cbn [Nat.add] in *. repeat split.
    + intros k lo' hi' Hlo' Hhi' [Hleft' Hright'].
      destruct (lt_eq_lt_dec n k) as [[Hnk | ->] | Hkn]; [| reflexivity |].
      * exfalso. destruct k as [| k]; [lia |].
        pose proof (Hle (S n) (S k) hi lo' ltac:(lia) Hhi Hlo'). lra.
      * exfalso. apply (Hmin k lo' hi' Hkn Hlo' Hhi'). split; assumption.
    + intros top Htop Hover. exfalso. rewrite last_lookup in Htop.
      pose proof (lookup_lt_Some _ _ _ Hhi).
      pose proof (Hle (S n) (Nat.pred (length binEdges)) hi top ltac:(lia) Hhi Htop). lra.
    + intros bottom Hbottom Hlow Hbelow. destruct n as [| n]; [reflexivity |].
      exfalso. pose proof (Hlt 0%nat (S n) bottom lo ltac:(lia) Hbottom Hlo). lra.
    + intros state features sizeParams s inventory size Hedges Hvar Hpx Hsize.
      unfold PolicyEngine.sizeForTrade. rewrite Hedges, Hvar. cbn [from_option id].
      destruct (length binEdges <? 2)%nat eqn:Hshort;
        [apply Nat.ltb_lt in Hshort; lia |].
      unfold side_price in Hpx. rewrite <- Hpx in *.
      pose proof (find_price_bucket_first binEdges (match s with UP => up_px state
                                                   | DOWN => down_px state end) 0) as Hagain.
      destruct s;
        (destruct (PolicyEngine.find_price_bucket 0 binEdges _) as [again |] eqn:Heq;
         [| exfalso; apply (Hagain n lo hi Hlo Hhi); split; assumption]).
      all: destruct Hagain as (n' & lo' & hi' & -> & Hlo' & Hhi' & [Hl Hr] & Hmin').
      all: cbn [Nat.add] in *.
      all: assert (n' = n) as ->
          by (destruct (lt_eq_lt_dec n' n) as [[H | H] | H]; [| exact H |];
              exfalso; [apply (Hmin n' lo' hi' H Hlo' Hhi') | apply (Hmin' n lo hi H Hlo Hhi)];
              split; assumption).
      all: rewrite Hsize; reflexivity.
  - repeat split.
    + intros k lo hi Hlo Hhi Hholds. exfalso. apply (Hfirst k lo hi Hlo Hhi Hholds).
    + intros top Htop Hover. rewrite last_lookup in Htop.
      destruct (px <=? nth 0 binEdges 0) eqn:Hclamp; [| reflexivity].
      exfalso. apply leb_le in Hclamp.
      destruct (binEdges !! 0%nat) as [bottom |] eqn:Hbottom;
        [| apply lookup_ge_None in Hbottom; lia].
      rewrite (nth_lookup_Some _ _ _ _ Hbottom) in Hclamp.
      pose proof (Hle 0%nat (Nat.pred (length binEdges)) bottom top ltac:(lia) Hbottom Htop).
      lra.
    + intros bottom Hbottom Hlow Hbelow.
      rewrite (nth_lookup_Some _ _ _ _ Hbottom).
      apply leb_le in Hbelow. rewrite Hbelow. reflexivity.
    + intros state features sizeParams s inventory size Hedges Hvar Hpx Hsize.
      unfold PolicyEngine.sizeForTrade. rewrite Hedges, Hvar. cbn [from_option id].
      destruct (length binEdges <? 2)%nat eqn:Hshort;
        [apply Nat.ltb_lt in Hshort; lia |].
      unfold side_price in Hpx.
      destruct s; rewrite Hpx;
        (destruct (PolicyEngine.find_price_bucket 0 binEdges px) as [again |] eqn:Heq;
         [pose proof (find_price_bucket_first binEdges px 0) as Hagain;
          rewrite Heq in Hagain;
          destruct Hagain as (n' & lo' & hi' & -> & Hlo' & Hhi' & Hholds & _);
          exfalso; apply (Hfirst n' lo' hi' Hlo' Hhi'); exact Hholds |]);
        rewrite Hsize; reflexivity.
Qed.

Lemma priceBucketIndex_sound_witness :
  (priceBucketIndex scenario_bins (2 # 10) + 1 < length scenario_bins)%nat
  /\ priceBucketIndex scenario_bins (2 # 10) = 0%nat
  /\ priceBucketIndex scenario_bins 2 = 4%nat.
Proof.
  destruct (priceBucketIndex_sound scenario_bins (2 # 10) ltac:(cbn; lia) eq_refl)
    as (Hrange & Hholds & _).
  destruct (priceBucketIndex_sound scenario_bins 2 ltac:(cbn; lia) eq_refl)
    as (_ & _ & Htop & _).
  split; [exact Hrange | split].
  - apply (Hholds 0%nat 0 (2 # 10)); [reflexivity | reflexivity |].
    split; [reflexivity | discriminate].
  - apply (Htop 1); reflexivity.
Defined.

(** ** Sizing: what can be returned *)

Lemma insert_sorted_In {A} (key : A -> Q) (x y : A) (l : list A) :
  In y (insert_sorted key x l) <-> y = x \/ In y l.
Proof.
  induction l as [| z l IH]; cbn [insert_sorted].
  - cbn. intuition.
  - destruct (key x <=? key z); cbn [In]; [intuition |]. rewrite IH. intuition.
Qed.

Lemma sort_by_In {A} (key : A -> Q) (y : A) (l : list A) :
  In y (sort_by key l) <-> In y l.
Proof.
  unfold sort_by. induction l as [| x l IH]; cbn [fold_right]; [reflexivity |].
  rewrite insert_sorted_In, IH. cbn. intuition.
Qed.

Lemma sort_by_length {A} (key : A -> Q) (l : list A) :
  length (sort_by key l) = length l.
Proof.
  unfold sort_by. induction l as [| x l IH]; cbn [fold_right]; [reflexivity |].
  cbn [length]. rewrite <- IH. generalize (fold_right (insert_sorted key) [] l).
  intros s. induction s as [| z s IHs]; cbn [insert_sorted]; [reflexivity |].
  destruct (key x <=? key z); cbn [length]; [reflexivity | now rewrite IHs].
Qed.

Lemma median_size_stored (sizeTable : gmap string Q) :
  PolicyEngine.median_size sizeTable = 1
  \/ exists key, sizeTable !! key = Some (PolicyEngine.median_size sizeTable).
Proof.
  unfold PolicyEngine.median_size.
  destruct ((map_to_list sizeTable).*2) as [| v vs] eqn:Hvalues; [left; reflexivity |].
  right. rewrite <- Hvalues.
  set (sorted := sort_by (fun x => x) (map_to_list sizeTable).*2).
  assert (Hin : In (nth (length sorted / 2) sorted 1) (map_to_list sizeTable).*2).
  { apply (sort_by_In (fun x => x)). apply nth_In.
    assert (Hpos : (0 < length sorted)%nat).
    { unfold sorted. rewrite sort_by_length, Hvalues. cbn [length]. lia. }
    apply Nat.div_lt; [exact Hpos | lia]. }
  apply list_elem_of_In, list_elem_of_fmap in Hin as ([key v'] & Heq & Hin).
  cbn [snd] in Heq. exists key. apply elem_of_map_to_list in Hin. rewrite Heq. exact Hin.
Qed.

Lemma first_other_bucket_stored (sizeTable : gmap string Q) (priceKey : string)
    (inventoryBuckets : list string) (size : Q) :
  PolicyEngine.first_other_bucket sizeTable priceKey inventoryBuckets = Some size ->
  exists key, sizeTable !! key = Some size.
Proof.
  induction inventoryBuckets as [| b rest IH]; [discriminate |].
  cbn [PolicyEngine.first_other_bucket].
  destruct (sizeTable !! _) as [v |] eqn:Hv; [| exact IH].
  intros [= <-]. eexists. exact Hv.
Qed.

(** X2.  With an inventory at hand [sizeForTrade] never raises, and what
    it returns is the default size 1 or a size stored in [size_table] or
    [size_table_1d]: it never computes a size of its own. *)
Theorem sizeForTrade_returns_stored (state : TapeState) (features : Features)
    (sizeParams : SizeParams) (s : Side) (inventory : InventoryState) :
  exists size,
    PolicyEngine.sizeForTrade state features (Some sizeParams) s (Some inventory) = Ok size
    /\ (size = 1 \/ stored_size sizeParams size).
Proof.
  unfold PolicyEngine.sizeForTrade, stored_size, number_or.
  pose proof (median_size_stored (default ∅ (size_table sizeParams))) as Hmedian.
  repeat case_match; simplify_eq; eexists; (split; [reflexivity |]); eauto;
    try (destruct Hmedian as [-> | [key Hkey]]; eauto; fail);
    match goal with
    | H : PolicyEngine.first_other_bucket _ _ _ = Some _ |- _ =>
        apply first_other_bucket_stored in H as [key Hkey]; eauto
    end.
Qed.

(** ** Sizing: the inventory bucket *)

Lemma find_inventory_bucket_first (rest : list Q) (ratio : Q) (i : nat) :
  match PolicyEngine.find_inventory_bucket i rest ratio with
  | Some k =>
      exists n t, k = (i + n)%nat /\ rest !! n = Some t /\ ratio <= t
                  /\ forall m t', (m < n)%nat -> rest !! m = Some t' -> t' < ratio
  | None => forall m t', rest !! m = Some t' -> t' < ratio
  end.
Proof.
  revert i. induction rest as [| t rest IH]; intros i; [cbn; intros; discriminate |].
  cbn [PolicyEngine.find_inventory_bucket].
  destruct (ratio <=? t) eqn:Hhere.
  - apply leb_le in Hhere. exists O, t. rewrite Nat.add_0_r.
    repeat split; [exact Hhere | intros; lia].
  - apply leb_gt in Hhere. specialize (IH (S i)).
    destruct (PolicyEngine.find_inventory_bucket (S i) rest ratio) as [k |].
    + destruct IH as (n & t' & -> & Ht' & Hle & Hmin).
      exists (S n), t'. repeat split; [lia | exact Ht' | exact Hle |].
      intros m u Hm Hu. destruct m as [| m]; [cbn in Hu; injection Hu as <-; exact Hhere |].
      apply (Hmin m u); [lia | exact Hu].
    + intros m u Hu. destruct m as [| m]; [cbn in Hu; injection Hu as <-; exact Hhere |].
      apply (IH m u Hu).
Qed.

(** X3.  The inventory bucket [sizeForTrade] settles on.  For at least
    two thresholds the index is always that of a bucket.  For strictly
    increasing thresholds, a ratio at or below [thresholds[1]] gets bucket
    0 (whatever [thresholds[0]] is), a ratio in
    [(thresholds[k], thresholds[k + 1]]] gets bucket [k], and a ratio above
    the last threshold gets the last bucket. *)
Theorem invBucketIndex_sound (thresholds : list Q) (ratio : Q) :
  (2 <= length thresholds)%nat ->
  strictly_increasing thresholds = true ->
  let i := PolicyEngine.invBucketIndex thresholds ratio in
  (i + 1 < length thresholds)%nat
  /\ (forall t1, thresholds !! 1%nat = Some t1 -> ratio <= t1 -> i = 0%nat)
  /\ (forall k lo hi,
        thresholds !! k = Some lo -> thresholds !! S k = Some hi ->
        lo < ratio -> ratio <= hi -> i = k)
  /\ (forall top, last thresholds = Some top -> top < ratio ->
                  i = (length thresholds - 2)%nat).
Proof.
  intros Hlen Hinc. cbv zeta.
  pose proof (strictly_increasing_lookup thresholds Hinc) as Hlt.
  assert (Hle : forall a b x y, (a <= b)%nat -> thresholds !! a = Some x ->
                                thresholds !! b = Some y -> x <= y).
  { intros a b x y Hab Hx Hy. destruct (decide (a = b)) as [-> | Hne].
    - rewrite Hx in Hy. injection Hy as <-. apply Qle_refl.
    - apply Qlt_le_weak, (Hlt a b); [lia | exact Hx | exact Hy]. }
  destruct thresholds as [| t0 rest]; [cbn in Hlen; lia |].
  destruct (last (t0 :: rest)) as [top |] eqn:Htop;
    [| rewrite last_lookup in Htop; apply lookup_ge_None in Htop; cbn in Htop; lia].
  unfold PolicyEngine.invBucketIndex. rewrite Htop. cbn [tail].
  rewrite last_lookup in Htop. cbn [length Nat.pred] in Htop.
  pose proof (find_inventory_bucket_first rest ratio 0) as Hfirst.
  destruct (ratio >? top) eqn:Hover; js_order.
  - (* above the last threshold *)
    cbn [length] in *. repeat split; try lia.
    + intros t1 Ht1 Hr. exfalso.
      pose proof (Hle 1%nat (length rest) t1 top ltac:(lia) Ht1 Htop). lra.
    + intros k lo hi Hlo Hhi Hlow Hhigh. exfalso.
      pose proof (lookup_lt_Some _ _ _ Hhi) as Hk. cbn [length] in Hk.
      pose proof (Hle (S k) (length rest) hi top ltac:(lia) Hhi Htop). lra.
  - destruct (PolicyEngine.find_inventory_bucket 0 rest ratio) as [found |].
    + destruct Hfirst as (n & t & -> & Ht & Hr & Hmin).
      cbn [Nat.add from_option id length] in *.
      pose proof (lookup_lt_Some _ _ _ Ht) as Hn. repeat split; try lia.
      * intros t1 Ht1 Hr1. destruct n as [| n]; [reflexivity |]. exfalso.
        cbn in Ht1. pose proof (Hmin 0%nat t1 ltac:(lia) Ht1). lra.
      * intros k lo hi Hlo Hhi Hlow Hhigh.
        destruct (lt_eq_lt_dec n k) as [[Hnk | ->] | Hkn]; [| reflexivity |]; exfalso.
        -- pose proof (Hle (S n) k t lo ltac:(lia) Ht Hlo). lra.
        -- cbn in Hhi. pose proof (Hmin k hi Hkn Hhi). lra.
      * intros top' [= <-] Habove. lra.
    + exfalso. apply (Qlt_irrefl ratio).
      eapply Qle_lt_trans; [exact Hover |].
      destruct rest as [| t1 rest']; [cbn in Hlen; lia |].
      apply (Hfirst (length rest') top). cbn in Htop. exact Htop.
Qed.

Lemma invBucketIndex_sound_witness :
  PolicyEngine.invBucketIndex [0; 1; 2] (1 # 2) = 0%nat
  /\ PolicyEngine.invBucketIndex [0; 1; 2] 2 = 1%nat
  /\ PolicyEngine.invBucketIndex [0; 1; 2] 7 = 1%nat.
Proof.
  destruct (invBucketIndex_sound [0; 1; 2] (1 # 2) ltac:(cbn; lia) eq_refl)
    as (_ & Hfirst & _).
  destruct (invBucketIndex_sound [0; 1; 2] 2 ltac:(cbn; lia) eq_refl)
    as (_ & _ & Hholds & _).
  destruct (invBucketIndex_sound [0; 1; 2] 7 ltac:(cbn; lia) eq_refl)
    as (_ & _ & _ & Htop).
  split; [apply (Hfirst 1); [reflexivity | discriminate] | split].
  - apply (Hholds 1%nat 1 2); [reflexivity | reflexivity | reflexivity | discriminate].
  - apply (Htop 2); reflexivity.
Defined.

(** ** The feature computer: the deltas *)

Lemma findClosest_fold (target : Q) (l : list PriceHistory) (acc : PriceHistory * Q) :
  snd acc = Math_abs (h_timestamp (fst acc) - target) ->
  let r :=
    fold_left
      (fun (acc : PriceHistory * Q) (h : PriceHistory) =>
         let diff := Math_abs (h_timestamp h - target) in
         if diff <? snd acc then (h, diff) else acc)
      l acc in
  snd r = Math_abs (h_timestamp (fst r) - target)
  /\ (fst r = fst acc \/ In (fst r) l)
  /\ snd r <= snd acc
  /\ forall h, In h l -> snd r <= Math_abs (h_timestamp h - target).
Proof.
  revert acc. induction l as [| x l IH]; intros acc Hacc; cbn [fold_left].
  - repeat split; [exact Hacc | left; reflexivity | apply Qle_refl | intros h []].
  - cbv zeta.
    destruct (Math_abs (h_timestamp x - target) <? snd acc) eqn:Hcloser; js_order.
    + destruct (IH (x, Math_abs (h_timestamp x - target)) eq_refl)
        as (Hsnd & Hin & Hle & Hmin). cbn [fst snd] in *.
      repeat split;
        [exact Hsnd | right; destruct Hin as [Hin | Hin]; [left; symmetry | right]; exact Hin
        | eapply Qle_trans; [exact Hle | apply Qlt_le_weak, Hcloser] |].
      intros h [<- | Hh]; [exact Hle | apply Hmin, Hh].
    + destruct (IH acc Hacc) as (Hsnd & Hin & Hle & Hmin).
      repeat split;
        [exact Hsnd | destruct Hin as [Hin | Hin]; [left | right; right]; exact Hin
        | exact Hle |].
      intros h [<- | Hh]; [eapply Qle_trans; [exact Hle | exact Hcloser] | apply Hmin, Hh].
Qed.

Lemma findClosest_closest (first : PriceHistory) (sortedHistory : list PriceHistory)
    (target : Q) :
  In first sortedHistory ->
  closest_to sortedHistory target (PolicyEngine.findClosest first sortedHistory target).
Proof.
  intros Hfirst. unfold PolicyEngine.findClosest, closest_to.
  destruct (findClosest_fold target sortedHistory
              (first, Math_abs (h_timestamp first - target)) eq_refl)
    as (Hsnd & Hin & _ & Hmin).
  cbv zeta in *. cbn [fst snd] in *. split.
  - destruct Hin as [-> | Hin]; assumption.
  - intros h Hh. unfold Math_abs in *. rewrite <- Hsnd. apply Hmin, Hh.
Qed.

Lemma closest_to_sorted (history : list PriceHistory) (target : Q) (h : PriceHistory) :
  closest_to (sort_by h_timestamp history) target h -> closest_to history target h.
Proof.
  intros [Hin Hmin]. split.
  - apply sort_by_In in Hin. exact Hin.
  - intros h' Hh'. apply Hmin, sort_by_In, Hh'.
Qed.

Lemma computeFeatures_window (state : TapeState) (history : list PriceHistory)
    (first : PriceHistory) (rest : list PriceHistory) (w : Window) :
  sort_by h_timestamp history = first :: rest ->
  window_deltas (PolicyEngine.computeFeatures state history) w
  = match PolicyEngine.deltas state first (first :: rest) (window_seconds w) with
    | Some (dUp, dDown) => (Some dUp, Some dUp, Some dDown)
    | None => (None, None, None)
    end.
Proof.
  intros Hsorted. unfold PolicyEngine.computeFeatures. rewrite Hsorted.
  destruct w; cbn [window_deltas window_seconds delta_1s_side_px delta_1s_up_px
                   delta_1s_down_px delta_5s_side_px delta_5s_up_px delta_5s_down_px
                   delta_30s_side_px delta_30s_up_px delta_30s_down_px];
    match goal with |- context [PolicyEngine.deltas ?a ?b ?c ?d] =>
      destruct (PolicyEngine.deltas a b c d) as [[dUp dDown] |] end; reflexivity.
Qed.

Lemma computeFeatures_closest (state : TapeState) (h0 : PriceHistory)
    (history : list PriceHistory) (w : Window) :
  exists past,
    closest_to (h0 :: history) (timestamp state - window_seconds w * 1000) past
    /\ window_deltas (PolicyEngine.computeFeatures state (h0 :: history)) w
       = if Math_abs (h_timestamp past - (timestamp state - window_seconds w * 1000))
            <? window_seconds w * 2000
         then (Some (up_px state - h_up_px past), Some (up_px state - h_up_px past),
               Some (down_px state - h_down_px past))
         else (None, None, None).
Proof.
  destruct (sort_by h_timestamp (h0 :: history)) as [| first rest] eqn:Hsorted.
  { pose proof (sort_by_length h_timestamp (h0 :: history)) as Hlen.
    rewrite Hsorted in Hlen. discriminate. }
  rewrite (computeFeatures_window state _ first rest w Hsorted).
  exists (PolicyEngine.findClosest first (first :: rest)
            (timestamp state - window_seconds w * 1000)).
  split.
  - apply closest_to_sorted. rewrite Hsorted. apply findClosest_closest. left. reflexivity.
  - unfold PolicyEngine.deltas. cbv zeta. destruct (_ <? _); reflexivity.
Qed.

(** X4.  The deltas of a window.  With an empty history there are none.
    Otherwise [computeFeatures] picks an entry of the history closest in
    time to the window point [now - seconds * 1000] and stores the three
    deltas of the window when that entry lies less than twice the window
    away from the window point: the UP delta, once more as the side
    delta, and the DOWN delta, each the current price minus the entry's. *)
Theorem computeFeatures_deltas (state : TapeState) (history : list PriceHistory)
    (w : Window) :
  let features := PolicyEngine.computeFeatures state history in
  let windowTs := timestamp state - window_seconds w * 1000 in
  match history with
  | [] => window_deltas features w = (None, None, None)
  | _ :: _ =>
      exists past,
        closest_to history windowTs past
        /\ window_deltas features w
           = if Math_abs (h_timestamp past - windowTs) <? window_seconds w * 2000
             then (Some (up_px state - h_up_px past), Some (up_px state - h_up_px past),
                   Some (down_px state - h_down_px past))
             else (None, None, None)
  end.
Proof.
  cbv zeta. destruct history as [| h0 history]; [destruct w; reflexivity |].
  apply computeFeatures_closest.
Qed.




(** ** The side-specific entry check and the side selection *)

(** X6.  [checkSideEntry] does honour the bands: it fires for a side only
    when entry parameters are given and the side's price lies within its
    configured band; the signal then names that side, and [entrySignal]
    (which ignores the bands) fires on the same input too. *)
Theorem checkSideEntry_honours_band (state : TapeState) (features : Features)
    (entryParams : option EntryParams) (s : Side) :
  should_trade (PolicyEngine.checkSideEntry state features entryParams s) = true ->
  (exists ep, entryParams = Some ep /\ within_band s ep state)
  /\ side (PolicyEngine.checkSideEntry state features entryParams s) = Some s
  /\ should_trade (PolicyEngine.entrySignal state features entryParams) = true.
Proof.
  destruct entryParams as [ep |]; [| discriminate].
  pose proof (in_band_within s ep state) as Hband.
  unfold PolicyEngine.checkSideEntry, PolicyEngine.entrySignal, IGNORE_ENTRY_BANDS.
  cbn [orb andb].
  destruct s; cbn [band_min band_max side_price] in Hband.
  - destruct (PolicyEngine.in_band (up_price_min ep) (up_price_max ep) (up_px state));
      cbn [negb]; [| discriminate].
    destruct (PolicyEngine.mode_check ep _ "up_price_band") as [upSignal upReason].
    cbn [should_trade side]. intros ->. cbn [should_trade].
    split; [exists ep; split; [reflexivity | apply Hband; reflexivity] | split; reflexivity].
  - destruct (PolicyEngine.in_band (down_price_min ep) (down_price_max ep) (down_px state));
      cbn [negb]; [| discriminate].
    destruct (PolicyEngine.mode_check ep _ "down_price_band") as [downSignal downReason].
    cbn [should_trade side]. intros ->.
    split; [exists ep; split; [reflexivity | apply Hband; reflexivity] | split; [reflexivity |]].
    destruct (PolicyEngine.mode_check ep _ "up_price_band") as [[|] upReason]; reflexivity.
Qed.

Lemma checkSideEntry_honours_band_witness :
  (exists ep, Some sample_entry_params = Some ep
              /\ within_band DOWN ep
                   {| timestamp := 1000; up_px := 9 # 10; down_px := 1 # 2;
                      market := "BTC_15m" |})
  /\ side (PolicyEngine.checkSideEntry
             {| timestamp := 1000; up_px := 9 # 10; down_px := 1 # 2; market := "BTC_15m" |}
             scenario_features (Some sample_entry_params) DOWN) = Some DOWN
  /\ should_trade (PolicyEngine.entrySignal
                     {| timestamp := 1000; up_px := 9 # 10; down_px := 1 # 2;
                        market := "BTC_15m" |}
                     scenario_features (Some sample_entry_params)) = true.
Proof.
  apply (checkSideEntry_honours_band
           {| timestamp := 1000; up_px := 9 # 10; down_px := 1 # 2; market := "BTC_15m" |}
           scenario_features (Some sample_entry_params) DOWN).
  reflexivity.
Defined.

(** X7.  [selectSideWhenBothValid] never selects a side whose signal is
    off, and selects none only when both signals are off. *)
Theorem selectSideWhenBothValid_sound (state : TapeState) (features : Features)
    (inventory : InventoryState) (sideSelectionParams : option SideSelectionParams)
    (entrySignalUp entrySignalDown : bool) :
  match PolicyEngine.selectSideWhenBothValid state features inventory sideSelectionParams
          entrySignalUp entrySignalDown with
  | Some UP => entrySignalUp = true
  | Some DOWN => entrySignalDown = true
  | None => entrySignalUp = false /\ entrySignalDown = false
  end.
Proof.
  unfold PolicyEngine.selectSideWhenBothValid.
  destruct entrySignalUp, entrySignalDown; [| reflexivity | reflexivity | split; reflexivity].
  repeat case_match; simplify_eq; reflexivity.
Qed.

(** X8.  The inventory-first tie-break picks the lighter side.  Once the
    inventory totals at least [1e-6] shares: with more UP than DOWN shares,
    and more than [1e-6] of them, it picks DOWN; with fewer UP than DOWN
    shares it picks UP. *)
Theorem inventoryFirstTieBreak_lighter_side (state : TapeState) (inventory : InventoryState) :
  PolicyEngine.eps <= inv_up_shares inventory + inv_down_shares inventory ->
  (inv_down_shares inventory < inv_up_shares inventory ->
   PolicyEngine.eps < inv_up_shares inventory ->
   PolicyEngine.inventoryFirstTieBreak state inventory = DOWN)
  /\ (inv_up_shares inventory < inv_down_shares inventory ->
      PolicyEngine.inventoryFirstTieBreak state inventory = UP).
Proof.
  intros Htotal. unfold PolicyEngine.inventoryFirstTieBreak. cbv zeta.
  destruct (_ + _ <? PolicyEngine.eps) eqn:Hsmall; js_order; [lra |].
  assert (Heps : 0 < PolicyEngine.eps) by reflexivity.
  set (m := Math_max (inv_down_shares inventory) PolicyEngine.eps).
  assert (Hm : 0 < m /\ inv_down_shares inventory <= m /\ PolicyEngine.eps <= m
               /\ (m == inv_down_shares inventory \/ m == PolicyEngine.eps)).
  { unfold m, Math_max. destruct (_ <? _) eqn:Hmax; js_order.
    - split; [lra | split; [lra | split; [lra | right; reflexivity]]].
    - split; [lra | split; [lra | split; [lra | left; reflexivity]]]. }
  destruct Hm as (Hpos & Hdown & Hfloor & Hcases).
  assert (Hratio : forall x, (x / m < 1 <-> x < m) /\ (1 < x / m <-> m < x)).
  { intros x. split; split; intros H.
    - apply (Qmult_lt_compat_r _ _ m Hpos) in H.
      rewrite Qmult_1_l in H. unfold Qdiv in H.
      rewrite <- Qmult_assoc, (Qmult_comm (/ m)), Qmult_inv_r, Qmult_1_r in H; lra.
    - apply Qlt_shift_div_r; lra.
    - apply (Qmult_lt_compat_r _ _ m Hpos) in H.
      rewrite Qmult_1_l in H. unfold Qdiv in H.
      rewrite <- Qmult_assoc, (Qmult_comm (/ m)), Qmult_inv_r, Qmult_1_r in H; lra.
    - apply Qlt_shift_div_l; lra. }
  destruct (Hratio (inv_up_shares inventory)) as [Hbelow Habove].
  split.
  - intros Hheavier Hreal.
    destruct (_ >? 1) eqn:Hgt; js_order; [reflexivity |]. exfalso.
    assert (m < inv_up_shares inventory) by (destruct Hcases; lra).
    apply Habove in H. lra.
  - intros Hlighter.
    destruct (_ >? 1) eqn:Hgt; js_order.
    + exfalso. apply Habove in Hgt. lra.
    + destruct (_ <? 1) eqn:Hlt; js_order; [reflexivity |]. exfalso.
      assert (inv_up_shares inventory < m) by lra. apply Hbelow in H. lra.
Qed.

Lemma inventoryFirstTieBreak_lighter_side_witness :
  PolicyEngine.inventoryFirstTieBreak scenario_state (holding 100 50) = DOWN
  /\ PolicyEngine.inventoryFirstTieBreak scenario_state (holding 50 100) = UP.
Proof.
  split.
  - apply (inventoryFirstTieBreak_lighter_side scenario_state (holding 100 50));
      reflexivity || discriminate.
  - apply (inventoryFirstTieBreak_lighter_side scenario_state (holding 50 100));
      reflexivity || discriminate.
Defined.

(** ** The integrator: what a decision looks like *)

Lemma sizeForTrade_raises_only (state : TapeState) (features : Features)
    (sizeParams : option SizeParams) (s : Side) (e : Js.error) :
  PolicyEngine.sizeForTrade state features sizeParams s None = Throw e ->
  e = sizing_error
  /\ exists sp, sizeParams = Some sp
                /\ conditioning_var sp = Some "inventory_imbalance_ratio"
                /\ (2 <= length (default [] (bin_edges sp)))%nat.
Proof.
  unfold PolicyEngine.sizeForTrade. destruct sizeParams as [sp |]; [| discriminate].
  destruct (length (default [] (bin_edges sp)) <? 2)%nat eqn:Hshort; [discriminate |].
  apply Nat.ltb_ge in Hshort. cbv zeta.
  destruct (conditioning_var sp) as [[| c var] |] eqn:Hvar;
    [repeat case_match; discriminate | | repeat case_match; discriminate].
  destruct (String.eqb (String c var) "inventory_imbalance_ratio") eqn:Hname;
    [| discriminate].
  apply String.eqb_eq in Hname. rewrite Hname in Hvar. intros [= <-].
  split; [reflexivity | exists sp; auto].
Qed.

Lemma entrySignal_trade_reasons (state : TapeState) (features : Features)
    (entryParams : option EntryParams) :
  let signal := PolicyEngine.entrySignal state features entryParams in
  should_trade signal = true -> In (reason signal) trade_reasons.
Proof.
  unfold PolicyEngine.entrySignal, PolicyEngine.mode_check, IGNORE_ENTRY_BANDS.
  destruct entryParams as [ep |]; [| discriminate].
  destruct (mode ep); repeat case_match; cbn; simplify_eq; intros; try discriminate; auto 10.
Qed.

Lemma entry_reasons_no_trade (why : string) :
  In why ["no_entry_params"; "no_band_match"; "risk_limit_exceeded";
          "inventory_limit_exceeded"] ->
  In why no_trade_reasons.
Proof. cbn. intuition. Qed.

(** What [decide_entry] returns, case by case. *)
Lemma decide_entry_cases (state : TapeState) (features : Features)
    (inventory : InventoryState) (tradesThisSession : Q) (marketParams : MarketParams)
    (id : Z) :
  match PolicyIntegrator.decide_entry state features inventory tradesThisSession
          marketParams id with
  | Throw e =>
      PolicyEngine.checkRiskLimits tradesThisSession inventory (risk_params marketParams)
      = true
      /\ e = sizing_error
      /\ exists sp, size_params marketParams = Some sp
                    /\ conditioning_var sp = Some "inventory_imbalance_ratio"
                    /\ (2 <= length (default [] (bin_edges sp)))%nat
  | Ok d =>
      (d = no_trade (d_reason d) id
       /\ In (d_reason d)
            ["no_entry_params"; "no_band_match"; "risk_limit_exceeded";
             "inventory_limit_exceeded"])
      \/ (d_shouldTrade d = true /\ decisionId d = id
          /\ In (d_reason d) trade_reasons
          /\ should_trade
               (PolicyEngine.entrySignal state features (entry_params marketParams)) = true
          /\ PolicyEngine.checkRiskLimits tradesThisSession inventory
               (risk_params marketParams) = true
          /\ exists s,
               d_side d = Some s
               /\ fillPrice d
                  = Some (PolicyEngine.simulateFillPrice s (side_price s state)
                            (execution_params marketParams))
               /\ PolicyEngine.sizeForTrade state features (size_params marketParams) s None
                  = Ok (d_shares d)
               /\ PolicyEngine.inventoryOkAndRebalance inventory
                    (inventory_params marketParams) s = Some s
               /\ forall ep, entry_params marketParams = Some ep ->
                    PolicyEngine.in_band (band_min s ep) (band_max s ep) (side_price s state)
                    = true
                    \/ (PolicyEngine.in_band (up_price_min ep) (up_price_max ep)
                          (up_px state) = false
                        /\ PolicyEngine.in_band (down_price_min ep) (down_price_max ep)
                             (down_px state) = false))
  end.
Proof.
  unfold PolicyIntegrator.decide_entry.
  pose proof (entrySignal_reasons state features (entry_params marketParams)) as Hsignal.
  pose proof (entrySignal_trade_reasons state features (entry_params marketParams)) as Hwhy.
  cbv zeta in Hsignal, Hwhy.
  destruct (PolicyEngine.entrySignal state features (entry_params marketParams))
    as [fires emitted why].
  cbn [should_trade side reason] in *.
  destruct Hsignal as [[-> [emitted' ->]] | (-> & -> & Hno)].
  2:{ left. assert (Hwhy' : string_or (Some why) "no_entry_signal" = why)
        by (destruct Hno as [-> | ->]; reflexivity).
      repeat case_match; cbn [d_reason no_trade]; rewrite Hwhy';
        (split; [reflexivity | destruct Hno as [-> | ->]; cbn; auto 10]). }
  specialize (Hwhy eq_refl).
  match goal with
  | |- context [match ?sel with Some _ => _ | None => _ end] =>
      destruct sel as [selected |] eqn:Hsel
  end.
  2:{ exfalso. repeat case_match; try discriminate.
      unfold PolicyEngine.selectSideWhenBothValid in Hsel.
      repeat case_match; discriminate. }
  destruct (bool_decide (is_Some (risk_params marketParams))
            && negb (PolicyEngine.checkRiskLimits tradesThisSession inventory
                       (risk_params marketParams))) eqn:Hrisk.
  { left. split; [reflexivity | cbn; auto 10]. }
  assert (Hrisk' : PolicyEngine.checkRiskLimits tradesThisSession inventory
                     (risk_params marketParams) = true).
  { destruct (risk_params marketParams) as [rp |]; [| reflexivity].
    cbn in Hrisk. apply negb_false_iff in Hrisk. exact Hrisk. }
  destruct (PolicyEngine.sizeForTrade state features (size_params marketParams) selected None)
    as [shares | e] eqn:Hsize; cbn [Js.bind].
  2:{ apply sizeForTrade_raises_only in Hsize. split; [exact Hrisk' | exact Hsize]. }
  destruct (PolicyEngine.inventoryOkAndRebalance inventory (inventory_params marketParams)
              selected) as [finalSide |] eqn:Hinv.
  2:{ left. split; [reflexivity | cbn; auto 10]. }
  assert (Hfinal : finalSide = selected).
  { unfold PolicyEngine.inventoryOkAndRebalance in Hinv.
    repeat case_match; simplify_eq; reflexivity. }
  subst finalSide. right. cbn [d_shouldTrade decisionId d_reason d_side fillPrice d_shares].
  repeat split; try assumption. exists selected.
  repeat split; try assumption.
  intros ep Hep. rewrite Hep in Hsel.
  destruct (PolicyEngine.in_band (up_price_min ep) (up_price_max ep) (up_px state))
    eqn:Hup;
    destruct (PolicyEngine.in_band (down_price_min ep) (down_price_max ep)
                (down_px state)) eqn:Hdown;
    cbn [andb] in Hsel; [| | | right; split; reflexivity]; left.
  - destruct selected; assumption.
  - injection Hsel as <-. exact Hup.
  - injection Hsel as <-. exact Hdown.
Qed.

Lemma tick_outcome_gates (id : Z) (state : TapeState) (marketParams : MarketParams)
    (lastPrice : option PriceHistory) (features : Features) (lastTradeTs : option Q)
    (inventory : InventoryState) (recentTrades : list Q) (tradesThisSession : Q) :
  (exists why,
      tick_outcome id state marketParams lastPrice features lastTradeTs inventory
        recentTrades tradesThisSession = Ok (no_trade why id)
      /\ In why ["data_quality_filter_failed"; "cooldown_blocked"; "cadence_blocked"])
  \/ (PolicyEngine.checkDataQuality state lastPrice (quality_filter_params marketParams)
      = true
      /\ PolicyEngine.checkCooldown lastTradeTs (timestamp state) features inventory
           (cooldown_params marketParams) = true
      /\ PolicyEngine.cadenceOk lastTradeTs recentTrades (cadence_params marketParams)
           (timestamp state) = true
      /\ tick_outcome id state marketParams lastPrice features lastTradeTs inventory
           recentTrades tradesThisSession
         = PolicyIntegrator.decide_entry state features inventory tradesThisSession
             marketParams id).
Proof.
  unfold tick_outcome, quality_gate.
  destruct (bool_decide (is_Some (quality_filter_params marketParams)) && negb _)
    eqn:Hquality; [left; eexists; split; [reflexivity | cbn; auto] |].
  destruct (bool_decide (is_Some (cooldown_params marketParams)) && negb _)
    eqn:Hcooldown; [left; eexists; split; [reflexivity | cbn; auto] |].
  destruct (negb (PolicyEngine.cadenceOk _ _ _ _)) eqn:Hcadence;
    [left; eexists; split; [reflexivity | cbn; auto] |].
  right. apply negb_false_iff in Hcadence.
  repeat split; try assumption.
  - destruct (quality_filter_params marketParams); [| reflexivity].
    cbn in Hquality. apply negb_false_iff in Hquality. exact Hquality.
  - destruct (cooldown_params marketParams); [| reflexivity].
    cbn in Hcooldown. apply negb_false_iff in Hcooldown. exact Hcooldown.
Qed.

(** X9.  What a decision tick returns.  A decision carries the advanced
    counter as its identifier.  A trade names a side, carries one of the
    four reasons of a fired entry signal and the fill price
    [simulateFillPrice] gives for that side's price; a no-trade decision is
    [{ shouldTrade: false, side: null, shares: 0, reason, decisionId }] with
    one of the seven no-trade reasons.  The only exception a tick raises is
    the [TypeError] of the sizing step, and only for size parameters
    conditioned on the inventory imbalance ratio with at least two bin
    edges. *)
Theorem shouldTrade_decision_shape (market : string) (ts upPx downPx : Q)
    (marketParams : MarketParams) (self : Integrator) :
  match fst (PolicyIntegrator.shouldTrade market ts upPx downPx marketParams self) with
  | Ok d =>
      decisionId d = (decisionIdCounter self + 1)%Z
      /\ if d_shouldTrade d
         then In (d_reason d) trade_reasons
              /\ exists s,
                   d_side d = Some s
                   /\ fillPrice d
                      = Some (PolicyEngine.simulateFillPrice s
                                (match s with UP => upPx | DOWN => downPx end)
                                (execution_params marketParams))
         else d = no_trade (d_reason d) (decisionIdCounter self + 1)
              /\ In (d_reason d) no_trade_reasons
  | Throw e =>
      e = sizing_error
      /\ exists sp, size_params marketParams = Some sp
                    /\ conditioning_var sp = Some "inventory_imbalance_ratio"
                    /\ (2 <= length (default [] (bin_edges sp)))%nat
  end.
Proof.
  rewrite shouldTrade_outcome.
  match goal with |- context [tick_outcome ?id ?st ?mp ?lp ?f ?lt ?inv ?rt ?n] =>
    destruct (tick_outcome_gates id st mp lp f lt inv rt n)
      as [(why & -> & Hwhy) | (_ & _ & _ & ->)];
    [| pose proof (decide_entry_cases st f inv n mp id) as Hcases;
       destruct (PolicyIntegrator.decide_entry st f inv n mp id) as [d | e]]
  end.
  - cbn [decisionId d_shouldTrade no_trade d_reason]. repeat split.
    cbn in Hwhy |- *. intuition.
  - destruct Hcases as [[Hd Hwhy] | (Hfires & Hid & Hwhy & _ & _ & s & Hside & Hfill & _)].
    + rewrite Hd. cbn [decisionId d_shouldTrade no_trade d_reason]. rewrite <- Hd.
      repeat split; first [assumption | apply entry_reasons_no_trade, Hwhy].
    + rewrite Hfires. split; [exact Hid | split; [exact Hwhy |]].
      exists s. split; [exact Hside |]. rewrite Hfill. destruct s; reflexivity.
  - exact (proj2 Hcases).
Qed.

(** X10.  A trade has passed every gate.  When a tick returns a trade,
    the data-quality filter, the cooldown, the cadence, the entry signal
    and the risk limits all accepted it, on the snapshot, the last trade
    time, the recent trades, the session count and the inventory the
    integrator held when the tick began (after the tick's own reset); the
    shares are what [sizeForTrade] returned for the side; and with
    inventory parameters the total holding is below [max_total_shares] and
    the side's holding below its cap. *)
Theorem trade_passed_every_gate (market : string) (ts upPx downPx : Q)
    (marketParams : MarketParams) (self : Integrator) (d : TradeDecision) :
  fst (PolicyIntegrator.shouldTrade market ts upPx downPx marketParams self) = Ok d ->
  d_shouldTrade d = true ->
  passed_every_gate market ts upPx downPx marketParams self d.
Proof.
  rewrite shouldTrade_outcome. unfold passed_every_gate, tick_features, tick_state.
  cbv zeta.
  match goal with |- context [tick_outcome ?id ?st ?mp ?lp ?f ?lt ?inv ?rt ?n] =>
    destruct (tick_outcome_gates id st mp lp f lt inv rt n)
      as [(why & -> & _) | (Hquality & Hcooldown & Hcadence & ->)];
    [intros [= <-]; discriminate |];
    pose proof (decide_entry_cases st f inv n mp id) as Hcases
  end.
  intros Hd Htrade. rewrite Hd in Hcases.
  destruct Hcases as [[Hno _] | (_ & _ & _ & Hsignal & Hrisk & s & Hside & _ & Hsize & Hinv & _)].
  { rewrite Hno in Htrade. discriminate. }
  cbn [timestamp] in *.
  repeat (split; [assumption |]).
  exists s. repeat (split; [assumption |]).
  intros ip Hip. rewrite Hip in Hinv. unfold PolicyEngine.inventoryOkAndRebalance in Hinv.
  destruct (_ >=? max_total_shares ip) eqn:Htotal; [discriminate |]. js_order.
  split; [exact Htotal |].
  destruct s; cbn [side_shares side_cap];
    match type of Hinv with context [if ?c then _ else _] => destruct c eqn:Hside' end;
    try discriminate; js_order; assumption.
Qed.

Lemma trade_passed_every_gate_witness :
  passed_every_gate "BTC_15m" 1000 (1 # 2) (1 # 2) quality_params new_integrator
    sample_trade.
Proof.
  apply (trade_passed_every_gate "BTC_15m" 1000 (1 # 2) (1 # 2) quality_params
           new_integrator sample_trade).
  - vm_compute. reflexivity.
  - reflexivity.
Defined.

(** X11.  The tick prefers a side whose price is in its band.  When a
    tick returns a decision for a side and entry parameters are given,
    either that side's price lies within its band, or neither side's price
    lies within its band (the engine's entry signal, which ignores the
    bands, then chose the side). *)
Theorem trade_side_prefers_band (market : string) (ts upPx downPx : Q)
    (marketParams : MarketParams) (self : Integrator) (d : TradeDecision) (s : Side)
    (ep : EntryParams) :
  fst (PolicyIntegrator.shouldTrade market ts upPx downPx marketParams self) = Ok d ->
  d_side d = Some s ->
  entry_params marketParams = Some ep ->
  within_band s ep (tick_state market ts upPx downPx)
  \/ (~ within_band UP ep (tick_state market ts upPx downPx)
      /\ ~ within_band DOWN ep (tick_state market ts upPx downPx)).
Proof.
  rewrite shouldTrade_outcome. unfold tick_state.
  match goal with |- context [tick_outcome ?id ?st ?mp ?lp ?f ?lt ?inv ?rt ?n] =>
    destruct (tick_outcome_gates id st mp lp f lt inv rt n)
      as [(why & -> & _) | (_ & _ & _ & ->)];
    [intros [= <-]; discriminate |];
    pose proof (decide_entry_cases st f inv n mp id) as Hcases
  end.
  intros Hd Hside Hep. rewrite Hd in Hcases.
  destruct Hcases as [[Hno _] | (_ & _ & _ & _ & _ & s' & Hside' & _ & _ & _ & Hband)].
  { rewrite Hno in Hside. discriminate. }
  rewrite Hside in Hside'. injection Hside' as <-.
  destruct (Hband ep Hep) as [Hin | [Hup Hdown]].
  - left. apply in_band_within. exact Hin.
  - right. split; intros Hwithin; apply in_band_within in Hwithin;
      cbn [band_min band_max side_price] in Hwithin; congruence.
Qed.

Lemma trade_side_prefers_band_witness :
  within_band UP sample_entry_params (tick_state "BTC_15m" 1000 (1 # 2) (1 # 2))
  \/ (~ within_band UP sample_entry_params (tick_state "BTC_15m" 1000 (1 # 2) (1 # 2))
      /\ ~ within_band DOWN sample_entry_params
             (tick_state "BTC_15m" 1000 (1 # 2) (1 # 2))).
Proof.
  apply (trade_side_prefers_band "BTC_15m" 1000 (1 # 2) (1 # 2) quality_params
           new_integrator sample_trade UP sample_entry_params).
  - vm_compute. reflexivity.
  - reflexivity.
  - reflexivity.
Defined.

(** ** The integrator: the state it keeps *)

Ltac integrator_fields :=
  cbn [lastPriceState priceHistory inventory lastTradeTime recentTradeTimes
       tradesPerSession decisionIdCounter with_priceHistory with_tradesPerSession
       with_inventory with_decisionIdCounter with_lastPriceState with_lastTradeTime
       with_recentTradeTimes].

Lemma getInventory_other (market other : string) (self : Integrator) :
  other <> market ->
  market_state other (snd (getInventory market self)) = market_state other self.
Proof.
  intros Hne. unfold getInventory, market_state.
  destruct (inventory self !! market); cbn [snd]; integrator_fields; [reflexivity |].
  rewrite lookup_insert_ne by congruence. reflexivity.
Qed.

Lemma shouldTrade_other (market other : string) (ts upPx downPx : Q)
    (marketParams : MarketParams) (self : Integrator) :
  other <> market ->
  market_state other
    (snd (PolicyIntegrator.shouldTrade market ts upPx downPx marketParams self))
  = market_state other self.
Proof.
  intros Hne. unfold PolicyIntegrator.shouldTrade, updatePriceHistory.
  cbn [lastTradeTime with_decisionIdCounter].
  destruct (bool_decide (is_Some (reset_params marketParams)) && _); integrator_fields.
  all: destruct (bool_decide (is_Some (quality_filter_params marketParams)) && _);
    [cbn [snd]; unfold market_state; integrator_fields;
     rewrite ?lookup_insert_ne, ?lookup_delete_ne by congruence; reflexivity |].
  all: match goal with
       | |- context [getInventory ?m ?s] =>
           pose proof (getInventory_other m other s Hne) as Hinv;
           destruct (getInventory m s) as [? ?]; cbn [snd] in Hinv
       end.
  all: repeat case_match; cbn [snd]; rewrite Hinv; unfold market_state; integrator_fields;
    rewrite ?lookup_insert_ne, ?lookup_delete_ne by congruence; reflexivity.
Qed.

Lemma shouldTradeEarly_other (market other : string) (ts upPx downPx : Q)
    (marketParams : MarketParams) (self : Integrator) :
  other <> market ->
  market_state other
    (snd (PolicyIntegratorEarly.shouldTrade market ts upPx downPx marketParams self))
  = market_state other self.
Proof.
  intros Hne. unfold PolicyIntegratorEarly.shouldTrade, updatePriceHistory.
  repeat match goal with
    | |- context [getInventory ?m ?s] =>
        let H := fresh "Hinv" in
        pose proof (getInventory_other m other s Hne) as H;
        destruct (getInventory m s) as [? ?]; cbn [snd] in H
    | |- context [match ?b with _ => _ end] => destruct b
    end; cbn [snd]; try rewrite Hinv; unfold market_state; integrator_fields;
    rewrite ?lookup_insert_ne, ?lookup_delete_ne by congruence; reflexivity.
Qed.

Lemma recordTradeExecution_other (market other : string) (ts : Q) (s : Side)
    (shares cost : Q) (self : Integrator) :
  other <> market ->
  market_state other (PolicyIntegrator.recordTradeExecution market ts s shares cost self)
  = market_state other self
  /\ market_state other
       (PolicyIntegratorEarly.recordTradeExecution market ts s shares cost self)
     = market_state other self.
Proof.
  intros Hne.
  unfold PolicyIntegrator.recordTradeExecution, PolicyIntegratorEarly.recordTradeExecution,
    recordTradeTime, updateInventory.
  pose proof (getInventory_other market other self Hne) as Hinv.
  destruct (getInventory market self) as [inv self']. cbn [snd] in Hinv.
  rewrite <- Hinv. unfold market_state. integrator_fields.
  rewrite ?lookup_insert_ne, ?lookup_delete_ne by congruence. split; reflexivity.
Qed.

(** X12.  Markets do not interfere.  A decision tick (in either revision
    of the class) and a recorded trade (in either revision) for one market
    leave what the integrator holds for every other market as it was:
    price history, inventory, last trade time, recent trades, session count
    and last-price snapshot.  So does [resetInventory(market)], unless
    [market] is the empty string: that one is falsy, and the call clears
    the inventory, the last trade time and the recent trades of the other
    market too. *)
Theorem other_markets_untouched (market other : string) (ts upPx downPx : Q)
    (marketParams : MarketParams) (s : Side) (shares cost : Q) (self : Integrator) :
  other <> market ->
  Forall (fun after => market_state other after = market_state other self)
    [snd (PolicyIntegrator.shouldTrade market ts upPx downPx marketParams self);
     snd (PolicyIntegratorEarly.shouldTrade market ts upPx downPx marketParams self);
     PolicyIntegrator.recordTradeExecution market ts s shares cost self;
     PolicyIntegratorEarly.recordTradeExecution market ts s shares cost self]
  /\ market_state other (resetInventory (Some market) self)
     = if bool_decide (market = "")
       then (priceHistory self !! other, None, None, None,
             tradesPerSession self !! other, lastPriceState self !! other)
       else market_state other self.
Proof.
  intros Hne. split.
  - repeat constructor.
    + apply shouldTrade_other, Hne.
    + apply shouldTradeEarly_other, Hne.
    + apply recordTradeExecution_other, Hne.
    + apply recordTradeExecution_other, Hne.
  - unfold resetInventory, market_state. destruct market as [| c market].
    + integrator_fields. rewrite !lookup_empty. reflexivity.
    + rewrite bool_decide_eq_false_2 by discriminate.
      integrator_fields. rewrite ?lookup_delete_ne by congruence. reflexivity.
Qed.

Lemma other_markets_untouched_witness :
  Forall (fun after => market_state "ETH_15m" after = market_state "ETH_15m" two_markets)
    [snd (PolicyIntegrator.shouldTrade "BTC_15m" 100000 (1 # 2) (1 # 2) quality_params
            two_markets);
     snd (PolicyIntegratorEarly.shouldTrade "BTC_15m" 100000 (1 # 2) (1 # 2) quality_params
            two_markets);
     PolicyIntegrator.recordTradeExecution "BTC_15m" 100000 UP 1 (1 # 2) two_markets;
     PolicyIntegratorEarly.recordTradeExecution "BTC_15m" 100000 UP 1 (1 # 2) two_markets]
  /\ market_state "ETH_15m" (resetInventory (Some "BTC_15m") two_markets)
     = if bool_decide ("BTC_15m" = "")
       then (priceHistory two_markets !! "ETH_15m", None, None, None,
             tradesPerSession two_markets !! "ETH_15m",
             lastPriceState two_markets !! "ETH_15m")
       else market_state "ETH_15m" two_markets.
Proof.
  apply (other_markets_untouched "BTC_15m" "ETH_15m" 100000 (1 # 2) (1 # 2) quality_params
           UP 1 (1 # 2) two_markets).
  discriminate.
Defined.

(** [resetInventory('')] on an integrator that holds a trade for
    [ETH_15m]: the holding and the trade times of [ETH_15m] are gone. *)
Example reset_of_the_empty_name :
  inventory two_markets !! "ETH_15m"
  = Some (holding_at_cost 0 (0 + 2) None (Some ((0 * 0 + 1) / (0 + 2))))
  /\ inventory (resetInventory (Some "") two_markets) !! "ETH_15m" = None
  /\ lastTradeTime (resetInventory (Some "") two_markets) !! "ETH_15m" = None
  /\ recentTradeTimes (resetInventory (Some "") two_markets) !! "ETH_15m" = None.
Proof. repeat split; vm_compute; reflexivity. Qed.

(** *** Runs of calls *)

Lemma push_bounded_length {A} (cap : nat) (a : list A) (x : A) :
  (length a <= cap)%nat -> (length (push_bounded cap a x) <= cap)%nat.
Proof.
  intros Hlen. unfold push_bounded.
  destruct (cap <? length (a ++ [x]))%nat eqn:Hfull.
  - destruct a as [| y a]; cbn [app tail length] in *; [lia |].
    rewrite length_app. cbn. lia.
  - apply Nat.ltb_ge in Hfull. exact Hfull.
Qed.

Lemma push_bounded_newest {A} (cap : nat) (a : list A) (x : A) :
  (1 <= cap)%nat -> last (push_bounded cap a x) = Some x.
Proof.
  intros Hcap. unfold push_bounded.
  destruct (cap <? length (a ++ [x]))%nat eqn:Hfull; [| apply last_snoc].
  apply Nat.ltb_lt in Hfull. rewrite length_app in Hfull. cbn in Hfull.
  destruct a as [| y a]; [cbn in Hfull; lia |]. cbn [app tail]. apply last_snoc.
Qed.

(** What every run keeps true of the integrator. *)
Lemma run_calls_kept (calls : list Call) :
  within_capacity (run_calls calls)
  /\ forall market,
       last (default [] (recentTradeTimes (run_calls calls) !! market))
       = lastTradeTime (run_calls calls) !! market.
Proof.
  unfold run_calls.
  assert (Hstart : within_capacity new_integrator
                   /\ forall market,
                        last (default [] (recentTradeTimes new_integrator !! market))
                        = lastTradeTime new_integrator !! market).
  { split; [split; intros m l Hl; cbn in Hl; rewrite lookup_empty in Hl; discriminate |].
    intros m. cbn. rewrite !lookup_empty. reflexivity. }
  revert Hstart. generalize new_integrator as self.
  induction calls as [| c calls IH]; intros self Hkept; [exact Hkept |].
  cbn [fold_left]. apply IH. clear IH.
  destruct Hkept as [[Hhistory Hrecent] Hlast]. unfold within_capacity.
  destruct c as [market ts upPx downPx marketParams | market ts s shares cost | market
                | market ts upPx downPx | market s shares cost | market];
    cbn [call].
  4:{ (* a pushed price *)
      unfold updatePriceHistory. integrator_fields.
      split; [split |]; [| exact Hrecent | exact Hlast].
      intros m h Hh. destruct (decide (m = market)) as [-> | Hne].
      - rewrite lookup_insert_eq in Hh. injection Hh as <-. apply push_bounded_length.
        destruct (priceHistory self !! market) as [h |] eqn:Hold; cbn; [| lia].
        apply (Hhistory market h Hold).
      - rewrite lookup_insert_ne in Hh by congruence. apply (Hhistory m h Hh). }
  4:{ (* an adjusted inventory *)
      unfold updateInventory.
      pose proof (getInventory_frame market self) as Hframe.
      destruct (getInventory market self) as [inv self'].
      destruct Hframe as (_ & _ & Hph & Hlt & Hrt & _).
      integrator_fields. rewrite Hph, Hlt, Hrt.
      split; [split |]; assumption. }
  4:{ (* an inventory asked for *)
      unfold getInventoryState.
      pose proof (getInventory_frame market self) as Hframe.
      destruct (getInventory market self) as [inv self'].
      destruct Hframe as (_ & _ & Hph & Hlt & Hrt & _).
      cbn [snd]. rewrite Hph, Hlt, Hrt.
      split; [split |]; assumption. }
  - (* a tick *)
    pose proof (shouldTrade_views market ts upPx downPx marketParams self) as Hviews.
    cbv zeta in Hviews. destruct Hviews as (Hlt & Hrt & Hph & _).
    rewrite Hlt, Hrt. split; [split |]; [| exact Hrecent | exact Hlast].
    intros m h Hh. destruct (decide (m = market)) as [-> | Hne].
    + rewrite Hph in Hh. injection Hh as <-. unfold history_seen.
      apply push_bounded_length.
      destruct (priceHistory self !! market) as [h |] eqn:Hold; cbn; [| lia].
      apply (Hhistory market h Hold).
    + pose proof (shouldTrade_other market m ts upPx downPx marketParams self Hne) as Hother.
      unfold market_state in Hother. injection Hother as Hother _ _ _ _ _.
      rewrite Hother in Hh. apply (Hhistory m h Hh).
  - (* a recorded trade *)
    unfold PolicyIntegrator.recordTradeExecution, recordTradeTime, updateInventory.
    pose proof (getInventory_frame market self) as Hframe.
    destruct (getInventory market self) as [inv self'].
    destruct Hframe as (_ & _ & Hph & Hlt & Hrt & _).
    integrator_fields. rewrite Hph, Hlt, Hrt.
    split; [split |]; [exact Hhistory | |].
    + intros m r Hr. destruct (decide (m = market)) as [-> | Hne].
      * rewrite lookup_insert_eq in Hr. injection Hr as <-. apply push_bounded_length.
        destruct (recentTradeTimes self !! market) as [r |] eqn:Hold; cbn; [| lia].
        apply (Hrecent market r Hold).
      * rewrite lookup_insert_ne in Hr by congruence. apply (Hrecent m r Hr).
    + intros m. destruct (decide (m = market)) as [-> | Hne].
      * rewrite !lookup_insert_eq. cbn [from_option id]. apply push_bounded_newest.
        unfold maxRecentTrades. lia.
      * rewrite !lookup_insert_ne by congruence. apply Hlast.
  - (* a reset *)
    unfold resetInventory.
    destruct market as [[| c market] |]; integrator_fields.
    + split; [split |]; [exact Hhistory | |].
      * intros m r Hr. rewrite lookup_empty in Hr. discriminate.
      * intros m. rewrite !lookup_empty. reflexivity.
    + split; [split |]; [exact Hhistory | |].
      * intros m r Hr. apply lookup_delete_Some in Hr as [_ Hr]. apply (Hrecent m r Hr).
      * intros m. destruct (decide (m = String c market)) as [-> | Hne].
        -- rewrite !lookup_delete_eq. reflexivity.
        -- rewrite !lookup_delete_ne by congruence. apply Hlast.
    + split; [split |]; [exact Hhistory | |].
      * intros m r Hr. rewrite lookup_empty in Hr. discriminate.
      * intros m. rewrite !lookup_empty. reflexivity.
Qed.

(** X13.  What the accessors return after any run of calls on a new
    integrator (decision ticks, recorded trades, resets, pushed prices,
    inventory updates and inventory queries, in any order):
    [getPriceHistory] returns at most 1000 entries; [getCadenceInfo]
    returns at most 100 recent trade times, and its [lastTradeTime] is the
    last of them ([null] when there is none, or when it is 0). *)
Theorem run_calls_accessors (calls : list Call) (market : string) :
  let self := run_calls calls in
  (length (getPriceHistory market self) <= maxHistoryLength)%nat
  /\ (length (snd (getCadenceInfo market self)) <= maxRecentTrades)%nat
  /\ fst (getCadenceInfo market self)
     = number_or_null (last (snd (getCadenceInfo market self))).
Proof.
  cbv zeta. destruct (run_calls_kept calls) as [[Hhistory Hrecent] Hlast].
  unfold getPriceHistory, getCadenceInfo. cbn [fst snd]. repeat split.
  - destruct (priceHistory (run_calls calls) !! market) as [h |] eqn:Hh; cbn; [| lia].
    apply (Hhistory market h Hh).
  - destruct (recentTradeTimes (run_calls calls) !! market) as [r |] eqn:Hr; cbn; [| lia].
    apply (Hrecent market r Hr).
  - rewrite Hlast. reflexivity.
Qed.

(** ** The integrator: the books *)

Lemma recordTradeExecution_held (market : string) (ts : Q) (s : Side) (shares cost : Q)
    (self : Integrator) :
  let after := PolicyIntegrator.recordTradeExecution market ts s shares cost self in
  side_shares s (held market after) = side_shares s (held market self) + shares
  /\ side_shares (opposite s) (held market after)
     = side_shares (opposite s) (held market self)
  /\ side_avg_cost (opposite s) (held market after)
     = side_avg_cost (opposite s) (held market self)
  /\ side_avg_cost s (held market after)
     = Some ((number_or (side_avg_cost s (held market self)) 0
              * side_shares s (held market self) + cost)
             / (side_shares s (held market self) + shares))
  /\ tradesPerSession after !! market
     = Some (default 0 (tradesPerSession self !! market) + 1)%Z.
Proof.
  cbv zeta.
  unfold PolicyIntegrator.recordTradeExecution, recordTradeTime, updateInventory, held,
    getInventory, empty_inventory.
  destruct (inventory self !! market) as [inv |]; integrator_fields;
    rewrite !lookup_insert_eq; cbn [from_option id]; destruct s; repeat split; reflexivity.
Qed.

(** X14.  The books, side by side.  After a run of executed trades for
    one market, a side's share count and average cost are what the trades
    on that side alone make of them, taken in order: each adds its shares
    and sets the average cost to [(avg * shares_before + cost) / shares_after];
    a trade on the other side changes neither.  The session's trade count
    has grown by the number of trades. *)
Theorem recorded_trades_add_up (market : string) (trades : list (Q * Side * Q * Q))
    (self : Integrator) (s : Side) :
  let after := record_trades market trades self in
  (side_shares s (held market after), side_avg_cost s (held market after))
  = fold_left (book_trade s) trades
      (side_shares s (held market self), side_avg_cost s (held market self))
  /\ default 0%Z (tradesPerSession after !! market)
     = (default 0 (tradesPerSession self !! market) + Z.of_nat (length trades))%Z.
Proof.
  cbv zeta. revert self.
  induction trades as [| [[[ts s'] shares] cost] trades IH]; intros self.
  - unfold record_trades. cbn. split; [reflexivity | lia].
  - unfold record_trades. cbn [fold_left].
    fold (record_trades market trades
            (PolicyIntegrator.recordTradeExecution market ts s' shares cost self)).
    pose proof (recordTradeExecution_held market ts s' shares cost self) as Hstep.
    cbv zeta in Hstep. destruct Hstep as (Hside & Hother & Hcost & Havg & Hcount).
    set (next := PolicyIntegrator.recordTradeExecution market ts s' shares cost self) in *.
    destruct (IH next) as [IHbook IHcount]. rewrite IHbook, IHcount, Hcount.
    cbn [from_option id length]. split; [| lia].
    f_equal. unfold book_trade. cbn [fst snd].
    destruct (decide (s' = s)) as [-> | Hne].
    + rewrite Hside, Havg. reflexivity.
    + assert (Hs : s = opposite s') by (clear - Hne; destruct s, s'; cbn; congruence).
      rewrite Hs, Hother, Hcost. reflexivity.
Qed.

(** Two trades on the UP side, 10 shares for 5 and 30 shares for 21: 40
    shares at an average cost of 0.65, and nothing on the DOWN side. *)
Example recorded_trades_sample :
  let after := held "BTC_15m" (record_trades "BTC_15m" sample_trades new_integrator) in
  inv_up_shares after == 40 /\ default 0 (avg_cost_up after) == 65 # 100
  /\ inv_down_shares after = 0 /\ avg_cost_down after = None.
Proof. repeat split; vm_compute; reflexivity. Qed.

(** ** The integrator: after a trade *)

Lemma recordTradeExecution_lastTradeTime (market : string) (t : Q) (s : Side)
    (shares cost : Q) (self : Integrator) :
  let after := PolicyIntegrator.recordTradeExecution market t s shares cost self in
  lastTradeTime after !! market = Some t
  /\ decisionIdCounter after = decisionIdCounter self.
Proof.
  cbv zeta.
  unfold PolicyIntegrator.recordTradeExecution, recordTradeTime, updateInventory.
  pose proof (getInventory_frame market self) as Hframe.
  destruct (getInventory market self) as [inv self'].
  destruct Hframe as (Hid & _). integrator_fields.
  rewrite lookup_insert_eq. split; [reflexivity | exact Hid].
Qed.

(** X15.  A recorded trade starts the cadence clock.  With a positive
    [min_inter_trade_ms], a tick that comes less than that after a trade
    recorded at a timestamp other than 0 never trades: it ends at the
    data-quality filter, the cooldown or the cadence gate. *)
Theorem recorded_trade_starts_cadence (market : string) (t : Q) (s : Side)
    (shares cost : Q) (self : Integrator) (ts upPx downPx : Q)
    (marketParams : MarketParams) (cp : CadenceParams) :
  cadence_params marketParams = Some cp ->
  ~ t == 0 ->
  ts - t < min_inter_trade_ms cp ->
  0 < min_inter_trade_ms cp ->
  exists why,
    fst (PolicyIntegrator.shouldTrade market ts upPx downPx marketParams
           (PolicyIntegrator.recordTradeExecution market t s shares cost self))
    = Ok (no_trade why (decisionIdCounter self + 1))
    /\ In why ["data_quality_filter_failed"; "cooldown_blocked"; "cadence_blocked"].
Proof.
  intros Hcp Hzero Hsoon Hmin.
  destruct (recordTradeExecution_lastTradeTime market t s shares cost self)
    as [Hlast Hid]. cbv zeta in Hlast, Hid.
  rewrite shouldTrade_outcome, Hid, Hlast.
  match goal with |- context [tick_outcome ?id ?st ?mp ?lp ?f ?lt ?inv ?rt ?n] =>
    destruct (tick_outcome_gates id st mp lp f lt inv rt n)
      as [(why & Hwhy) | (_ & _ & Hcadence & _)]
  end; [exists why; exact Hwhy | exfalso].
  unfold PolicyEngine.cadenceOk, number_or_null in Hcadence. rewrite Hcp in Hcadence.
  destruct (Qeq_bool t 0) eqn:Hfalsy; [apply Qeq_bool_eq in Hfalsy; contradiction |].
  cbn [timestamp] in Hcadence.
  apply gtb_gt in Hmin. apply ltb_lt in Hsoon. rewrite Hmin, Hsoon in Hcadence.
  discriminate.
Qed.

Lemma recorded_trade_starts_cadence_witness :
  exists why,
    fst (PolicyIntegrator.shouldTrade "BTC_15m" 1500 (1 # 2) (1 # 2) paced_params
           (PolicyIntegrator.recordTradeExecution "BTC_15m" 1000 UP 1 (1 # 2)
              new_integrator))
    = Ok (no_trade why (decisionIdCounter new_integrator + 1))
    /\ In why ["data_quality_filter_failed"; "cooldown_blocked"; "cadence_blocked"].
Proof.
  apply (recorded_trade_starts_cadence "BTC_15m" 1000 UP 1 (1 # 2) new_integrator 1500
           (1 # 2) (1 # 2) paced_params
           {| min_inter_trade_ms := 1000; p50_inter_trade_ms := 2000;
              p95_inter_trade_ms := 5000; max_trades_per_sec := 5;
              max_trades_per_min := 60 |}).
  - reflexivity.
  - discriminate.
  - reflexivity.
  - reflexivity.
Defined.

(** A trade recorded at timestamp 0 is not seen by the cadence gate:
    [lastTradeTime.get(market) || null] turns the stored 0 into [null]. *)
Example trade_at_time_zero_not_seen :
  fst (PolicyIntegrator.shouldTrade "BTC_15m" 500 (1 # 2) (1 # 2) paced_params
         (PolicyIntegrator.recordTradeExecution "BTC_15m" 0 UP 1 (1 # 2) new_integrator))
  = Ok {| d_shouldTrade := true; d_side := Some UP; d_shares := 1;
          d_reason := "up_price_band"; decisionId := 1; fillPrice := Some (1 # 2) |}.
Proof. vm_compute. reflexivity. Qed.

Lemma larger_share_one_sided (inv : InventoryState) (s : Side) :
  0 < side_shares s inv ->
  side_shares (opposite s) inv == 0 ->
  0 < inv_up_shares inv + inv_down_shares inv
  /\ PolicyEngine.larger_share inv (inv_up_shares inv + inv_down_shares inv) == 1.
Proof.
  intros Hpos Hzero. unfold PolicyEngine.larger_share, Math_max.
  destruct s; cbn [side_shares opposite] in Hpos, Hzero.
  - split; [lra |].
    assert (Hup : inv_up_shares inv / (inv_up_shares inv + inv_down_shares inv) == 1).
    { rewrite Hzero. field. lra. }
    assert (Hdown : inv_down_shares inv / (inv_up_shares inv + inv_down_shares inv) == 0).
    { rewrite Hzero. field. lra. }
    destruct (_ <? _) eqn:Hmax; js_order; [lra | exact Hup].
  - split; [lra |].
    assert (Hup : inv_up_shares inv / (inv_up_shares inv + inv_down_shares inv) == 0).
    { rewrite Hzero. field. lra. }
    assert (Hdown : inv_down_shares inv / (inv_up_shares inv + inv_down_shares inv) == 1).
    { rewrite Hzero. field. lra. }
    destruct (_ <? _) eqn:Hmax; js_order; [exact Hdown | lra].
Qed.

Lemma one_sided_fails_risk (inv : InventoryState) (s : Side) (rp : RiskParams)
    (tradesThisSession : Q) :
  0 < side_shares s inv ->
  side_shares (opposite s) inv == 0 ->
  max_imbalance_ratio rp < 1 ->
  PolicyEngine.checkRiskLimits tradesThisSession inv (Some rp) = false.
Proof.
  intros Hpos Hzero Hratio.
  destruct (larger_share_one_sided inv s Hpos Hzero) as [Htotal Hshare].
  unfold PolicyEngine.checkRiskLimits.
  destruct (match max_trades_per_session rp with Some _ => _ | None => _ end);
    [reflexivity |].
  apply gtb_gt in Htotal. rewrite Htotal. cbn [andb].
  assert (Hover : (PolicyEngine.larger_share inv (inv_up_shares inv + inv_down_shares inv)
                   >? max_imbalance_ratio rp) = true).
  { apply gtb_gt. rewrite Hshare. exact Hratio. }
  rewrite Hover. reflexivity.
Qed.

Lemma tick_keeps_inventory (market : string) (ts upPx downPx : Q)
    (marketParams : MarketParams) (self : Integrator) (inv : InventoryState) :
  reset_params marketParams = None ->
  inventory self !! market = Some inv ->
  inventory (snd (PolicyIntegrator.shouldTrade market ts upPx downPx marketParams self))
  !! market = Some inv
  /\ inventory_seen market ts marketParams self = inv.
Proof.
  intros Hreset Hinv. split.
  - unfold PolicyIntegrator.shouldTrade, updatePriceHistory, getInventory.
    rewrite Hreset. cbn [bool_decide andb]. integrator_fields.
    assert (Hnone : bool_decide (is_Some (@None ResetParams)) = false).
    { apply bool_decide_eq_false. intros [? ?]. discriminate. }
    rewrite Hnone. cbn [andb]. integrator_fields. rewrite Hinv.
    repeat case_match; cbn [snd]; integrator_fields; exact Hinv.
  - unfold inventory_seen, resets. rewrite Hreset.
    assert (Hnone : bool_decide (is_Some (@None ResetParams)) = false).
    { apply bool_decide_eq_false. intros [? ?]. discriminate. }
    rewrite Hnone. cbn [andb]. rewrite Hinv. reflexivity.
Qed.

(** X16.  A one-sided holding and [max_imbalance_ratio < 1].  With risk
    parameters whose [max_imbalance_ratio] is below 1 and no reset
    parameters, a market that holds shares on one side only never gets a
    trade decision again: the larger side's share of the holding is 1, the
    risk gate refuses, and a tick does not change the holding.  Every tick
    of every later run ends with a no-trade reason. *)
Theorem one_sided_inventory_locks (market : string) (marketParams : MarketParams)
    (rp : RiskParams) (inv : InventoryState) (s : Side) (self : Integrator)
    (ticks : list (Q * Q * Q)) :
  risk_params marketParams = Some rp ->
  max_imbalance_ratio rp < 1 ->
  reset_params marketParams = None ->
  inventory self !! market = Some inv ->
  0 < side_shares s inv ->
  side_shares (opposite s) inv == 0 ->
  Forall (fun r => exists why, r = Ok why /\ In why no_trade_reasons)
    (fst (run_ticks market marketParams ticks self)).
Proof.
  intros Hrp Hratio Hreset Hinv Hpos Hzero. revert self Hinv.
  induction ticks as [| [[ts upPx] downPx] ticks IH]; intros self Hinv; [constructor |].
  cbn [run_ticks].
  destruct (tick_keeps_inventory market ts upPx downPx marketParams self inv Hreset Hinv)
    as [Hkept Hseen].
  pose proof (shouldTrade_outcome market ts upPx downPx marketParams self) as Houtcome.
  destruct (PolicyIntegrator.shouldTrade market ts upPx downPx marketParams self)
    as [r self'].
  cbn [fst snd] in Hkept, Houtcome. specialize (IH self' Hkept).
  destruct (run_ticks market marketParams ticks self') as [rs self''].
  cbn [fst] in IH |- *. constructor; [| exact IH]. subst r.
  match goal with |- context [tick_outcome ?id ?st ?mp ?lp ?f ?lt ?i ?rt ?n] =>
    destruct (tick_outcome_gates id st mp lp f lt i rt n)
      as [(why & -> & Hwhy) | (_ & _ & _ & ->)]
  end.
  - exists why. split; [reflexivity |]. cbn in Hwhy |- *. intuition.
  - rewrite Hseen.
    match goal with |- context [PolicyIntegrator.decide_entry ?st ?f ?i ?n ?mp ?id] =>
      pose proof (decide_entry_cases st f i n mp id) as Hcases;
      destruct (PolicyIntegrator.decide_entry st f i n mp id) as [d | e]
    end.
    + destruct Hcases as [[-> Hwhy] | (_ & _ & _ & _ & Hrisk & _)].
      * exists (d_reason d). split; [reflexivity | apply entry_reasons_no_trade, Hwhy].
      * rewrite Hrp, (one_sided_fails_risk inv s rp _ Hpos Hzero Hratio) in Hrisk.
        discriminate.
    + destruct Hcases as [Hrisk _].
      rewrite Hrp, (one_sided_fails_risk inv s rp _ Hpos Hzero Hratio) in Hrisk.
      discriminate.
Qed.

Lemma one_sided_inventory_locks_witness :
  Forall (fun r => exists why, r = Ok why /\ In why no_trade_reasons)
    (fst (run_ticks "BTC_15m" balanced_params
            [(2000, 1 # 2, 1 # 2); (3000, 1 # 2, 1 # 2)]
            (PolicyIntegrator.recordTradeExecution "BTC_15m" 1000 UP 1 (1 # 2)
               new_integrator))).
Proof.
  apply (one_sided_inventory_locks "BTC_15m" balanced_params
           {| max_trades_per_session := None; max_imbalance_ratio := 8 # 10;
              max_exposure_up_shares := 1000; max_exposure_down_shares := 1000 |}
           {| inv_up_shares := 0 + 1; inv_down_shares := 0;
              avg_cost_up := Some ((0 * 0 + (1 # 2)) / (0 + 1)); avg_cost_down := None |}
           UP).
  - reflexivity.
  - reflexivity.
  - reflexivity.
  - vm_compute. reflexivity.
  - reflexivity.
  - reflexivity.
Defined.

(** The first recorded trade is the last: under [balanced_params] the two
    ticks that follow it are refused by the risk gate. *)
Example first_trade_is_the_last :
  fst (run_ticks "BTC_15m" balanced_params [(2000, 1 # 2, 1 # 2); (3000, 1 # 2, 1 # 2)]
         (PolicyIntegrator.recordTradeExecution "BTC_15m" 1000 UP 1 (1 # 2) new_integrator))
  = [Ok "risk_limit_exceeded"; Ok "risk_limit_exceeded"].
Proof. vm_compute. reflexivity. Qed.

(** ** The parameter loader: what it serves *)

Lemma collect_fold {A} (field : ParameterLoader.MarketEntry -> option A)
    (newFormat : ParameterLoader.ParameterFile) (key : string) (keys : list string)
    (acc : gmap string A) :
  fold_left
    (fun (per_market : gmap string A) (marketKey : string) =>
       match ParameterLoader.pf_markets newFormat !! marketKey ≫= field with
       | Some v => <[marketKey := v]> per_market
       | None => per_market
       end) keys acc !! key
  = match (if bool_decide (key ∈ keys)
           then ParameterLoader.pf_markets newFormat !! key ≫= field else None) with
    | Some v => Some v
    | None => acc !! key
    end.
Proof.
  revert acc. induction keys as [| k keys IH]; intros acc; cbn [fold_left].
  - rewrite bool_decide_eq_false_2 by apply not_elem_of_nil. reflexivity.
  - rewrite IH. destruct (bool_decide (key ∈ keys)) eqn:Hlater.
    + apply bool_decide_eq_true in Hlater.
      rewrite (bool_decide_eq_true_2 (key ∈ k :: keys))
        by (apply elem_of_cons; right; exact Hlater).
      destruct (ParameterLoader.pf_markets newFormat !! key ≫= field) as [v |] eqn:Hv;
        [reflexivity |].
      destruct (decide (k = key)) as [-> | Hne].
      * rewrite Hv. reflexivity.
      * destruct (ParameterLoader.pf_markets newFormat !! k ≫= field);
          [rewrite lookup_insert_ne by congruence |]; reflexivity.
    + apply bool_decide_eq_false in Hlater.
      destruct (decide (k = key)) as [-> | Hne].
      * rewrite (bool_decide_eq_true_2 (key ∈ key :: keys))
          by (apply elem_of_cons; left; reflexivity).
        destruct (ParameterLoader.pf_markets newFormat !! key ≫= field) as [v |];
          [rewrite lookup_insert_eq |]; reflexivity.
      * rewrite (bool_decide_eq_false_2 (key ∈ k :: keys))
          by (intros [-> | Hin]%elem_of_cons; [congruence | exact (Hlater Hin)]).
        destruct (ParameterLoader.pf_markets newFormat !! k ≫= field);
          [rewrite lookup_insert_ne by congruence |]; reflexivity.
Qed.

Lemma collect_lookup {A} (field : ParameterLoader.MarketEntry -> option A)
    (newFormat : ParameterLoader.ParameterFile) (key : string) :
  ParameterLoader.collect field newFormat !! key
  = if bool_decide (key ∈ ParameterLoader.marketKeys)
    then ParameterLoader.pf_markets newFormat !! key ≫= field
    else None.
Proof.
  unfold ParameterLoader.collect. rewrite collect_fold, lookup_empty.
  destruct (if bool_decide _ then _ else _); reflexivity.
Qed.

(** X17.  A market-first document round-trips through the loader.  For
    a document in the market-first layout, [getMarketParams] on a new
    loader returns, for a key that normalises to one of the four market
    keys, exactly the four sections written under that market: a section
    the document leaves out is undefined. *)
Theorem market_first_round_trip (parsed : ParameterLoader.ParameterFile) (mtimeMs : Q)
    (marketKey : string) :
  ParameterLoader.isNewFormat parsed = true ->
  ParameterLoader.normalizeMarketKey marketKey ∈ ParameterLoader.marketKeys ->
  fst (ParameterLoader.getMarketParams
         (ParameterLoader.Present (ParameterLoader.Document parsed) mtimeMs) marketKey
         ParameterLoader.new_loader)
  = market_entry_params parsed (ParameterLoader.normalizeMarketKey marketKey).
Proof.
  intros Hnew Hkey.
  unfold ParameterLoader.getMarketParams, ParameterLoader.getParams,
    ParameterLoader.loadParams, ParameterLoader.new_loader.
  cbn [ParameterLoader.params fst]. rewrite Hnew.
  unfold ParameterLoader.validateParams, ParameterLoader.convertNewToOldFormat.
  cbn [ParameterLoader.pf_entry_params ParameterLoader.pf_size_params
       ParameterLoader.pf_inventory_params ParameterLoader.pf_cadence_params
       from_option id mbind option_bind].
  rewrite !collect_lookup. unfold market_entry_params.
  rewrite bool_decide_eq_true_2 by exact Hkey. reflexivity.
Qed.

Lemma market_first_round_trip_witness :
  fst (ParameterLoader.getMarketParams
         (ParameterLoader.Present (ParameterLoader.Document market_first_sample) 100)
         "BTC-UpDown-15" ParameterLoader.new_loader)
  = market_entry_params market_first_sample
      (ParameterLoader.normalizeMarketKey "BTC-UpDown-15").
Proof.
  apply (market_first_round_trip market_first_sample 100 "BTC-UpDown-15").
  - vm_compute. reflexivity.
  - apply elem_of_cons. left. vm_compute. reflexivity.
Defined.

Lemma validateParams_sections (p : ParameterLoader.ParameterFile) :
  ParameterLoader.isNewFormat (ParameterLoader.validateParams p) = false
  /\ ParameterLoader.validateParams (ParameterLoader.validateParams p)
     = ParameterLoader.validateParams p.
Proof.
  split.
  - unfold ParameterLoader.isNewFormat, ParameterLoader.validateParams.
    cbn [ParameterLoader.pf_entry_params].
    rewrite (bool_decide_eq_true_2 (is_Some (Some _))) by eauto.
    cbn. apply andb_false_r.
  - reflexivity.
Qed.

(** X18.  What [loadParams] returns is in normal form, whatever the file:
    all four sections are present, the document does not count as
    market-first, and loading it again (from a file that holds it) returns
    it unchanged. *)
Theorem loadParams_normal_form (file : ParameterLoader.File) (self : ParameterLoader.Loader) :
  let served := fst (ParameterLoader.loadParams file self) in
  is_Some (ParameterLoader.pf_entry_params served)
  /\ is_Some (ParameterLoader.pf_size_params served)
  /\ is_Some (ParameterLoader.pf_inventory_params served)
  /\ is_Some (ParameterLoader.pf_cadence_params served)
  /\ ParameterLoader.isNewFormat served = false
  /\ forall mtimeMs again,
       fst (ParameterLoader.loadParams
              (ParameterLoader.Present (ParameterLoader.Document served) mtimeMs) again)
       = served.
Proof.
  cbv zeta.
  assert (Hserved : exists p,
    fst (ParameterLoader.loadParams file self) = ParameterLoader.validateParams p).
  { unfold ParameterLoader.loadParams.
    destruct file as [| [| parsed] mtimeMs]; cbn [fst]; eauto;
      exists ParameterLoader.getDefaultParams; reflexivity. }
  destruct Hserved as [p ->].
  destruct (validateParams_sections p) as [Hold Hagain].
  split; [cbn; eauto |]. split; [cbn; eauto |]. split; [cbn; eauto |].
  split; [cbn; eauto |]. split; [exact Hold |].
  intros mtimeMs again. unfold ParameterLoader.loadParams. cbn [fst].
  rewrite Hold. exact Hagain.
Qed.

Lemma normalizeMarketKey_cases (marketKey : string) :
  ParameterLoader.normalizeMarketKey marketKey ∈ ParameterLoader.marketKeys
  \/ ParameterLoader.normalizeMarketKey marketKey = marketKey.
Proof.
  unfold ParameterLoader.normalizeMarketKey, ParameterLoader.marketKeys.
  repeat case_match; first [left; solve [repeat constructor] | right; reflexivity].
Qed.

(** X19.  Normalising a market key twice is normalising it once, and
    [getMarketParams] returns the same for a key and for its normal form
    (and leaves the loader in the same state). *)
Theorem normalizeMarketKey_idempotent (marketKey : string) (file : ParameterLoader.File)
    (self : ParameterLoader.Loader) :
  ParameterLoader.normalizeMarketKey (ParameterLoader.normalizeMarketKey marketKey)
  = ParameterLoader.normalizeMarketKey marketKey
  /\ ParameterLoader.getMarketParams file (ParameterLoader.normalizeMarketKey marketKey) self
     = ParameterLoader.getMarketParams file marketKey self.
Proof.
  assert (Hidem :
    ParameterLoader.normalizeMarketKey (ParameterLoader.normalizeMarketKey marketKey)
    = ParameterLoader.normalizeMarketKey marketKey).
  { destruct (normalizeMarketKey_cases marketKey) as [Hcanonical | Hsame].
    - unfold ParameterLoader.marketKeys in Hcanonical.
      apply elem_of_cons in Hcanonical as [-> | Hcanonical]; [reflexivity |].
      apply elem_of_cons in Hcanonical as [-> | Hcanonical]; [reflexivity |].
      apply elem_of_cons in Hcanonical as [-> | Hcanonical]; [reflexivity |].
      apply elem_of_cons in Hcanonical as [-> | Hcanonical]; [reflexivity |].
      apply elem_of_nil in Hcanonical. contradiction.
    - rewrite Hsame. exact Hsame. }
  split; [exact Hidem |].
  unfold ParameterLoader.getMarketParams.
  destruct (ParameterLoader.getParams file self) as [p self']. rewrite Hidem. reflexivity.
Qed.

(** X20.  Hot reload settles.  A second [startHotReload] does nothing;
    after the first one on an idle loader a snapshot is held; a second
    poll of the same file leaves the loader as the first poll left it
    (also for a file that does not parse); and a poll never leaves a
    loader that held a snapshot without one. *)
Theorem hot_reload_settles (file later : ParameterLoader.File)
    (self : ParameterLoader.Loader) :
  let started := ParameterLoader.startHotReload file self in
  ParameterLoader.startHotReload later started = started
  /\ (ParameterLoader.polling self = false -> is_Some (ParameterLoader.params started))
  /\ ParameterLoader.poll later (ParameterLoader.poll later self)
     = ParameterLoader.poll later self
  /\ (is_Some (ParameterLoader.params self) ->
      is_Some (ParameterLoader.params (ParameterLoader.poll later self))).
Proof.
  cbv zeta. repeat split.
  - unfold ParameterLoader.startHotReload.
    destruct (ParameterLoader.polling self) eqn:Hpolling; [rewrite Hpolling; reflexivity |].
    destruct (ParameterLoader.loadParams file self) as [p self']. reflexivity.
  - intros Hidle. unfold ParameterLoader.startHotReload. rewrite Hidle.
    destruct (ParameterLoader.loadParams file self) as [p self']. cbn. eauto.
  - unfold ParameterLoader.poll, ParameterLoader.loadParams.
    destruct later as [| [| parsed] mtimeMs]; [reflexivity | |];
      destruct (mtimeMs >? ParameterLoader.lastModified self) eqn:Hnewer;
      cbn [ParameterLoader.lastModified ParameterLoader.polling ParameterLoader.params];
      rewrite ?Hnewer; try reflexivity.
    assert (Hsame : (mtimeMs >? mtimeMs) = false) by (apply gtb_le, Qle_refl).
    rewrite Hsame. reflexivity.
  - intros Hheld. unfold ParameterLoader.poll, ParameterLoader.loadParams.
    destruct later as [| [| parsed] mtimeMs]; [exact Hheld | |];
      destruct (mtimeMs >? ParameterLoader.lastModified self); cbn; eauto.
Qed.

(** ** The integrator: a manual reset *)

(** X21.  [resetInventory].  After a reset of a market, or of all markets
    (no argument, or the empty string, which is falsy), the market has no
    last trade time, no recent trades and an empty inventory.  The price
    histories, the last-price snapshots, the decision counter and the
    session trade counts are as they were: a manual reset does not reset
    the session count the risk gate reads. *)
Theorem resetInventory_forgets (market : option string) (asked : string)
    (self : Integrator) :
  let after := resetInventory market self in
  (market = None \/ market = Some "" \/ market = Some asked ->
   getCadenceInfo asked after = (None, [])
   /\ fst (getInventoryState asked after) = empty_inventory)
  /\ priceHistory after = priceHistory self
  /\ lastPriceState after = lastPriceState self
  /\ tradesPerSession after = tradesPerSession self
  /\ decisionIdCounter after = decisionIdCounter self.
Proof.
  cbv zeta. split.
  - intros Hwhich. unfold resetInventory, getCadenceInfo, getInventoryState, getInventory.
    destruct Hwhich as [-> | [-> | ->]]; [| | destruct asked];
      integrator_fields; rewrite ?lookup_empty, ?lookup_delete_eq; split; reflexivity.
  - unfold resetInventory. destruct market as [[| c market] |]; repeat split.
Qed.

(** ** The earlier revision of [shouldTrade] *)

(** The earlier engine's entry signal checks the bands. *)
Lemma early_entrySignal_in_band (state : TapeState) (features : Features)
    (entryParams : option EntryParams) :
  let signal := PolicyEngineEarly.entrySignal state features entryParams in
  (should_trade signal = true
   /\ In (reason signal) trade_reasons
   /\ exists s ep, side signal = Some s /\ entryParams = Some ep /\ within_band s ep state)
  \/ (should_trade signal = false /\ side signal = None
      /\ (reason signal = "no_entry_params" \/ reason signal = "no_band_match")).
Proof.
  cbv zeta. unfold PolicyEngineEarly.entrySignal.
  destruct entryParams as [ep |]; [| right; cbn; auto].
  pose proof (in_band_within UP ep state) as Hup.
  pose proof (in_band_within DOWN ep state) as Hdown.
  cbn [band_min band_max side_price] in Hup, Hdown.
  destruct (PolicyEngine.in_band (up_price_min ep) (up_price_max ep) (up_px state));
    destruct (PolicyEngine.in_band (down_price_min ep) (down_price_max ep) (down_px state));
    unfold PolicyEngine.mode_check; destruct (mode ep); repeat case_match; simplify_eq;
    cbn [should_trade side reason PolicyEngine.no_signal andb];
    first
      [ right; repeat split; auto; fail
      | left; split; [reflexivity |]; split; [cbn; auto 10 |];
        first [ exists UP, ep; repeat split; apply Hup; reflexivity
              | exists DOWN, ep; repeat split; apply Hdown; reflexivity ] ].
Qed.

(** X22.  What the earlier revision of [shouldTrade] returns.  A decision
    carries the advanced counter and never a fill price.  A trade has
    passed the earlier cadence gate; the entry signal fired for a side
    whose price lies within its band; the shares are the earlier engine's
    size for that side; the side of the trade is what
    [inventoryOkAndRebalance], called without prices, makes of that side
    and the holding, which can be the other side.  A no-trade decision has
    one of four reasons. *)
Theorem early_shouldTrade_shape (market : string) (ts upPx downPx : Q)
    (marketParams : MarketParams) (self : Integrator) :
  let state := tick_state market ts upPx downPx in
  let features := tick_features market ts upPx downPx self in
  let signal := PolicyEngineEarly.entrySignal state features (entry_params marketParams) in
  let d := fst (PolicyIntegratorEarly.shouldTrade market ts upPx downPx marketParams self) in
  decisionId d = (decisionIdCounter self + 1)%Z
  /\ fillPrice d = None
  /\ if d_shouldTrade d
     then PolicyEngineEarly.cadenceOk (number_or_null (lastTradeTime self !! market))
            (default [] (recentTradeTimes self !! market))
            (cadence_params marketParams) ts = true
          /\ should_trade signal = true
          /\ d_reason d = reason signal
          /\ In (d_reason d) trade_reasons
          /\ exists s ep,
               side signal = Some s
               /\ entry_params marketParams = Some ep
               /\ within_band s ep state
               /\ d_shares d
                  = PolicyEngineEarly.sizeForTrade state features
                      (size_params marketParams) s
               /\ d_side d
                  = PolicyEngineEarly.inventoryOkAndRebalance (held market self)
                      (inventory_params marketParams) s None None None None
               /\ is_Some (d_side d)
     else d = no_trade (d_reason d) (decisionIdCounter self + 1)
          /\ In (d_reason d)
               ["cadence_blocked"; "no_entry_params"; "no_band_match";
                "inventory_limit_exceeded"].
Proof.
  cbv zeta. unfold PolicyIntegratorEarly.shouldTrade, tick_features, tick_state,
    history_seen, updatePriceHistory, tick_snapshot, PolicyEngineEarly.computeFeatures,
    held, getInventory, empty_inventory.
  integrator_fields. rewrite lookup_insert_eq. cbn [from_option id].
  destruct (PolicyEngineEarly.cadenceOk _ _ _ _) eqn:Hcadence; cbn [negb];
    [| cbn; repeat split; auto].
  match goal with
  | |- context [PolicyEngineEarly.entrySignal ?a ?b ?c] =>
      pose proof (early_entrySignal_in_band a b c) as Hsignal; cbv zeta in Hsignal;
      destruct (PolicyEngineEarly.entrySignal a b c) as [fires emitted why]
  end.
  cbn [should_trade side reason] in *.
  destruct Hsignal as [(-> & Hwhy & s & ep & -> & Hep & Hband) | (-> & -> & Hwhy)].
  2:{ cbn. repeat split. destruct Hwhy as [-> | ->]; auto. }
  destruct (inventory self !! market) as [inv |]; cbn [from_option id].
  all: match goal with
       | |- context [PolicyEngineEarly.inventoryOkAndRebalance ?i ?ip ?sd None None None None] =>
           destruct (PolicyEngineEarly.inventoryOkAndRebalance i ip sd None None None None)
             as [finalSide |] eqn:Hfinal
       end;
    cbn [fst d_shouldTrade decisionId fillPrice d_reason d_side d_shares no_trade].
  all: try (repeat split; cbn; auto 10; fail).
  all: split; [reflexivity |]; split; [reflexivity |]; split; [reflexivity |];
    split; [reflexivity |]; split; [reflexivity |]; split; [exact Hwhy |];
    exists s, ep; repeat split; first [assumption | symmetry; exact Hfinal | eauto].
Qed.

(** The earlier revision switches sides: with 90 UP and 10 DOWN shares
    held and [rebalance_ratio_R = 0.6], the entry signal names UP and the
    trade is on DOWN, at the size computed for UP. *)
Example early_rebalance_switches_side :
  fst (PolicyIntegratorEarly.shouldTrade "BTC_15m" 3000 (1 # 2) (1 # 2) rebalancing_params
         (PolicyIntegratorEarly.recordTradeExecution "BTC_15m" 2000 DOWN 10 5
            (PolicyIntegratorEarly.recordTradeExecution "BTC_15m" 1000 UP 90 45
               new_integrator)))
  = {| d_shouldTrade := true; d_side := Some DOWN; d_shares := 1;
       d_reason := "up_price_band"; decisionId := 1; fillPrice := None |}.
Proof. vm_compute. reflexivity. Qed.

(** ** The integrator: a market's first tick, and a tick that resets *)

(** X23.  A market's first tick is not held back.  For a market with no
    recorded trade and no holding, the cooldown never blocks a tick; when
    moreover no recent trade is on record and the cadence caps per second
    and per minute are positive, the cadence does not either. *)
Theorem fresh_market_not_held_back (market : string) (ts upPx downPx : Q)
    (marketParams : MarketParams) (self : Integrator) :
  lastTradeTime self !! market = None ->
  inventory self !! market = None ->
  match fst (PolicyIntegrator.shouldTrade market ts upPx downPx marketParams self) with
  | Ok d =>
      d_reason d <> "cooldown_blocked"
      /\ (recentTradeTimes self !! market = None ->
          (forall cp, cadence_params marketParams = Some cp ->
                      0 < max_trades_per_sec cp /\ 0 < max_trades_per_min cp) ->
          d_reason d <> "cadence_blocked")
  | Throw _ => True
  end.
Proof.
  intros Hlast Hinv.
  rewrite shouldTrade_outcome, Hlast.
  assert (Hseen : inventory_seen market ts marketParams self = empty_inventory).
  { unfold inventory_seen. rewrite Hinv. destruct (resets _ _ _ _); reflexivity. }
  rewrite Hseen. unfold tick_outcome. cbn [number_or_null from_option id timestamp].
  destruct (quality_gate _ _ _); [cbn; split; [| intros _ _]; discriminate |].
  assert (Hcooldown : forall features,
    PolicyEngine.checkCooldown None ts features empty_inventory
      (cooldown_params marketParams) = true).
  { intros features. unfold PolicyEngine.checkCooldown.
    destruct (cooldown_params marketParams) as [cd |]; [| reflexivity].
    destruct (price_move_threshold cd), (inventory_lockout_threshold cd);
      cbn; rewrite ?andb_false_r; reflexivity. }
  rewrite Hcooldown, andb_false_r.
  assert (Hentry : forall features tradesThisSession,
    match PolicyIntegrator.decide_entry
            {| timestamp := ts; up_px := upPx; down_px := downPx; market := market |}
            features empty_inventory tradesThisSession marketParams
            (decisionIdCounter self + 1) with
    | Ok d => d_reason d <> "cooldown_blocked" /\ d_reason d <> "cadence_blocked"
    | Throw _ => True
    end).
  { intros features tradesThisSession.
    match goal with |- context [PolicyIntegrator.decide_entry ?st ?f ?i ?n ?mp ?id] =>
      pose proof (decide_entry_cases st f i n mp id) as Hcases;
      destruct (PolicyIntegrator.decide_entry st f i n mp id) as [d | e]; [| exact I]
    end.
    destruct Hcases as [[_ Hwhy] | (_ & _ & Hwhy & _)];
      cbn in Hwhy; split; intros Heq; rewrite Heq in Hwhy;
      repeat (destruct Hwhy as [Hwhy | Hwhy]; [discriminate |]); exact Hwhy. }
  destruct (negb (PolicyEngine.cadenceOk None _ (cadence_params marketParams) ts))
    eqn:Hcadence.
  - cbn [d_reason no_trade]. split; [discriminate |].
    intros Hrecent Hcaps. exfalso. rewrite Hrecent in Hcadence.
    apply negb_true_iff in Hcadence.
    unfold PolicyEngine.cadenceOk in Hcadence.
    destruct (cadence_params marketParams) as [cp |] eqn:Hcp; [| discriminate].
    destruct (Hcaps cp eq_refl) as [Hsec Hmin].
    assert (Hs : forall start,
      (PolicyEngine.trades_in_window [] start ts >=? max_trades_per_sec cp) = false)
      by (intros start; apply geb_lt; exact Hsec).
    assert (Hm : forall start,
      (PolicyEngine.trades_in_window [] start ts >=? max_trades_per_min cp) = false)
      by (intros start; apply geb_lt; exact Hmin).
    cbn [from_option id] in Hcadence. rewrite Hs, Hm in Hcadence. discriminate.
  - match goal with |- context [PolicyIntegrator.decide_entry ?st ?f ?i ?n ?mp ?id] =>
      pose proof (Hentry f n) as Hd;
      destruct (PolicyIntegrator.decide_entry st f i n mp id) as [d | e]; [| exact I]
    end.
    destruct Hd as [Hcool Hcad]. split; [exact Hcool | intros _ _; exact Hcad].
Qed.

Lemma fresh_market_not_held_back_witness :
  match fst (PolicyIntegrator.shouldTrade "BTC_15m" 1000 (1 # 2) (1 # 2) paced_params
               new_integrator) with
  | Ok d =>
      d_reason d <> "cooldown_blocked"
      /\ (recentTradeTimes new_integrator !! "BTC_15m" = None ->
          (forall cp, cadence_params paced_params = Some cp ->
                      0 < max_trades_per_sec cp /\ 0 < max_trades_per_min cp) ->
          d_reason d <> "cadence_blocked")
  | Throw _ => True
  end.
Proof.
  apply (fresh_market_not_held_back "BTC_15m" 1000 (1 # 2) (1 # 2) paced_params
           new_integrator).
  - reflexivity.
  - reflexivity.
Defined.

(** With a cap of zero trades per second the cadence gate holds back even
    a market's first tick. *)
Example zero_cap_holds_back :
  fst (PolicyIntegrator.shouldTrade "BTC_15m" 1000 (1 # 2) (1 # 2) capped_params
         new_integrator)
  = Ok (no_trade "cadence_blocked" 1).
Proof. vm_compute. reflexivity. Qed.

(** X24.  A tick that resets ignores what was held.  When the reset rule
    fires, the tick decides as it would on an integrator without the
    market's inventory and session count: its gates see an empty inventory
    and a session of no trades. *)
Theorem reset_tick_ignores_holdings (market : string) (ts upPx downPx : Q)
    (marketParams : MarketParams) (self : Integrator) :
  resets market ts marketParams self = true ->
  fst (PolicyIntegrator.shouldTrade market ts upPx downPx marketParams self)
  = fst (PolicyIntegrator.shouldTrade market ts upPx downPx marketParams
           (with_tradesPerSession (delete market (tradesPerSession self))
              (with_inventory (delete market (inventory self)) self)))
  /\ inventory_seen market ts marketParams self = empty_inventory
  /\ trades_seen market ts marketParams self = 0.
Proof.
  intros Hresets. rewrite !shouldTrade_outcome.
  unfold inventory_seen, trades_seen, history_seen, resets in *. integrator_fields.
  rewrite Hresets. repeat split.
Qed.

Lemma reset_tick_ignores_holdings_witness :
  fst (PolicyIntegrator.shouldTrade "BTC_15m" 7300000 (1 # 2) (1 # 2) resetting_params
         (PolicyIntegrator.recordTradeExecution "BTC_15m" 1000 UP 1 (1 # 2) new_integrator))
  = fst (PolicyIntegrator.shouldTrade "BTC_15m" 7300000 (1 # 2) (1 # 2) resetting_params
           (with_tradesPerSession
              (delete "BTC_15m"
                 (tradesPerSession
                    (PolicyIntegrator.recordTradeExecution "BTC_15m" 1000 UP 1 (1 # 2)
                       new_integrator)))
              (with_inventory
                 (delete "BTC_15m"
                    (inventory
                       (PolicyIntegrator.recordTradeExecution "BTC_15m" 1000 UP 1 (1 # 2)
                          new_integrator)))
                 (PolicyIntegrator.recordTradeExecution "BTC_15m" 1000 UP 1 (1 # 2)
                    new_integrator))))
  /\ inventory_seen "BTC_15m" 7300000 resetting_params
       (PolicyIntegrator.recordTradeExecution "BTC_15m" 1000 UP 1 (1 # 2) new_integrator)
     = empty_inventory
  /\ trades_seen "BTC_15m" 7300000 resetting_params
       (PolicyIntegrator.recordTradeExecution "BTC_15m" 1000 UP 1 (1 # 2) new_integrator)
     = 0.
Proof.
  apply (reset_tick_ignores_holdings "BTC_15m" 7300000 (1 # 2) (1 # 2) resetting_params
           (PolicyIntegrator.recordTradeExecution "BTC_15m" 1000 UP 1 (1 # 2)
              new_integrator)).
  vm_compute. reflexivity.
Defined.

(** ** The fill price *)

(** X25.  The simulated fill price is the snapshot price plus an offset
    that depends on the execution parameters only, not on the side nor on
    the price: zero without parameters and for [snapshot_price], the
    slippage offset for [fixed_slippage]. *)
Theorem simulateFillPrice_offset (executionParams : option ExecutionParams) :
  exists offset,
    (forall s snapshotSidePx,
        PolicyEngine.simulateFillPrice s snapshotSidePx executionParams
        == snapshotSidePx + offset)
    /\ (executionParams = None -> offset == 0)
    /\ (forall ep, executionParams = Some ep ->
                   (model_type ep = snapshot_price -> offset == 0)
                   /\ (model_type ep = fixed_slippage -> offset == slippage_offset ep)).
Proof.
  unfold PolicyEngine.simulateFillPrice.
  destruct executionParams as [ep |].
  - destruct (model_type ep) eqn:Hmodel.
    + exists 0. repeat split; try discriminate; intros; simplify_eq; try rewrite Hmodel;
        try reflexivity; try ring; congruence.
    + exists (slippage_offset ep). repeat split; try discriminate; intros; simplify_eq;
        try rewrite Hmodel; try reflexivity; congruence.
    + exists (number_or (fill_bias_median ep) 0). repeat split; try discriminate; intros;
        simplify_eq; try rewrite Hmodel; try reflexivity; congruence.
    + exists (number_or (fill_bias_p75 ep) (number_or (fill_bias_median ep) 0)).
      repeat split; try discriminate; intros; simplify_eq; try rewrite Hmodel;
        try reflexivity; congruence.
  - exists 0. repeat split; try discriminate; intros; try ring; reflexivity.
Qed.
